(** * Verification of the SOVL configuration registry, curiosity engine and
      temperament system

    Shallow embedding of [sovl_config.py], [sovl_curiosity.py] and
    [sovl_temperament.py].

    Conventions of the embedding.
    - A Python value is a term of [value]; a [dict] is an association list in
      insertion order, written back in place on assignment, so that the
      mutation of a shared inner dict is visible through every path that
      reaches it.
    - A Python [float] is idealised as an exact rational ([Q]); a decimal
      literal of the source denotes the rational it spells.  The two special
      floats a JSON file can carry ([NaN], [Infinity]) are separate
      constructors of [value].
    - A method that mutates [self] is a function from the state before to the
      state after; a method that may raise returns an [outcome].
    - The logger, the clock, the file system, the random generator and the
      SHA-256 digest are collaborators outside the three modules: the log is
      a list of recorded event types, the time is an argument, the result of
      a file write is an argument, random samples are arguments, the digest is
      a section variable. *)

From Stdlib Require Import List String Ascii ZArith QArith Qabs Bool Lia Lqa.
Import ListNotations.

Set Implicit Arguments.
Set Warnings "-register-all".

(** ** Python values *)

Module Py.

Inductive value : Type :=
| VNone
| VBool (b : bool)
| VInt (z : Z)
| VFloat (q : Q)
| VFloatNaN
| VFloatInf (negative : bool)
| VStr (s : string)
| VList (l : list value)
| VDict (d : list (string * value))
| VObject (id : nat).

(** Exceptions the modelled code can raise. *)
Inductive exn : Type :=
| ValueError | KeyError | TypeError | AttributeError | RuntimeError
| ZeroDivisionError | OSError | UnicodeDecodeError | EOFError.

Inductive outcome (A : Type) : Type :=
| Ok (a : A)
| Raise (e : exn).

Arguments Ok {A} a.
Arguments Raise {A} e.

Definition bind {A B} (m : outcome A) (k : A -> outcome B) : outcome B :=
  match m with
  | Ok a => k a
  | Raise e => Raise e
  end.

(** The types a [ConfigSchema] can declare: those of DEFAULT_SCHEMA ([str],
    [list], [bool], [float], [int]), and for a schema registered later
    [dict] and [object], the type of every value. *)
Inductive pytype : Type :=
| TStr | TList | TBool | TFloat | TInt | TDict | TObject.

(** [isinstance(v, t)]; [bool] is a subclass of [int], and every value is an
    [object]. *)
Definition isinstance (v : value) (t : pytype) : bool :=
  match t, v with
  | TObject, _ => true
  | TStr, VStr _ => true
  | TList, VList _ => true
  | TBool, VBool _ => true
  | TFloat, VFloat _ => true
  | TFloat, VFloatNaN => true
  | TFloat, VFloatInf _ => true
  | TInt, VInt _ => true
  | TInt, VBool _ => true
  | TDict, VDict _ => true
  | _, _ => false
  end.

Definition is_none (v : value) : bool :=
  match v with VNone => true | _ => false end.

(** [v == {}] *)
Definition is_empty_dict (v : value) : bool :=
  match v with VDict [] => true | _ => false end.

Definition is_dict (v : value) : bool :=
  match v with VDict _ => true | _ => false end.

(** *** Dictionaries *)

Section Dict.
Variable V : Type.

Fixpoint dict_get (k : string) (d : list (string * V)) : option V :=
  match d with
  | [] => None
  | (k', v) :: d' => if String.eqb k k' then Some v else dict_get k d'
  end.

(** [d[k] = v]: an existing key keeps its position. *)
Fixpoint dict_set (k : string) (v : V) (d : list (string * V))
  : list (string * V) :=
  match d with
  | [] => [(k, v)]
  | (k', v') :: d' =>
      if String.eqb k k' then (k, v) :: d' else (k', v') :: dict_set k v d'
  end.

Definition dict_has (k : string) (d : list (string * V)) : bool :=
  match dict_get k d with Some _ => true | None => false end.
End Dict.

(** *** Strings *)

(** [s.split(sep)] for a one-character separator. *)
Fixpoint split (sep : ascii) (s : string) : list string :=
  match s with
  | EmptyString => [EmptyString]
  | String c rest =>
      if Ascii.eqb c sep then EmptyString :: split sep rest
      else match split sep rest with
           | hd :: tl => String c hd :: tl
           | [] => [String c EmptyString]
           end
  end.

(** [s.split(sep, 1)]: at most one cut. *)
Fixpoint split1 (sep : ascii) (s : string) : list string :=
  match s with
  | EmptyString => [EmptyString]
  | String c rest =>
      if Ascii.eqb c sep then [EmptyString; rest]
      else match split1 sep rest with
           | hd :: tl => String c hd :: tl
           | [] => [String c EmptyString]
           end
  end.

Definition dot : ascii := "."%char.

(** Comparison of a Python number with the bounds of a range:
    [lo <= v <= hi].  Non-numbers raise [TypeError]. *)
Definition between (lo hi : Q) (v : value) : outcome bool :=
  match v with
  | VInt z => Ok (Qle_bool lo (inject_Z z) && Qle_bool (inject_Z z) hi)
  | VBool b =>
      let q := if b then 1%Q else 0%Q in
      Ok (Qle_bool lo q && Qle_bool q hi)
  | VFloat q => Ok (Qle_bool lo q && Qle_bool q hi)
  | VFloatNaN => Ok false
  | VFloatInf _ => Ok false
  | _ => Raise TypeError
  end.

(** json.dumps succeeds on every value but an opaque object. *)
Fixpoint json_serializable (v : value) : bool :=
  match v with
  | VObject _ => false
  | VList l => forallb json_serializable l
  | VDict d => forallb (fun kv => json_serializable (snd kv)) d
  | _ => true
  end.

(** *** Numbers *)

Definition Qlt_bool (a b : Q) : bool := negb (Qle_bool b a).

(** [max(a, b)] and [min(a, b)] of two numbers: the second argument replaces
    the first only when it is strictly greater (strictly smaller). *)
Definition py_max (a b : Q) : Q := if Qlt_bool a b then b else a.
Definition py_min (a b : Q) : Q := if Qlt_bool b a then b else a.

(** [a / b] *)
Definition py_div (a b : Q) : outcome Q :=
  if Qeq_bool b 0 then Raise ZeroDivisionError else Ok (a / b)%Q.

End Py.

(** ** sovl_config.py *)

Module Config.
Import Py.

Local Open Scope string_scope.
Local Open Scope bool_scope.

(** *** ConfigSchema and the validators of DEFAULT_SCHEMA *)

Record ConfigSchema : Type := ConfigSchema_ {
  field : string;
  type : pytype;
  default : value;
  validator : option (value -> bool);
  range : option (Q * Q);
  required : bool;
  nullable : bool
}.

(** [lambda x: all(isinstance(i, t) for i in x)].  A validator runs after the
    type check, so [x] is a list wherever the schema declares [list]. *)
Definition all_isinstance (t : pytype) (x : value) : bool :=
  match x with
  | VList l => forallb (fun i => isinstance i t) l
  | _ => false
  end.

(** [lambda x: x in [...]] for a list of string literals. *)
Definition in_strs (opts : list string) (x : value) : bool :=
  match x with
  | VStr s => existsb (String.eqb s) opts
  | _ => false
  end.

(** Character class [[a-zA-Z0-9_/.-]]. *)
Definition path_char (c : ascii) : bool :=
  let n := nat_of_ascii c in
  (((97 <=? n) && (n <=? 122)) || ((65 <=? n) && (n <=? 90))
   || ((48 <=? n) && (n <=? 57))
   || (n =? 95) || (n =? 47) || (n =? 46) || (n =? 45))%nat.

(** [re.match(r'^[a-zA-Z0-9_/.-]+$', s)]: one or more characters of the class
    up to the end of the string; [$] also matches just before a final
    newline. *)
Fixpoint re_path_body (s : string) : bool :=
  match s with
  | EmptyString => false
  | String c rest =>
      path_char c &&
      match rest with
      | EmptyString => true
      | String "010"%char EmptyString => true
      | _ => re_path_body rest
      end
  end.

Definition re_match_path_chars (x : value) : bool :=
  match x with
  | VStr s => re_path_body s
  | _ => false
  end.

Local Open Scope Q_scope.

Definition DEFAULT_SCHEMA : list ConfigSchema :=
  [
    (* core_config *)
    ConfigSchema_ "core_config.base_model_name" TStr (VStr "gpt2") (None) (None) true false;
    ConfigSchema_ "core_config.scaffold_model_name" TStr (VStr "gpt2") (None) (None) true false;
    ConfigSchema_ "core_config.cross_attn_layers" TList (VList [VInt 5; VInt 7]) (Some (all_isinstance TInt)) (None) false false;
    ConfigSchema_ "core_config.use_dynamic_layers" TBool (VBool false) (None) (None) false false;
    ConfigSchema_ "core_config.layer_selection_mode" TStr (VStr "balanced") (Some (in_strs ["balanced"; "random"; "fixed"])) (None) false false;
    ConfigSchema_ "core_config.custom_layers" TList (VNone) (Some (fun x => is_none x || all_isinstance TInt x)) (None) false true;
    ConfigSchema_ "core_config.valid_split_ratio" TFloat (VFloat 0.2) (None) (Some (0.0, 1.0)) false false;
    ConfigSchema_ "core_config.random_seed" TInt (VInt 42) (None) (Some (0, 4294967296)) false false;
    ConfigSchema_ "core_config.quantization" TStr (VStr "fp16") (Some (in_strs ["fp16"; "int8"; "fp32"])) (None) false false;
    ConfigSchema_ "core_config.hidden_size" TInt (VInt 768) (None) (Some (128, 4096)) false false;
    (* lora_config *)
    ConfigSchema_ "lora_config.lora_rank" TInt (VInt 8) (None) (Some (1, 64)) false false;
    ConfigSchema_ "lora_config.lora_alpha" TInt (VInt 16) (None) (Some (1, 128)) false false;
    ConfigSchema_ "lora_config.lora_dropout" TFloat (VFloat 0.1) (None) (Some (0.0, 0.5)) false false;
    ConfigSchema_ "lora_config.lora_target_modules" TList (VList [VStr "c_attn"; VStr "c_proj"; VStr "c_fc"]) (Some (all_isinstance TStr)) (None) false false;
    (* training_config *)
    ConfigSchema_ "training_config.learning_rate" TFloat (VFloat 0.0003) (None) (Some (0.0, 0.01)) false false;
    ConfigSchema_ "training_config.train_epochs" TInt (VInt 3) (None) (Some (1, 10)) false false;
    ConfigSchema_ "training_config.batch_size" TInt (VInt 1) (None) (Some (1, 64)) false false;
    ConfigSchema_ "training_config.max_seq_length" TInt (VInt 128) (None) (Some (64, 2048)) false false;
    ConfigSchema_ "training_config.sigmoid_scale" TFloat (VFloat 0.5) (None) (Some (0.1, 10.0)) false false;
    ConfigSchema_ "training_config.sigmoid_shift" TFloat (VFloat 5.0) (None) (Some (0.0, 10.0)) false false;
    ConfigSchema_ "training_config.lifecycle_capacity_factor" TFloat (VFloat 0.01) (None) (Some (0.0, 1.0)) false false;
    ConfigSchema_ "training_config.lifecycle_curve" TStr (VStr "sigmoid_linear") (Some (in_strs ["sigmoid_linear"; "linear"; "exponential"])) (None) false false;
    ConfigSchema_ "training_config.accumulation_steps" TInt (VInt 4) (None) (Some (1, 16)) false false;
    ConfigSchema_ "training_config.exposure_gain_eager" TInt (VInt 3) (None) (Some (1, 10)) false false;
    ConfigSchema_ "training_config.exposure_gain_default" TInt (VInt 2) (None) (Some (1, 10)) false false;
    ConfigSchema_ "training_config.max_patience" TInt (VInt 2) (None) (Some (1, 5)) false false;
    ConfigSchema_ "training_config.sleep_max_steps" TInt (VInt 100) (None) (Some (10, 1000)) false false;
    ConfigSchema_ "training_config.lora_capacity" TInt (VInt 0) (None) (Some (0, 1000)) false false;
    ConfigSchema_ "training_config.dry_run" TBool (VBool false) (None) (None) false false;
    ConfigSchema_ "training_config.dry_run_params.max_samples" TInt (VInt 2) (None) (Some (1, 100)) false false;
    ConfigSchema_ "training_config.dry_run_params.max_length" TInt (VInt 128) (None) (Some (64, 2048)) false false;
    ConfigSchema_ "training_config.dry_run_params.validate_architecture" TBool (VBool true) (None) (None) false false;
    ConfigSchema_ "training_config.dry_run_params.skip_training" TBool (VBool true) (None) (None) false false;
    (* New training config fields *)
    ConfigSchema_ "training_config.weight_decay" TFloat (VFloat 0.01) (None) (Some (0.0, 0.1)) false false;
    ConfigSchema_ "training_config.total_steps" TInt (VInt 1000) (None) (Some (100, 10000)) false false;
    ConfigSchema_ "training_config.max_grad_norm" TFloat (VFloat 1.0) (None) (Some (0.1, 10.0)) false false;
    ConfigSchema_ "training_config.use_amp" TBool (VBool true) (None) (None) false false;
    ConfigSchema_ "training_config.checkpoint_interval" TInt (VInt 1000) (None) (Some (100, 10000)) false false;
    ConfigSchema_ "training_config.scheduler_type" TStr (VStr "linear") (Some (in_strs ["linear"; "cosine"; "constant"])) (None) false false;
    ConfigSchema_ "training_config.cosine_min_lr" TFloat (VFloat 1e-6) (None) (Some (1e-7, 1e-3)) false false;
    ConfigSchema_ "training_config.warmup_ratio" TFloat (VFloat 0.1) (None) (Some (0.0, 0.5)) false false;
    ConfigSchema_ "training_config.metrics_to_track" TList (VList [VStr "loss"; VStr "accuracy"; VStr "confidence"]) (Some (all_isinstance TStr)) (None) false false;
    ConfigSchema_ "training_config.repetition_n" TInt (VInt 3) (None) (Some (1, 10)) false false;
    ConfigSchema_ "training_config.checkpoint_path" TStr (VStr "checkpoints/sovl_trainer") (None) (None) false false;
    ConfigSchema_ "training_config.validate_every_n_steps" TInt (VInt 100) (None) (Some (10, 1000)) false false;
    (* curiosity_config *)
    ConfigSchema_ "curiosity_config.queue_maxlen" TInt (VInt 10) (None) (Some (1, 50)) false false;
    ConfigSchema_ "curiosity_config.novelty_history_maxlen" TInt (VInt 20) (None) (Some (5, 100)) false false;
    ConfigSchema_ "curiosity_config.decay_rate" TFloat (VFloat 0.9) (None) (Some (0.0, 1.0)) false false;
    ConfigSchema_ "curiosity_config.attention_weight" TFloat (VFloat 0.5) (None) (Some (0.0, 1.0)) false false;
    ConfigSchema_ "curiosity_config.question_timeout" TFloat (VFloat 3600.0) (None) (Some (60.0, 86400.0)) false false;
    ConfigSchema_ "curiosity_config.novelty_threshold_spontaneous" TFloat (VFloat 0.9) (None) (Some (0.0, 1.0)) false false;
    ConfigSchema_ "curiosity_config.novelty_threshold_response" TFloat (VFloat 0.8) (None) (Some (0.0, 1.0)) false false;
    ConfigSchema_ "curiosity_config.pressure_threshold" TFloat (VFloat 0.7) (None) (Some (0.0, 1.0)) false false;
    ConfigSchema_ "curiosity_config.pressure_drop" TFloat (VFloat 0.3) (None) (Some (0.0, 1.0)) false false;
    ConfigSchema_ "curiosity_config.silence_threshold" TFloat (VFloat 20.0) (None) (Some (0.0, 3600.0)) false false;
    ConfigSchema_ "curiosity_config.question_cooldown" TFloat (VFloat 60.0) (None) (Some (0.0, 3600.0)) false false;
    ConfigSchema_ "curiosity_config.weight_ignorance" TFloat (VFloat 0.7) (None) (Some (0.0, 1.0)) false false;
    ConfigSchema_ "curiosity_config.weight_novelty" TFloat (VFloat 0.3) (None) (Some (0.0, 1.0)) false false;
    ConfigSchema_ "curiosity_config.max_new_tokens" TInt (VInt 8) (None) (Some (1, 100)) false false;
    ConfigSchema_ "curiosity_config.base_temperature" TFloat (VFloat 1.1) (None) (Some (0.1, 2.0)) false false;
    ConfigSchema_ "curiosity_config.temperament_influence" TFloat (VFloat 0.4) (None) (Some (0.0, 1.0)) false false;
    ConfigSchema_ "curiosity_config.top_k" TInt (VInt 30) (None) (Some (1, 100)) false false;
    ConfigSchema_ "curiosity_config.enable_curiosity" TBool (VBool true) (None) (None) false false;
    (* cross_attn_config *)
    ConfigSchema_ "cross_attn_config.memory_weight" TFloat (VFloat 0.5) (None) (Some (0.0, 1.0)) false false;
    ConfigSchema_ "cross_attn_config.dynamic_scale" TFloat (VFloat 0.3) (None) (Some (0.0, 1.0)) false false;
    ConfigSchema_ "cross_attn_config.enable_dynamic" TBool (VBool true) (None) (None) false false;
    ConfigSchema_ "cross_attn_config.enable_memory" TBool (VBool true) (None) (None) false false;
    (* controls_config *)
    ConfigSchema_ "controls_config.sleep_conf_threshold" TFloat (VFloat 0.7) (None) (Some (0.0, 1.0)) false false;
    ConfigSchema_ "controls_config.sleep_time_factor" TFloat (VFloat 1.0) (None) (Some (0.1, 10.0)) false false;
    ConfigSchema_ "controls_config.sleep_log_min" TInt (VInt 10) (None) (Some (1, 100)) false false;
    ConfigSchema_ "controls_config.dream_swing_var" TFloat (VFloat 0.1) (None) (Some (0.0, 0.5)) false false;
    ConfigSchema_ "controls_config.dream_lifecycle_delta" TFloat (VFloat 0.1) (None) (Some (0.0, 0.5)) false false;
    ConfigSchema_ "controls_config.dream_temperament_on" TBool (VBool true) (None) (None) false false;
    ConfigSchema_ "controls_config.dream_noise_scale" TFloat (VFloat 0.05) (None) (Some (0.0, 0.1)) false false;
    ConfigSchema_ "controls_config.temp_eager_threshold" TFloat (VFloat 0.8) (None) (Some (0.7, 0.9)) false false;
    ConfigSchema_ "controls_config.temp_sluggish_threshold" TFloat (VFloat 0.6) (None) (Some (0.4, 0.6)) false false;
    ConfigSchema_ "controls_config.temp_mood_influence" TFloat (VFloat 0.0) (None) (Some (0.0, 1.0)) false false;
    ConfigSchema_ "controls_config.scaffold_weight_cap" TFloat (VFloat 0.9) (None) (Some (0.0, 1.0)) false false;
    ConfigSchema_ "controls_config.base_temperature" TFloat (VFloat 0.7) (None) (Some (0.1, 2.0)) false false;
    ConfigSchema_ "controls_config.save_path_prefix" TStr (VStr "state") (Some re_match_path_chars) (None) false false;
    ConfigSchema_ "controls_config.dream_memory_weight" TFloat (VFloat 0.1) (None) (Some (0.0, 1.0)) false false;
    ConfigSchema_ "controls_config.dream_memory_maxlen" TInt (VInt 10) (None) (Some (1, 50)) false false;
    ConfigSchema_ "controls_config.dream_prompt_weight" TFloat (VFloat 0.5) (None) (Some (0.0, 1.0)) false false;
    ConfigSchema_ "controls_config.dream_novelty_boost" TFloat (VFloat 0.03) (None) (Some (0.0, 0.1)) false false;
    ConfigSchema_ "controls_config.temp_curiosity_boost" TFloat (VFloat 0.5) (None) (Some (0.0, 0.5)) false false;
    ConfigSchema_ "controls_config.temp_restless_drop" TFloat (VFloat 0.1) (None) (Some (0.0, 0.5)) false false;
    ConfigSchema_ "controls_config.temp_melancholy_noise" TFloat (VFloat 0.02) (None) (Some (0.0, 0.05)) false false;
    ConfigSchema_ "controls_config.conf_feedback_strength" TFloat (VFloat 0.5) (None) (Some (0.0, 1.0)) false false;
    ConfigSchema_ "controls_config.temp_smoothing_factor" TFloat (VFloat 0.0) (None) (Some (0.0, 1.0)) false false;
    ConfigSchema_ "controls_config.dream_memory_decay" TFloat (VFloat 0.95) (None) (Some (0.0, 1.0)) false false;
    ConfigSchema_ "controls_config.dream_prune_threshold" TFloat (VFloat 0.1) (None) (Some (0.0, 0.5)) false false;
    ConfigSchema_ "controls_config.use_scaffold_memory" TBool (VBool true) (None) (None) false false;
    ConfigSchema_ "controls_config.use_token_map_memory" TBool (VBool true) (None) (None) false false;
    ConfigSchema_ "controls_config.memory_decay_rate" TFloat (VFloat 0.95) (None) (Some (0.0, 1.0)) false false;
    ConfigSchema_ "controls_config.dynamic_cross_attn_mode" TStr (VNone) (Some (fun x => is_none x || in_strs ["adaptive"; "fixed"] x)) (None) false true;
    ConfigSchema_ "controls_config.has_woken" TBool (VBool false) (None) (None) false false;
    ConfigSchema_ "controls_config.is_sleeping" TBool (VBool false) (None) (None) false false;
    ConfigSchema_ "controls_config.confidence_history_maxlen" TInt (VInt 5) (None) (Some (3, 10)) false false;
    ConfigSchema_ "controls_config.temperament_history_maxlen" TInt (VInt 5) (None) (Some (3, 10)) false false;
    ConfigSchema_ "controls_config.conversation_history_maxlen" TInt (VInt 10) (None) (Some (5, 50)) false false;
    ConfigSchema_ "controls_config.max_seen_prompts" TInt (VInt 1000) (None) (Some (100, 10000)) false false;
    ConfigSchema_ "controls_config.prompt_timeout" TFloat (VFloat 86400.0) (None) (Some (3600.0, 604800.0)) false false;
    ConfigSchema_ "controls_config.temperament_decay_rate" TFloat (VFloat 0.95) (None) (Some (0.0, 1.0)) false false;
    ConfigSchema_ "controls_config.scaffold_unk_id" TInt (VInt 0) (None) (Some (0, 100000)) false false;
    ConfigSchema_ "controls_config.enable_dreaming" TBool (VBool true) (None) (None) false false;
    ConfigSchema_ "controls_config.enable_temperament" TBool (VBool true) (None) (None) false false;
    ConfigSchema_ "controls_config.enable_confidence_tracking" TBool (VBool true) (None) (None) false false;
    ConfigSchema_ "controls_config.enable_gestation" TBool (VBool true) (None) (None) false false;
    ConfigSchema_ "controls_config.enable_sleep_training" TBool (VBool true) (None) (None) false false;
    ConfigSchema_ "controls_config.enable_cross_attention" TBool (VBool true) (None) (None) false false;
    ConfigSchema_ "controls_config.enable_dynamic_cross_attention" TBool (VBool true) (None) (None) false false;
    ConfigSchema_ "controls_config.enable_lora_adapters" TBool (VBool true) (None) (None) false false;
    ConfigSchema_ "controls_config.enable_repetition_check" TBool (VBool true) (None) (None) false false;
    ConfigSchema_ "controls_config.enable_prompt_driven_dreams" TBool (VBool true) (None) (None) false false;
    ConfigSchema_ "controls_config.enable_lifecycle_weighting" TBool (VBool true) (None) (None) false false;
    ConfigSchema_ "controls_config.memory_threshold" TFloat (VFloat 0.85) (None) (Some (0.0, 1.0)) false false;
    ConfigSchema_ "controls_config.enable_error_listening" TBool (VBool true) (None) (None) false false;
    ConfigSchema_ "controls_config.enable_scaffold" TBool (VBool true) (None) (None) false false;
    ConfigSchema_ "controls_config.injection_strategy" TStr (VStr "sequential") (Some (in_strs ["sequential"; "parallel"; "replace"])) (None) false false;
    (* logging_config *)
    ConfigSchema_ "logging_config.log_dir" TStr (VStr "logs") (None) (None) false false;
    ConfigSchema_ "logging_config.log_file" TStr (VStr "sovl_logs.jsonl") (None) (None) false false;
    ConfigSchema_ "logging_config.debug_log_file" TStr (VStr "sovl_debug.log") (None) (None) false false;
    ConfigSchema_ "logging_config.max_size_mb" TInt (VInt 10) (None) (Some (0, 100)) false false;
    ConfigSchema_ "logging_config.compress_old" TBool (VBool false) (None) (None) false false;
    ConfigSchema_ "logging_config.max_in_memory_logs" TInt (VInt 1000) (None) (Some (100, 10000)) false false;
    ConfigSchema_ "logging_config.schema_version" TStr (VStr "1.1") (None) (None) false false
  ].

Local Close Scope Q_scope.

(** *** _SchemaValidator *)

Definition schema_table := list (string * ConfigSchema).

(** [register]: [self.schemas.update({s.field: s for s in schemas})]. *)
Definition register (new : list ConfigSchema) (schemas : schema_table)
  : schema_table :=
  fold_left (fun tbl s => dict_set (field s) s tbl) new schemas.

(** [validate(key, value) -> (is_valid, corrected_value)].  The diagnostics it
    sends to [logger.record] do not influence the result and are left out. *)
Definition validate (schemas : schema_table) (key : string) (v : value)
  : outcome (bool * value) :=
  match dict_get key schemas with
  | None => Ok (false, VNone)
  | Some schema =>
      if is_none v then
        if required schema then Ok (false, default schema)
        else if nullable schema then Ok (true, v)
        else Ok (false, default schema)
      else if negb (isinstance v (type schema)) then
        Ok (false, default schema)
      else if match validator schema with
              | Some f => negb (f v)
              | None => false
              end then
        Ok (false, default schema)
      else
        match range schema with
        | Some (lo, hi) =>
            bind (between lo hi v) (fun inside =>
              if inside then Ok (true, v) else Ok (false, default schema))
        | None => Ok (true, v)
        end
  end.

(** *** _ConfigStore *)

Definition dict := list (string * value).

Record ConfigStore : Type := ConfigStore_ {
  flat_config : value;
  structured_config : dict;
  cache : dict
}.

Definition initial_store : ConfigStore :=
  {| flat_config := VDict [];
     structured_config :=
       [ ("core_config", VDict []);
         ("lora_config", VDict []);
         ("training_config", VDict [("dry_run_params", VDict [])]);
         ("curiosity_config", VDict []);
         ("cross_attn_config", VDict []);
         ("controls_config", VDict []);
         ("logging_config", VDict []) ];
     cache := [] |}.

(** [d.setdefault(k, {})]: the value bound to [k], a fresh empty dict when
    there is none. *)
Definition setdefault (k : string) (d : dict) : value :=
  match dict_get k d with
  | Some v => v
  | None => VDict []
  end.

(** [flat_config.setdefault(section, {})[fld] = v].  The inner dict is
    mutated in place: the updated dict is written back where it stood.
    Either the whole assignment happens or it raises with nothing changed. *)
Definition flat_set2 (section fld : string) (v flat : value) : outcome value :=
  match flat with
  | VDict d =>
      match setdefault section d with
      | VDict sd => Ok (VDict (dict_set section (VDict (dict_set fld v sd)) d))
      | _ => Raise TypeError
      end
  | _ => Raise AttributeError
  end.

(** [flat_config.setdefault(section, {}).setdefault(sub, {})[fld] = v]. *)
Definition flat_set3 (section sub fld : string) (v flat : value)
  : outcome value :=
  match flat with
  | VDict d =>
      match setdefault section d with
      | VDict sd =>
          match setdefault sub sd with
          | VDict ssd =>
              Ok (VDict (dict_set section
                           (VDict (dict_set sub (VDict (dict_set fld v ssd)) sd))
                           d))
          | _ => Raise TypeError
          end
      | _ => Raise AttributeError
      end
  | _ => Raise AttributeError
  end.

(** [structured_config[section][fld] = v]. *)
Definition structured_set2 (section fld : string) (v : value) (sc : dict)
  : outcome dict :=
  match dict_get section sc with
  | None => Raise KeyError
  | Some (VDict sd) => Ok (dict_set section (VDict (dict_set fld v sd)) sc)
  | Some _ => Raise TypeError
  end.

(** [structured_config[section][sub][fld] = v]. *)
Definition structured_set3 (section sub fld : string) (v : value) (sc : dict)
  : outcome dict :=
  match dict_get section sc with
  | None => Raise KeyError
  | Some (VDict sd) =>
      match dict_get sub sd with
      | None => Raise KeyError
      | Some (VDict ssd) =>
          Ok (dict_set section
                (VDict (dict_set sub (VDict (dict_set fld v ssd)) sd)) sc)
      | Some _ => Raise TypeError
      end
  | Some _ => Raise TypeError
  end.

Definition with_flat (f : value) (st : ConfigStore) : ConfigStore :=
  {| flat_config := f;
     structured_config := structured_config st;
     cache := cache st |}.

Definition with_structured (sc : dict) (st : ConfigStore) : ConfigStore :=
  {| flat_config := flat_config st;
     structured_config := sc;
     cache := cache st |}.

Definition with_cache (c : dict) (st : ConfigStore) : ConfigStore :=
  {| flat_config := flat_config st;
     structured_config := structured_config st;
     cache := c |}.

(** [set_value(key, value)].  The store returned with [Raise] is the store as
    the exception leaves it: the cache entry is written first, the flat map
    second, the structured tree last. *)
Definition set_value (key : string) (v : value) (st : ConfigStore)
  : ConfigStore * outcome unit :=
  let st1 := with_cache (dict_set key v (cache st)) st in
  match split dot key with
  | [section; fld] =>
      match flat_set2 section fld v (flat_config st1) with
      | Raise e => (st1, Raise e)
      | Ok flat' =>
          let st2 := with_flat flat' st1 in
          match structured_set2 section fld v (structured_config st2) with
          | Raise e => (st2, Raise e)
          | Ok sc' => (with_structured sc' st2, Ok tt)
          end
      end
  | [section; sub; fld] =>
      if (section =? "training_config") && (sub =? "dry_run_params") then
        match flat_set3 section sub fld v (flat_config st1) with
        | Raise e => (st1, Raise e)
        | Ok flat' =>
            let st2 := with_flat flat' st1 in
            match structured_set3 section sub fld v (structured_config st2) with
            | Raise e => (st2, Raise e)
            | Ok sc' => (with_structured sc' st2, Ok tt)
            end
        end
      else (st1, Ok tt)
  | _ => (st1, Ok tt)
  end.

(** The loop of [get_value] over the segments of the key and its final
    test [value if value != {} and value is not None else default]. *)
Fixpoint descend (keys : list string) (v dflt : value) : value :=
  match keys with
  | [] => if is_empty_dict v || is_none v then dflt else v
  | k :: ks =>
      match v with
      | VDict d =>
          descend ks (match dict_get k d with Some x => x | None => dflt end)
                  dflt
      | _ => dflt
      end
  end.

Definition get_value (key : string) (dflt : value) (st : ConfigStore) : value :=
  match dict_get key (cache st) with
  | Some v => v
  | None => descend (split dot key) (flat_config st) dflt
  end.

(** [get_section(section)]: [structured_config.get(section, {})]. *)
Definition get_section (section : string) (st : ConfigStore) : value :=
  match dict_get section (structured_config st) with
  | Some v => v
  | None => VDict []
  end.

(** One iteration of [rebuild_structured]. *)
Definition rebuild_one (schema : ConfigSchema) (st : ConfigStore)
  : ConfigStore * outcome unit :=
  let v := get_value (field schema) (default schema) st in
  match split dot (field schema) with
  | [section; fld] =>
      match structured_set2 section fld v (structured_config st) with
      | Raise e => (st, Raise e)
      | Ok sc' => (with_structured sc' st, Ok tt)
      end
  | [section; sub; fld] =>
      if (section =? "training_config") && (sub =? "dry_run_params") then
        match structured_set3 section "dry_run_params" fld v
                (structured_config st) with
        | Raise e => (st, Raise e)
        | Ok sc' => (with_structured sc' st, Ok tt)
        end
      else (st, Ok tt)
  | _ => (st, Ok tt)
  end.

Fixpoint rebuild_structured (schemas : list ConfigSchema) (st : ConfigStore)
  : ConfigStore * outcome unit :=
  match schemas with
  | [] => (st, Ok tt)
  | schema :: rest =>
      match rebuild_one schema st with
      | (st', Ok _) => rebuild_structured rest st'
      | (st', Raise e) => (st', Raise e)
      end
  end.

(** [update_cache]: the dict comprehension reads through the old cache and
    the result replaces it. *)
Definition update_cache (schemas : list ConfigSchema) (st : ConfigStore)
  : ConfigStore :=
  with_cache
    (fold_left
       (fun c schema =>
          dict_set (field schema)
                   (get_value (field schema) (default schema) st) c)
       schemas [])
    st.

(** *** _FileHandler *)

(** What [load] finds at [config_file], the same at each of its attempts:
    no file; a file whose reading raises one of the three exceptions that
    [load] catches ([FileNotFoundError], [json.JSONDecodeError],
    [gzip.BadGzipFile]); a file whose reading raises anything else (bytes
    that are not UTF-8 give [UnicodeDecodeError], a truncated gzip stream
    [EOFError], a directory or a file without read permission [OSError]); a
    file that holds a JSON value. *)
Inductive file_content : Type :=
| FileMissing
| FileCorrupt
| FileUnreadable (e : exn)
| FileJson (v : value).

(** [load]: the parsed JSON value; the empty dict when the file is missing,
    or after the last attempt when the exception is one it catches.  Any
    other exception leaves [load] at the first attempt. *)
Definition load (f : file_content) : outcome value :=
  match f with
  | FileJson v => Ok v
  | FileMissing | FileCorrupt => Ok (VDict [])
  | FileUnreadable e => Raise e
  end.

(** [save(config) -> bool]: [io_ok] is whether the file system lets one of the
    attempts through; [json.dump] fails on a value it cannot serialise. *)
Definition save (io_ok : bool) (config : value) : bool :=
  io_ok && json_serializable config.

(** *** ConfigManager *)

(** A subscriber: a callable without arguments, which returns or raises.  It
    may look at the store; the manager's lock is held while it runs, so it
    cannot call back into the manager. *)
Record callback : Type := callback_ {
  cb_id : nat;
  cb_call : ConfigStore -> outcome unit
}.

Record ConfigManager : Type := ConfigManager_ {
  store : ConfigStore;
  schemas : schema_table;            (* validator.schemas *)
  frozen : bool;                     (* _frozen *)
  last_config_hash : string;         (* _last_config_hash *)
  subscribers : list callback;       (* _subscribers *)
  saved : option value;              (* what save last wrote to the file *)
  notified : list nat;               (* callbacks invoked so far, in order *)
  log : list string                  (* event types given to record_event *)
}.

Definition with_store (st : ConfigStore) (m : ConfigManager) : ConfigManager :=
  {| store := st; schemas := schemas m; frozen := frozen m;
     last_config_hash := last_config_hash m; subscribers := subscribers m;
     saved := saved m; notified := notified m; log := log m |}.

Definition with_schemas (t : schema_table) (m : ConfigManager) : ConfigManager :=
  {| store := store m; schemas := t; frozen := frozen m;
     last_config_hash := last_config_hash m; subscribers := subscribers m;
     saved := saved m; notified := notified m; log := log m |}.

Definition with_frozen (b : bool) (m : ConfigManager) : ConfigManager :=
  {| store := store m; schemas := schemas m; frozen := b;
     last_config_hash := last_config_hash m; subscribers := subscribers m;
     saved := saved m; notified := notified m; log := log m |}.

Definition with_hash (h : string) (m : ConfigManager) : ConfigManager :=
  {| store := store m; schemas := schemas m; frozen := frozen m;
     last_config_hash := h; subscribers := subscribers m;
     saved := saved m; notified := notified m; log := log m |}.

Definition with_subscribers (l : list callback) (m : ConfigManager)
  : ConfigManager :=
  {| store := store m; schemas := schemas m; frozen := frozen m;
     last_config_hash := last_config_hash m; subscribers := l;
     saved := saved m; notified := notified m; log := log m |}.

Definition with_saved (f : option value) (m : ConfigManager) : ConfigManager :=
  {| store := store m; schemas := schemas m; frozen := frozen m;
     last_config_hash := last_config_hash m; subscribers := subscribers m;
     saved := f; notified := notified m; log := log m |}.

Definition with_notified (l : list nat) (m : ConfigManager) : ConfigManager :=
  {| store := store m; schemas := schemas m; frozen := frozen m;
     last_config_hash := last_config_hash m; subscribers := subscribers m;
     saved := saved m; notified := l; log := log m |}.

(** [logger.record_event(event_type=...)] *)
Definition record_event (event_type : string) (m : ConfigManager)
  : ConfigManager :=
  {| store := store m; schemas := schemas m; frozen := frozen m;
     last_config_hash := last_config_hash m; subscribers := subscribers m;
     saved := saved m; notified := notified m;
     log := log m ++ [event_type] |}.

Section Manager.

(** [hashlib.sha256(json.dumps(flat, sort_keys=True).encode()).hexdigest()[:16]] *)
Variable sha256_16 : value -> string.

(** [_compute_config_hash]: the empty string when the dump raises. *)
Definition compute_config_hash (m : ConfigManager) : string :=
  if json_serializable (flat_config (store m))
  then sha256_16 (flat_config (store m))
  else "".

(** [_validate_and_set_defaults] over the schemas still to visit. *)
Fixpoint validate_and_set_defaults (todo : list ConfigSchema)
  (m : ConfigManager) : ConfigManager * outcome unit :=
  match todo with
  | [] => (m, Ok tt)
  | schema :: rest =>
      let v := get_value (field schema) (default schema) (store m) in
      match validate (schemas m) (field schema) v with
      | Raise e => (m, Raise e)
      | Ok (true, _) => validate_and_set_defaults rest m
      | Ok (false, corrected_value) =>
          match set_value (field schema) corrected_value (store m) with
          | (st, Raise e) => (with_store st m, Raise e)
          | (st, Ok _) =>
              validate_and_set_defaults rest
                (record_event "config_validation" (with_store st m))
          end
      end
  end.

(** [_initialize_config].  Nothing in it or in [__init__] catches what
    [load] raises. *)
Definition initialize_config (f : file_content) (m : ConfigManager)
  : ConfigManager * outcome unit :=
  match load f with
  | Raise e => (m, Raise e)
  | Ok flat =>
      let m0 := with_store (with_flat flat (store m)) m in
      match validate_and_set_defaults DEFAULT_SCHEMA m0 with
      | (m1, Raise e) => (m1, Raise e)
      | (m1, Ok _) =>
          match rebuild_structured DEFAULT_SCHEMA (store m1) with
          | (st, Raise e) => (with_store st m1, Raise e)
          | (st, Ok _) =>
              let m2 := with_store (update_cache DEFAULT_SCHEMA st) m1 in
              let m3 := with_hash (compute_config_hash m2) m2 in
              (record_event "config_load" m3, Ok tt)
          end
      end
  end.

(** [ConfigManager.__init__(config_file, logger)]: an exception leaves no
    manager. *)
Definition init (f : file_content) : outcome ConfigManager :=
  let m := {| store := initial_store;
              schemas := register DEFAULT_SCHEMA [];
              frozen := false;
              last_config_hash := "";
              subscribers := [];
              saved := None;
              notified := [];
              log := [] |} in
  match initialize_config f m with
  | (m', Ok _) => Ok m'
  | (_, Raise e) => Raise e
  end.

Definition freeze (m : ConfigManager) : ConfigManager :=
  record_event "config_frozen" (with_frozen true m).

Definition unfreeze (m : ConfigManager) : ConfigManager :=
  record_event "config_unfrozen" (with_frozen false m).

(** [get(key, default)] *)
Definition get (key : string) (dflt : value) (m : ConfigManager)
  : ConfigManager * value :=
  let v := get_value key dflt (store m) in
  if is_empty_dict v || is_none v
  then (record_event "config_warning" m, dflt)
  else (m, v).

(** [update(key, value) -> bool]; every exception inside is caught, logged
    and turned into [False]. *)
Definition update (key : string) (v : value) (m : ConfigManager)
  : ConfigManager * bool :=
  if frozen m then (record_event "config_error" m, false)
  else
    match validate (schemas m) key v with
    | Raise _ => (record_event "config_error" m, false)
    | Ok (false, _) => (m, false)
    | Ok (true, _) =>
        match set_value key v (store m) with
        | (st, Raise _) => (record_event "config_error" (with_store st m), false)
        | (st, Ok _) =>
            let m1 := with_store st m in
            let m2 := with_hash (compute_config_hash m1) m1 in
            (record_event "config_update" m2, true)
        end
    end.

Definition cb_mem (c : callback) (l : list callback) : bool :=
  existsb (fun c' => Nat.eqb (cb_id c') (cb_id c)) l.

(** [subscribe]: [_subscribers.add(callback)] *)
Definition subscribe (c : callback) (m : ConfigManager) : ConfigManager :=
  if cb_mem c (subscribers m) then m
  else with_subscribers (subscribers m ++ [c]) m.

(** [unsubscribe]: [_subscribers.discard(callback)] *)
Definition unsubscribe (c : callback) (m : ConfigManager) : ConfigManager :=
  with_subscribers
    (filter (fun c' => negb (Nat.eqb (cb_id c') (cb_id c))) (subscribers m)) m.

(** The loop of [_notify_subscribers]: each callback runs inside its own
    [try]; what it raises is recorded and the loop goes on. *)
Fixpoint notify_loop (cbs : list callback) (m : ConfigManager)
  : ConfigManager :=
  match cbs with
  | [] => m
  | c :: rest =>
      let m1 := with_notified (notified m ++ [cb_id c]) m in
      match cb_call c (store m1) with
      | Ok _ => notify_loop rest m1
      | Raise _ => notify_loop rest (record_event "config_notification_error" m1)
      end
  end.

Definition notify_subscribers (m : ConfigManager) : ConfigManager :=
  notify_loop (subscribers m) m.

(** The truth value Python gives the tuple that [validate] returns: a tuple
    of two elements is never empty, hence always true. *)
Definition truthy (r : bool * value) : bool := true.

(** First loop of [update_batch]: "First validate all updates". *)
Fixpoint validate_updates (tbl : schema_table) (updates : dict)
  : outcome unit :=
  match updates with
  | [] => Ok tt
  | (key, v) :: rest =>
      bind (validate tbl key v) (fun r =>
        if negb (truthy r) then Raise ValueError
        else
          match split1 dot key with
          | [section; param] =>
              (* [section in schemas and param in schemas[section]]: a
                 ConfigSchema supports no [in] *)
              if dict_has section tbl then Raise TypeError
              else validate_updates tbl rest
          | _ => Raise ValueError
          end)
  end.

(** Second loop of [update_batch]: "Apply updates". *)
Fixpoint apply_updates (updates : dict) (st : ConfigStore)
  (successful_updates : list string)
  : ConfigStore * list string * outcome unit :=
  match updates with
  | [] => (st, successful_updates, Ok tt)
  | (key, v) :: rest =>
      match set_value key v st with
      | (st', Raise e) => (st', successful_updates, Raise e)
      | (st', Ok _) => apply_updates rest st' (successful_updates ++ [key])
      end
  end.

(** [backup = self.store.flat_config.copy()] is a shallow copy.  For a dict
    it holds the top-level bindings; the section dicts they point to are the
    very objects of the live map.  [set_value] never rebinds an existing
    top-level key, it mutates the section dict in place, so a binding of the
    backup always shows the current content of its section. *)
Inductive backup : Type :=
| BackupDict (keys : list string)
| BackupList (l : list value).

Definition copy (flat : value) : outcome backup :=
  match flat with
  | VDict d => Ok (BackupDict (map fst d))
  | VList l => Ok (BackupList l)
  | _ => Raise AttributeError
  end.

(** The value [self.store.flat_config = backup] installs, seen through the
    aliasing with the live map [flat]. *)
Definition restore (b : backup) (flat : value) : value :=
  match b, flat with
  | BackupDict keys, VDict d =>
      VDict (flat_map
               (fun k => match dict_get k d with
                         | Some v => [(k, v)]
                         | None => []
                         end) keys)
  | BackupDict keys, _ => flat
  | BackupList l, _ => VList l
  end.

(** The body of the [try] of [update_batch]. *)
Definition update_batch_try (io_ok : bool) (updates : dict) (m : ConfigManager)
  : ConfigManager * list string * outcome bool :=
  match validate_updates (schemas m) updates with
  | Raise e => (m, [], Raise e)
  | Ok _ =>
      match apply_updates updates (store m) [] with
      | (st, done, Raise e) => (with_store st m, done, Raise e)
      | (st, done, Ok _) =>
          let m1 := with_store st m in
          if save io_ok (flat_config st) then
            let m2 := with_saved (Some (flat_config st)) m1 in
            (notify_subscribers m2, done, Ok true)
          else (m1, done, Raise RuntimeError)
      end
  end.

(** [update_batch(updates, rollback_on_failure) -> bool] *)
Definition update_batch (io_ok : bool) (updates : dict)
  (rollback_on_failure : bool) (m : ConfigManager)
  : ConfigManager * outcome bool :=
  match updates with
  | [] => (m, Ok true)
  | _ =>
      match copy (flat_config (store m)) with
      | Raise e => (m, Raise e)
      | Ok bk =>
          match update_batch_try io_ok updates m with
          | (m1, _, Ok b) => (m1, Ok b)
          | (m1, _, Raise _) =>
              if rollback_on_failure then
                let st1 := with_flat (restore bk (flat_config (store m1)))
                                     (store m1) in
                match rebuild_structured DEFAULT_SCHEMA st1 with
                | (st2, Raise e) => (with_store st2 m1, Raise e)
                | (st2, Ok _) =>
                    let m2 := with_store (update_cache DEFAULT_SCHEMA st2) m1 in
                    let m3 := with_hash (compute_config_hash m2) m2 in
                    (record_event "config_rollback" m3, Ok false)
                end
              else (record_event "config_update_failed" m1, Ok false)
          end
      end
  end.

End Manager.

End Config.

(** ** sovl_curiosity.py *)

Module Curiosity.
Import Py.

Local Open Scope Q_scope.

(** [_clamp_score]: [max(0.0, min(1.0, score))] *)
Definition clamp_score (score : Q) : Q := py_max 0 (py_min 1 score).

(** *** CuriosityPressure *)

Record CuriosityPressure : Type := CuriosityPressure_ {
  base_pressure : Q;
  max_pressure : Q;
  min_pressure : Q;
  decay_rate : Q;
  confidence_adjustment : Q;
  current_pressure : Q;
  last_update : Q;
  last_eruption_time : Q;          (* _last_eruption_time *)
  cooldown : Q
}.

(** What [__init__] checks before it builds the object: the four pressures and
    rates lie in [0, 1], and [min <= base <= max]; [current] starts at
    [base]. *)
Definition constructed (p : CuriosityPressure) : Prop :=
  0 <= min_pressure p /\ min_pressure p <= base_pressure p /\
  base_pressure p <= max_pressure p /\ max_pressure p <= 1 /\
  0 <= decay_rate p /\ decay_rate p <= 1.

Definition with_pressure (c upd : Q) (p : CuriosityPressure)
  : CuriosityPressure :=
  {| base_pressure := base_pressure p; max_pressure := max_pressure p;
     min_pressure := min_pressure p; decay_rate := decay_rate p;
     confidence_adjustment := confidence_adjustment p;
     current_pressure := c; last_update := upd;
     last_eruption_time := last_eruption_time p; cooldown := cooldown p |}.

Definition with_eruption (c t : Q) (p : CuriosityPressure)
  : CuriosityPressure :=
  {| base_pressure := base_pressure p; max_pressure := max_pressure p;
     min_pressure := min_pressure p; decay_rate := decay_rate p;
     confidence_adjustment := confidence_adjustment p;
     current_pressure := c; last_update := last_update p;
     last_eruption_time := t; cooldown := cooldown p |}.

(** [decay_pressure(current_time)] *)
Definition decay_pressure (current_time : Q) (p : CuriosityPressure)
  : CuriosityPressure :=
  let elapsed := current_time - last_update p in
  let decay_factor := decay_rate p * elapsed in
  with_pressure
    (py_max (min_pressure p) (current_pressure p * (1 - decay_factor)))
    current_time p.

(** [check_eruption(threshold, drop)]; [now] is what [time.time()] returns. *)
Definition check_eruption (now threshold drop : Q) (p : CuriosityPressure)
  : CuriosityPressure * bool :=
  let p1 := decay_pressure now p in
  if Qle_bool threshold (current_pressure p1)
     && Qlt_bool (cooldown p1) (now - last_eruption_time p1)
  then (with_eruption (py_max (min_pressure p1) (current_pressure p1 - drop))
                      now p1, true)
  else (p1, false).

(** The pressure increase of [_maybe_generate_internal_question]:
    [current = min(max_pressure, current + score * 0.1)]. *)
Definition add_pressure (score : Q) (p : CuriosityPressure)
  : CuriosityPressure :=
  with_pressure
    (py_min (max_pressure p) (current_pressure p + score * 0.1))
    (last_update p) p.

(** The operations that reach a pressure object during its life. *)
Inductive pressure_op : Type :=
| OpDecay (now : Q)
| OpAdd (score : Q)
| OpCheck (now threshold drop : Q).

(** Runs the operations in order; returns the final state and the times at
    which [check_eruption] returned [True], oldest first. *)
Fixpoint run (ops : list pressure_op) (p : CuriosityPressure)
  : CuriosityPressure * list Q :=
  match ops with
  | [] => (p, [])
  | OpDecay now :: rest => run rest (decay_pressure now p)
  | OpAdd score :: rest => run rest (add_pressure score p)
  | OpCheck now threshold drop :: rest =>
      match check_eruption now threshold drop p with
      | (p', true) => let '(q, ts) := run rest p' in (q, now :: ts)
      | (p', false) => run rest p'
      end
  end.

(** *** Curiosity: the scorer *)

Record Curiosity : Type := Curiosity_ {
  weight_ignorance : Q;
  weight_novelty : Q;
  similarity_early_exit_threshold : Q;
  batch_size : Z;
  adaptive_batch_min : Z;
  adaptive_batch_max : Z
}.

(** [_validate_weights] *)
Definition validate_weights (ignorance novelty : Q) : outcome unit :=
  if negb (Qle_bool 0 ignorance && Qle_bool ignorance 1
           && Qle_bool 0 novelty && Qle_bool novelty 1)
  then Raise ValueError
  else if Qlt_bool 1e-6 (Qabs (ignorance + novelty - 1))
  then Raise ValueError
  else Ok tt.

(** A number read from the configuration. *)
Definition as_number (v : value) : option Q :=
  match v with
  | VFloat q => Some q
  | VInt z => Some (inject_Z z)
  | VBool b => Some (if b then 1 else 0)
  | _ => None
  end.

Definition as_int (v : value) : option Z :=
  match v with
  | VInt z => Some z
  | VBool b => Some (if b then 1 else 0)%Z
  | _ => None
  end.

(** [Curiosity.__init__]: the fields the scorer uses, read with
    [config_manager.get(key, default)].  A comparison with a value that is
    not a number raises [TypeError]. *)
Definition Curiosity_init (m : Config.ConfigManager) : outcome Curiosity :=
  let get k d := snd (Config.get k d m) in
  match as_number (get "curiosity_config.weight_ignorance"%string (VFloat 0.7)),
        as_number (get "curiosity_config.weight_novelty"%string (VFloat 0.3)),
        as_number (get "curiosity_config.similarity_early_exit_threshold"%string
                       (VFloat 0.99)),
        as_int (get "curiosity_config.adaptive_batch_min"%string (VInt 8)),
        as_int (get "curiosity_config.adaptive_batch_max"%string (VInt 128))
  with
  | Some wi, Some wn, Some thr, Some bmin, Some bmax =>
      bind (validate_weights wi wn) (fun _ =>
        Ok {| weight_ignorance := wi; weight_novelty := wn;
              similarity_early_exit_threshold := thr;
              batch_size := 32;
              adaptive_batch_min := bmin; adaptive_batch_max := bmax |})
  | _, _, _, _, _ => Raise TypeError
  end.

(** [range(0, stop, step)] for a positive step. *)
Definition py_range (stop step : nat) : list nat :=
  map (fun k => (k * step)%nat) (seq 0 ((stop + step - 1) / step)).

Section Scorer.

(** Embeddings are opaque to the scorer. *)
Variable E : Type.

(** [nn.CosineSimilarity] / [sovl_utils.cosine_similarity]: the library's. *)
Variable cosine_similarity : E -> E -> Q.

(** [self._estimate_adaptive_batch_size()]: class [Curiosity] defines no
    attribute of that name and has no base class, so the lookup raises
    [AttributeError] before anything is called. *)
Definition estimate_adaptive_batch_size (c : Curiosity) : outcome Z :=
  Raise AttributeError.

(** [self._log_event(...)] in [compute_curiosity]: class [Curiosity] defines
    [_log_error] only (the [_log_event] of the file is a method of
    [CuriosityPressure]), so this lookup raises [AttributeError] too. *)
Definition log_event (c : Curiosity) : outcome unit :=
  Raise AttributeError.

(** [similarities.max()] over a batch; an empty tensor has no maximum. *)
Definition tensor_max (l : list Q) : outcome Q :=
  match l with
  | [] => Raise RuntimeError
  | x :: r => Ok (fold_left py_max r x)
  end.

(** The [for i in range(0, len(memory), batch_size)] loop of
    [_compute_novelty_score], with its [break]. *)
Fixpoint novelty_loop (c : Curiosity) (bs : nat) (memory : list E) (query : E)
  (starts : list nat) (max_similarity : Q) : outcome Q :=
  match starts with
  | [] => Ok max_similarity
  | i :: rest =>
      let batch := firstn bs (skipn i memory) in
      let similarities := map (cosine_similarity query) batch in
      bind (tensor_max similarities) (fun batch_max =>
        let max_similarity' := py_max max_similarity batch_max in
        if Qle_bool (similarity_early_exit_threshold c) max_similarity'
        then Ok max_similarity'
        else novelty_loop c bs memory query rest max_similarity')
  end.

(** The body of [_compute_novelty_score] below the assignment of
    [batch_size]: the loop over the batches and the clamped result. *)
Definition novelty_body (c : Curiosity) (bs : Z) (memory : list E) (query : E)
  : outcome Q :=
  if (bs =? 0)%Z then Raise ValueError        (* range() refuses a zero step *)
  else
    let starts := if (bs <? 0)%Z then []      (* an empty range *)
                  else py_range (List.length memory) (Z.to_nat bs) in
    bind (novelty_loop c (Z.to_nat bs) memory query starts 0)
         (fun max_similarity => Ok (clamp_score (1 - max_similarity))).

(** [_compute_novelty_score(memory_embeddings, query_embedding, device)]:
    every exception of the body is caught and gives [0.0]. *)
Definition compute_novelty_score (c : Curiosity) (memory : list E) (query : E)
  : Q :=
  match bind (estimate_adaptive_batch_size c)
             (fun batch_size => novelty_body c batch_size memory query) with
  | Ok score => score
  | Raise _ => 0
  end.

(** [_get_valid_memory_embeddings(state)]: the embeddings of the state,
    copied batch by batch; [[]] when the copy raises. *)
Definition get_valid_memory_embeddings (c : Curiosity) (embeddings : list E)
  : list E :=
  if (batch_size c =? 0)%Z then []
  else if (batch_size c <? 0)%Z then []
  else
    flat_map (fun i => firstn (Z.to_nat (batch_size c)) (skipn i embeddings))
             (py_range (List.length embeddings) (Z.to_nat (batch_size c))).

(** The [novelty] that [compute_curiosity] computes. *)
Definition novelty_of (c : Curiosity) (embeddings : list E) (query : option E)
  : Q :=
  let memory_embeddings := get_valid_memory_embeddings c embeddings in
  match memory_embeddings, query with
  | _ :: _, Some q => compute_novelty_score c memory_embeddings q
  | _, _ => 0
  end.

(** [Curiosity.compute_curiosity(state, query_embedding, device)]:
    "curiosity score based on novelty only".  Every exception of the body is
    caught and gives [0.5]. *)
Definition compute_curiosity (c : Curiosity) (embeddings : list E)
  (query : option E) : Q :=
  let novelty := novelty_of c embeddings query in
  let final_score := novelty in
  match bind (log_event c) (fun _ => Ok (clamp_score final_score)) with
  | Ok score => score
  | Raise _ => 0.5
  end.

(** *** CuriosityManager: the score of a prompt *)

(** The recaller ([DialogueContextManager]): its embedder and the
    embeddings of the entries its long-term search returns for [top_k=1]
    ([None] for an entry without an ['embedding'] key). *)
Record Recaller : Type := Recaller_ {
  embedding_fn : string -> E;
  get_long_term_context : E -> list (option E)
}.

(** What the manager reaches through [state_manager] and [recaller]. *)
Record ManagerEnv : Type := ManagerEnv_ {
  has_state_manager : bool;
  seen_prompts : list string;
  get_prompt_embedding : string -> E;
  recaller : option Recaller
}.

(** [_calculate_novelty(prompt)]: "1.0 = most novel, 0.0 = not novel". *)
Definition calculate_novelty (env : ManagerEnv) (prompt : string) : outcome Q :=
  if negb (has_state_manager env) then Raise RuntimeError
  else
    match seen_prompts env with
    | [] => Ok 1
    | seen0 :: others =>
        let sim seen := cosine_similarity (get_prompt_embedding env prompt)
                                          (get_prompt_embedding env seen) in
        Ok (1 - fold_left py_max (map sim others) (sim seen0))
    end.

(** [_calculate_ignorance(prompt)] *)
Definition calculate_ignorance (env : ManagerEnv) (prompt : string)
  : outcome Q :=
  if negb (has_state_manager env) then Raise RuntimeError
  else
    match recaller env with
    | None => Ok 1
    | Some r =>
        let query_embedding := embedding_fn r prompt in
        match get_long_term_context r query_embedding with
        | Some best_embedding :: _ =>
            let similarity := cosine_similarity query_embedding best_embedding in
            Ok (py_max 0 (py_min 1 (1 - similarity)))
        | _ => Ok 1
        end
    end.

(** [calculate_curiosity_score(prompt)] *)
Definition calculate_curiosity_score (env : ManagerEnv) (prompt : string)
  : outcome Q :=
  bind (calculate_novelty env prompt) (fun novelty_score =>
  bind (calculate_ignorance env prompt) (fun ignorance_score =>
  Ok (0.5 * novelty_score + 0.5 * ignorance_score))).

End Scorer.

End Curiosity.

(** ** sovl_temperament.py *)

Module Temperament.
Import Py.

Local Open Scope Q_scope.

(** [TemperamentConfig]; [lifecycle_params], which the update never reads,
    is left out. *)
Record TemperamentConfig : Type := TemperamentConfig_ {
  eager_threshold : Q;
  sluggish_threshold : Q;
  mood_influence : Q;
  curiosity_boost : Q;
  restless_drop : Q;
  melancholy_noise : Q;
  confidence_feedback_strength : Q;
  temp_smoothing_factor : Q;
  decay_rate : Q;
  history_maxlen : nat;
  confidence_history_maxlen : nat;
  early_lifecycle : Q;
  mid_lifecycle : Q
}.

Definition within (lo hi x : Q) : bool := Qle_bool lo x && Qle_bool x hi.

(** [TemperamentConfig.validate]: the ranges of [_ranges] and
    [_history_ranges]; the constructor raises [ValueError] outside them. *)
Definition validate (c : TemperamentConfig) : bool :=
  within 0.7 0.9 (eager_threshold c)
  && within 0.3 0.6 (sluggish_threshold c)
  && within 0.0 1.0 (mood_influence c)
  && within 0.0 0.5 (curiosity_boost c)
  && within 0.0 0.5 (restless_drop c)
  && within 0.0 0.1 (melancholy_noise c)
  && within 0.0 1.0 (confidence_feedback_strength c)
  && within 0.0 1.0 (temp_smoothing_factor c)
  && within 0.0 1.0 (decay_rate c)
  && within 0.1 0.3 (early_lifecycle c)
  && within 0.6 0.8 (mid_lifecycle c)
  && ((3 <=? history_maxlen c) && (history_maxlen c <=? 10))%nat
  && ((3 <=? confidence_history_maxlen c)
      && (confidence_history_maxlen c <=? 10))%nat.

Record TemperamentSystem : Type := TemperamentSystem_ {
  config : TemperamentConfig;              (* _config *)
  score : Q;                               (* _score *)
  history : list Q;                        (* _history, oldest first *)
  confidence_history : list Q;             (* _confidence_history *)
  sleep_confidence_sum : Q;
  sleep_confidence_count : Z;
  last_update : Q;
  mood_cache : option string;
  mood_cache_time : Q
}.

(** [deque(maxlen=n).append(x)] *)
Definition deque_append (maxlen : nat) (x : Q) (d : list Q) : list Q :=
  let d' := d ++ [x] in
  skipn (List.length d' - maxlen) d'.

Section System.

(** [sovl_utils.float_lt], [sovl_utils.safe_divide] and [torch.var] are
    collaborators outside this module. *)
Variable float_lt : Q -> Q -> bool.
Variable safe_divide : Q -> Q -> Q -> Q.
Variable torch_var : list Q -> Q.

(** The label [mood_label] computes from the score. *)
Definition label_of (s : TemperamentSystem) : string :=
  if float_lt (score s) (-0.5) then "melancholic"%string
  else if float_lt (score s) 0.0 then "restless"%string
  else if float_lt (score s) (sluggish_threshold (config s)) then "calm"%string
  else "curious"%string.

Definition with_mood (c : option string) (t : Q) (s : TemperamentSystem)
  : TemperamentSystem :=
  {| config := config s; score := score s; history := history s;
     confidence_history := confidence_history s;
     sleep_confidence_sum := sleep_confidence_sum s;
     sleep_confidence_count := sleep_confidence_count s;
     last_update := last_update s;
     mood_cache := c; mood_cache_time := t |}.

(** The property [mood_label], read at time [now]: the cached label while it
    is younger than one second. *)
Definition mood_label (now : Q) (s : TemperamentSystem)
  : TemperamentSystem * string :=
  match mood_cache s with
  | Some l =>
      if Qlt_bool (now - mood_cache_time s) 1.0 then (s, l)
      else (with_mood (Some (label_of s)) now s, label_of s)
  | None => (with_mood (Some (label_of s)) now s, label_of s)
  end.

(** [_update_confidence] *)
Definition update_confidence (confidence : Q) (s : TemperamentSystem)
  : TemperamentSystem :=
  {| config := config s; score := score s; history := history s;
     confidence_history :=
       deque_append (confidence_history_maxlen (config s)) confidence
                    (confidence_history s);
     sleep_confidence_sum := sleep_confidence_sum s + confidence;
     sleep_confidence_count := (sleep_confidence_count s + 1)%Z;
     last_update := last_update s;
     mood_cache := mood_cache s; mood_cache_time := mood_cache_time s |}.

(** [_calculate_avg_confidence] *)
Definition calculate_avg_confidence (s : TemperamentSystem) : Q :=
  safe_divide (sleep_confidence_sum s)
              (inject_Z (sleep_confidence_count s)) 0.5.

(** [_calculate_lifecycle_bias] *)
Definition calculate_lifecycle_bias (lifecycle_stage : Q)
  (s : TemperamentSystem) : outcome Q :=
  let c := config s in
  if float_lt lifecycle_stage (early_lifecycle c) then
    bind (py_div lifecycle_stage (early_lifecycle c)) (fun r =>
      Ok (curiosity_boost c * (1 - r)))
  else if float_lt lifecycle_stage (mid_lifecycle c) then
    if (history_maxlen c <=? List.length (history s))%nat
    then Ok (-0.2 * torch_var (history s))
    else Ok 0.0
  else
    bind (py_div (lifecycle_stage - mid_lifecycle c) (1.0 - mid_lifecycle c))
         (fun r => Ok (- curiosity_boost c * r)).

(** [_calculate_noise]; [g1] and [g2] are the samples [torch.randn] draws. *)
Definition calculate_noise (now g1 g2 : Q) (s : TemperamentSystem)
  : TemperamentSystem * Q :=
  let noise := g1 * melancholy_noise (config s) in
  let '(s1, label) := mood_label now s in
  if String.eqb label "melancholic"
  then (s1, noise + g2 * melancholy_noise (config s))
  else (s1, noise).

(** [_compute_target_score] *)
Definition compute_target_score (now g1 g2 avg_confidence lifecycle_stage : Q)
  (curiosity_pressure : option Q) (s : TemperamentSystem)
  : TemperamentSystem * outcome Q :=
  let base_score := 2.0 * (avg_confidence - 0.5) in
  match calculate_lifecycle_bias lifecycle_stage s with
  | Raise e => (s, Raise e)
  | Ok bias =>
      let target_score :=
        base_score + bias
        + confidence_feedback_strength (config s) * (avg_confidence - 0.5) in
      let target_score :=
        match curiosity_pressure with
        | Some cp => target_score + curiosity_boost (config s) * cp
        | None => target_score
        end in
      let '(s1, noise) := calculate_noise now g1 g2 s in
      let target_score := target_score + noise in
      (s1, Ok (py_max (-1.0) (py_min 1.0 target_score)))
  end.

(** [_apply_smoothing] *)
Definition apply_smoothing (now target_score : Q) (time_since_last : option Q)
  (s : TemperamentSystem) : TemperamentSystem :=
  let time_since_last :=
    match time_since_last with
    | Some t => t
    | None => now - last_update s
    end in
  let decay := decay_rate (config s) * time_since_last in
  let smoothing := temp_smoothing_factor (config s) * (1.0 - decay) in
  let score1 := (1.0 - smoothing) * target_score + smoothing * score s in
  {| config := config s;
     score := py_max (-1.0) (py_min 1.0 score1);
     history := history s;
     confidence_history := confidence_history s;
     sleep_confidence_sum := sleep_confidence_sum s;
     sleep_confidence_count := sleep_confidence_count s;
     last_update := last_update s;
     mood_cache := mood_cache s; mood_cache_time := mood_cache_time s |}.

(** [_update_state] *)
Definition update_state (now : Q) (s : TemperamentSystem) : TemperamentSystem :=
  {| config := config s; score := score s;
     history := deque_append (history_maxlen (config s)) (score s) (history s);
     confidence_history := confidence_history s;
     sleep_confidence_sum := sleep_confidence_sum s;
     sleep_confidence_count := sleep_confidence_count s;
     last_update := now;
     mood_cache := None; mood_cache_time := mood_cache_time s |}.

(** [update_temperament(confidence, lifecycle_stage, time_since_last,
    curiosity_pressure)].  The handler logs and re-raises: an exception leaves
    the state as the failing step left it.  The two log records read
    [mood_label], which fills the cache again. *)
Definition update_temperament (now g1 g2 confidence lifecycle_stage : Q)
  (time_since_last curiosity_pressure : option Q) (s : TemperamentSystem)
  : TemperamentSystem * outcome unit :=
  if negb (within 0.0 1.0 confidence) then (s, Raise ValueError)
  else if negb (within 0.0 1.0 lifecycle_stage) then (s, Raise ValueError)
  else if match curiosity_pressure with
          | Some cp => negb (within 0.0 1.0 cp)
          | None => false
          end then (s, Raise ValueError)
  else
    let s1 := update_confidence confidence s in
    let avg_confidence := calculate_avg_confidence s1 in
    match compute_target_score now g1 g2 avg_confidence lifecycle_stage
            curiosity_pressure s1 with
    | (s2, Raise e) => (s2, Raise e)
    | (s2, Ok target_score) =>
        let s3 := apply_smoothing now target_score time_since_last s2 in
        let s4 := update_state now s3 in
        (fst (mood_label now s4), Ok tt)
    end.

End System.

End Temperament.

(** ** sovl_config.py: further operations of the manager *)

Module ConfigOps.
Import Py Config.

Local Open Scope string_scope.
Local Open Scope bool_scope.

(** [isinstance(value, (int, float))] *)
Definition is_number (v : value) : bool :=
  match v with
  | VInt _ | VBool _ | VFloat _ | VFloatNaN | VFloatInf _ => true
  | _ => false
  end.

(** [ConfigManager.validate_value(key, value) -> bool]: the schema is looked
    up in DEFAULT_SCHEMA; every refusal is logged as [config_error]; an
    exception is caught and gives [False]. *)
Definition validate_value (key : string) (v : value) (m : ConfigManager)
  : ConfigManager * bool :=
  match find (fun s => String.eqb (field s) key) DEFAULT_SCHEMA with
  | None => (record_event "config_error" m, false)
  | Some schema =>
      if negb (isinstance v (type schema)) then
        (record_event "config_error" m, false)
      else
        match (match range schema with
               | Some (lo, hi) =>
                   if is_number v then between lo hi v else Ok true
               | None => Ok true
               end) with
        | Raise _ => (record_event "config_error" m, false)
        | Ok false => (record_event "config_error" m, false)
        | Ok true =>
            if match validator schema with
               | Some f => negb (f v)
               | None => false
               end
            then (record_event "config_error" m, false)
            else (m, true)
        end
  end.

(** [tune] with keyword arguments [kwargs]: [update_batch(kwargs)], with the default
    [rollback_on_failure=True].  [kwargs] is a dict of keyword names: a name
    written as a keyword in a call is an identifier, a name passed by
    unpacking a dict can be any string. *)
Definition tune (sha256_16 : value -> string) (io_ok : bool) (kwargs : dict)
  (m : ConfigManager) : ConfigManager * outcome bool :=
  update_batch sha256_16 io_ok kwargs true m.

(** A Python dict holds each key once: the condition under which an
    association list stands for the flat map. *)
Definition distinct_keys (v : value) : Prop :=
  match v with
  | VDict d => NoDup (map fst d)
  | _ => True
  end.

(** Whether a key contains the separator of dotted keys. *)
Definition has_dot (key : string) : bool :=
  existsb (Ascii.eqb dot) (list_ascii_of_string key).

(** [arg is not None and lo <= arg <= hi]: the test [set_global_blend]
    makes on each argument.  Comparing a value that is not a number raises
    [TypeError]. *)
Definition given_within (lo hi : Q) (arg : value) : outcome bool :=
  if is_none arg then Ok false else between lo hi arg.

(** [set_global_blend(weight_cap, base_temp)]; an argument left out is
    [None].  Nothing catches the [TypeError] of a comparison.  The argument
    goes into the batch as it is: an [int] stays an [int]. *)
Definition set_global_blend (sha256_16 : value -> string) (io_ok : bool)
  (weight_cap base_temp : value) (m : ConfigManager)
  : ConfigManager * outcome bool :=
  let updates : dict := [] in
  match given_within 0.5 1.0 weight_cap with
  | Raise e => (m, Raise e)
  | Ok put_cap =>
      let updates :=
        if put_cap
        then dict_set "controls_config.scaffold_weight_cap" weight_cap updates
        else updates in
      match given_within 0.5 1.5 base_temp with
      | Raise e => (m, Raise e)
      | Ok put_temp =>
          let updates :=
            if put_temp
            then dict_set "controls_config.base_temperature" base_temp updates
            else updates in
          match updates with
          | [] => (m, Ok true)
          | _ => update_batch sha256_16 io_ok updates true m
          end
      end
  end.

(** The batch [set_global_blend] hands to [update_batch] when no comparison
    raises. *)
Definition blend_updates (weight_cap base_temp : value) : dict :=
  app
    (match given_within 0.5 1.0 weight_cap with
     | Ok true => [("controls_config.scaffold_weight_cap", weight_cap)]
     | _ => []
     end)
    (match given_within 0.5 1.5 base_temp with
     | Ok true => [("controls_config.base_temperature", base_temp)]
     | _ => []
     end).

(** [not v]: the values Python takes as false. *)
Definition falsy (v : value) : bool :=
  match v with
  | VNone => true
  | VBool b => negb b
  | VInt z => (z =? 0)%Z
  | VFloat q => Qeq_bool q 0
  | VStr s => String.eqb s ""
  | VList [] => true
  | VDict [] => true
  | _ => false
  end.

(** [save_config()]: the flat map goes to the file. *)
Definition save_config (io_ok : bool) (m : ConfigManager)
  : ConfigManager * bool :=
  if save io_ok (flat_config (store m))
  then (with_saved (Some (flat_config (store m))) m, true)
  else (m, false).

(** [get_state()]: the flat map, the freeze flag and the hash ([config_file]
    is not part of the model). *)
Definition get_state (m : ConfigManager) : value * bool * string :=
  (flat_config (store m), frozen m, last_config_hash m).

(** The four statements that [load_state] and [load_profile] run once the
    flat map is replaced: [_validate_and_set_defaults],
    [rebuild_structured], [update_cache] and the new hash, followed by the
    log record [event]. *)
Definition revalidate (sha256_16 : value -> string) (event : string)
  (m : ConfigManager) : ConfigManager * outcome unit :=
  match validate_and_set_defaults DEFAULT_SCHEMA m with
  | (m1, Raise e) => (m1, Raise e)
  | (m1, Ok _) =>
      match rebuild_structured DEFAULT_SCHEMA (store m1) with
      | (st, Raise e) => (with_store st m1, Raise e)
      | (st, Ok _) =>
          let m2 := with_store (update_cache DEFAULT_SCHEMA st) m1 in
          let m3 := with_hash (compute_config_hash sha256_16 m2) m2 in
          (record_event event m3, Ok tt)
      end
  end.

(** [load_state(state)]: [config] is [state.get("config")] and [frozen'] is
    [state.get("frozen")], [None] for a missing key.  An exception is logged
    and raised again. *)
Definition load_state (sha256_16 : value -> string) (config : option value)
  (frozen' : option bool) (m : ConfigManager)
  : ConfigManager * outcome unit :=
  let flat := match config with Some c => c | None => VDict [] end in
  let fr := match frozen' with Some b => b | None => false end in
  let m0 := with_frozen fr (with_store (with_flat flat (store m)) m) in
  match revalidate sha256_16 "config_load_state" m0 with
  | (m1, Raise e) => (record_event "config_error" m1, Raise e)
  | (m1, Ok _) => (m1, Ok tt)
  end.

(** [load_profile(profile) -> bool].  The file read is the manager's own
    configuration file, [f]: the name built from [profile] appears in the log
    messages only. *)
Definition load_profile (sha256_16 : value -> string) (f : file_content)
  (m : ConfigManager) : ConfigManager * bool :=
  match load f with
  | Raise _ => (record_event "config_error" m, false)
  | Ok config =>
      if falsy config then (record_event "config_error" m, false)
      else
        let m0 := with_store (with_flat config (store m)) m in
        match revalidate sha256_16 "profile_load" m0 with
        | (m1, Raise _) => (record_event "config_error" m1, false)
        | (m1, Ok _) => (m1, true)
        end
  end.

(** [key in container] for a string [key]. *)
Definition contains (container : value) (key : string) : outcome bool :=
  match container with
  | VDict d => Ok (dict_has key d)
  | VList l =>
      Ok (existsb (fun x => match x with
                            | VStr s => String.eqb s key
                            | _ => false
                            end) l)
  | VStr s =>
      Ok (match String.index 0 key s with Some _ => true | None => false end)
  | _ => Raise TypeError
  end.

(** The comprehension [[key for key in required_keys if key not in c]]. *)
Fixpoint missing_from (container : value) (required_keys : list string)
  : outcome (list string) :=
  match required_keys with
  | [] => Ok []
  | key :: rest =>
      bind (contains container key) (fun present =>
      bind (missing_from container rest) (fun missing =>
        Ok (if present then missing else key :: missing)))
  end.

(** [validate_section(section, required_keys) -> bool] *)
Definition validate_section (section : string) (required_keys : list string)
  (m : ConfigManager) : ConfigManager * bool :=
  match dict_get section (structured_config (store m)) with
  | None => (record_event "config_error" m, false)
  | Some container =>
      match missing_from container required_keys with
      | Raise _ => (record_event "config_error" m, false)
      | Ok [] => (m, true)
      | Ok (_ :: _) => (record_event "config_error" m, false)
      end
  end.

(** [register_schema(schemas)]; an exception is logged and swallowed, after
    whatever it had already changed. *)
Definition register_schema (sha256_16 : value -> string)
  (new : list ConfigSchema) (m : ConfigManager) : ConfigManager :=
  if frozen m then record_event "config_error" m
  else
    let m0 := with_schemas (register new (schemas m)) m in
    match validate_and_set_defaults DEFAULT_SCHEMA m0 with
    | (m1, Raise _) => record_event "config_error" m1
    | (m1, Ok _) =>
        match rebuild_structured (DEFAULT_SCHEMA ++ new) (store m1) with
        | (st, Raise _) => record_event "config_error" (with_store st m1)
        | (st, Ok _) =>
            let m2 :=
              with_store (update_cache (DEFAULT_SCHEMA ++ new) st) m1 in
            let m3 := with_hash (compute_config_hash sha256_16 m2) m2 in
            record_event "schema_registered" m3
        end
    end.

Section Tuning.

(** [a < b] and [a > b] between two Python values: a truth value, or
    [TypeError] when the values cannot be ordered. *)
Variable py_lt : value -> value -> outcome bool.
Variable py_gt : value -> value -> outcome bool.

(** [tune_parameter(section, key, value, min_value, max_value) -> bool].
    After the range checks it calls [self.update(section, key, value)];
    [update] takes a key and a value, so the call raises [TypeError] before
    the body of [update] runs, and the handler logs it and returns
    [False]. *)
Definition tune_parameter (section key : string) (v : value)
  (min_value max_value : option value) (m : ConfigManager)
  : ConfigManager * bool :=
  match (match min_value with
         | Some lo => py_lt v lo
         | None => Ok false
         end) with
  | Raise _ => (record_event "config_error" m, false)
  | Ok true => (record_event "config_error" m, false)
  | Ok false =>
      match (match max_value with
             | Some hi => py_gt v hi
             | None => Ok false
             end) with
      | Raise _ => (record_event "config_error" m, false)
      | Ok true => (record_event "config_error" m, false)
      | Ok false => (record_event "config_error" m, false)
      end
  end.

End Tuning.

End ConfigOps.

(** * Numbers *)

Module PyFacts.
Import Py.

Unset Implicit Arguments.
Local Open Scope Q_scope.

Lemma Qlt_bool_iff (a b : Q) : Qlt_bool a b = true <-> a < b.
Proof.
  unfold Qlt_bool. rewrite negb_true_iff. split.
  - intros H. apply Qnot_le_lt. intros Hle.
    apply Qle_bool_iff in Hle. congruence.
  - intros H. destruct (Qle_bool b a) eqn:E; [|reflexivity].
    apply Qle_bool_iff in E. exfalso. exact (Qlt_not_le _ _ H E).
Qed.

Lemma Qlt_bool_false (a b : Q) : Qlt_bool a b = false <-> b <= a.
Proof.
  unfold Qlt_bool. rewrite negb_false_iff. apply Qle_bool_iff.
Qed.

Lemma py_max_cases (a b : Q) :
  (a < b /\ py_max a b = b) \/ (b <= a /\ py_max a b = a).
Proof.
  unfold py_max. destruct (Qlt_bool a b) eqn:E.
  - left. split; [now apply Qlt_bool_iff | reflexivity].
  - right. split; [now apply Qlt_bool_false | reflexivity].
Qed.

Lemma py_min_cases (a b : Q) :
  (b < a /\ py_min a b = b) \/ (a <= b /\ py_min a b = a).
Proof.
  unfold py_min. destruct (Qlt_bool b a) eqn:E.
  - left. split; [now apply Qlt_bool_iff | reflexivity].
  - right. split; [now apply Qlt_bool_false | reflexivity].
Qed.

Lemma py_max_lower (a b : Q) : a <= py_max a b.
Proof. destruct (py_max_cases a b) as [[H ->]|[H ->]]; lra. Qed.

Lemma py_max_upper (a b c : Q) : a <= c -> b <= c -> py_max a b <= c.
Proof. intros. destruct (py_max_cases a b) as [[H' ->]|[H' ->]]; lra. Qed.

Lemma py_max_ge_r (a b : Q) : b <= py_max a b.
Proof. destruct (py_max_cases a b) as [[H ->]|[H ->]]; lra. Qed.

Lemma py_max_assoc (a b c : Q) :
  py_max a (py_max b c) = py_max (py_max a b) c.
Proof.
  unfold py_max.
  destruct (Qlt_bool b c) eqn:Ebc, (Qlt_bool a b) eqn:Eab;
    try rewrite Ebc; try rewrite Eab;
    destruct (Qlt_bool a c) eqn:Eac; try reflexivity;
    repeat match goal with
           | H : Qlt_bool _ _ = true |- _ => apply Qlt_bool_iff in H
           | H : Qlt_bool _ _ = false |- _ => apply Qlt_bool_false in H
           end; exfalso; lra.
Qed.

Lemma fold_py_max_shift (l : list Q) :
  forall m x, py_max m (fold_left py_max l x) = fold_left py_max l (py_max m x).
Proof.
  induction l as [|y l IH]; intros m x; simpl; [reflexivity|].
  now rewrite IH, py_max_assoc.
Qed.

(** [max(-1.0, min(1.0, x))] *)
Lemma clamp_unit (x : Q) :
  -1 <= py_max (-1.0) (py_min 1.0 x) /\ py_max (-1.0) (py_min 1.0 x) <= 1.
Proof.
  split.
  - pose proof (py_max_lower (-1.0) (py_min 1.0 x)). lra.
  - apply py_max_upper; [lra|].
    destruct (py_min_cases 1.0 x) as [[H ->]|[H ->]]; lra.
Qed.

End PyFacts.

(** * Properties of the configuration manager *)

Module ConfigFacts.
Import Py Config.

Unset Implicit Arguments.

Local Open Scope string_scope.
Local Open Scope list_scope.

(** The manager built from a missing configuration file; what
    [init_missing] says it is. *)
Definition default_manager (sha256_16 : value -> string) : ConfigManager :=
  match init sha256_16 FileMissing with
  | Ok m => m
  | Raise _ =>
      ConfigManager_ initial_store [] false "" [] None [] []
  end.

(** A digest to run the manager on concrete inputs. *)
Definition sample_digest (v : value) : string := "e3b0c44298fc1c14".

Lemma init_missing (sha256_16 : value -> string) :
  init sha256_16 FileMissing = Ok (default_manager sha256_16).
Proof. vm_compute. reflexivity. Qed.

(** ** Notification *)

Definition raises (st : ConfigStore) (c : callback) : bool :=
  match cb_call c st with
  | Ok _ => false
  | Raise _ => true
  end.

(** A subscriber with the same identity that returns normally. *)
Definition quiet (c : callback) : callback :=
  {| cb_id := cb_id c; cb_call := fun _ => Ok tt |}.

Definition count_raising (st : ConfigStore) (cbs : list callback) : nat :=
  List.length (filter (raises st) cbs).

Lemma notify_loop_frame (cbs : list callback) :
  forall m,
    store (notify_loop cbs m) = store m /\
    schemas (notify_loop cbs m) = schemas m /\
    frozen (notify_loop cbs m) = frozen m /\
    last_config_hash (notify_loop cbs m) = last_config_hash m /\
    subscribers (notify_loop cbs m) = subscribers m /\
    saved (notify_loop cbs m) = saved m.
Proof.
  induction cbs as [|c cbs IH]; intros m; simpl.
  - repeat split.
  - destruct (cb_call c (store m)); exact (IH _).
Qed.

Lemma notify_loop_notified (cbs : list callback) :
  forall m, notified (notify_loop cbs m) = notified m ++ map cb_id cbs.
Proof.
  induction cbs as [|c cbs IH]; intros m; simpl.
  - now rewrite app_nil_r.
  - destruct (cb_call c (store m)); rewrite IH; simpl;
      now rewrite <- app_assoc.
Qed.

Lemma notify_loop_log (cbs : list callback) :
  forall m,
    log (notify_loop cbs m) =
    log m ++ repeat "config_notification_error" (count_raising (store m) cbs).
Proof.
  unfold count_raising.
  induction cbs as [|c cbs IH]; intros m; simpl.
  - now rewrite app_nil_r.
  - unfold raises at 1. simpl.
    destruct (cb_call c (store m)); rewrite IH; simpl.
    + reflexivity.
    + now rewrite <- app_assoc.
Qed.

(** ** Inversion of a successful batch update *)

Lemma update_batch_true_inv sha256_16 io updates rb m m' :
  update_batch sha256_16 io updates rb m = (m', Ok true) ->
  (updates = [] /\ m' = m) \/
  (updates <> [] /\
   exists st done,
     validate_updates (schemas m) updates = Ok tt /\
     apply_updates updates (store m) [] = (st, done, Ok tt) /\
     save io (flat_config st) = true /\
     m' = notify_subscribers
            (with_saved (Some (flat_config st)) (with_store st m))).
Proof.
  unfold update_batch, update_batch_try.
  destruct updates as [|u us]; intros Hrun.
  - left. split; [reflexivity | congruence].
  - right. split; [discriminate|].
    destruct (copy (flat_config (store m))) as [bk|e]; [|discriminate].
    destruct (validate_updates (schemas m) (u :: us)) as [[]|e] eqn:Hv.
    + destruct (apply_updates (u :: us) (store m) []) as [[st done] [[]|e]] eqn:Ha.
      * destruct (save io (flat_config st)) eqn:Hs.
        -- inversion Hrun; subst. exists st, done. repeat split; auto.
        -- destruct rb; [|discriminate].
           destruct (rebuild_structured _ _) as [st2 [u0|e]]; discriminate.
      * destruct rb; [|discriminate].
        destruct (rebuild_structured _ _) as [st2 [u0|e0]]; discriminate.
    + destruct rb; [|discriminate].
      destruct (rebuild_structured _ _) as [st2 [u0|e0]]; discriminate.
Qed.

Lemma update_batch_true_intro sha256_16 io updates rb m st done bk :
  updates <> [] ->
  copy (flat_config (store m)) = Ok bk ->
  validate_updates (schemas m) updates = Ok tt ->
  apply_updates updates (store m) [] = (st, done, Ok tt) ->
  save io (flat_config st) = true ->
  update_batch sha256_16 io updates rb m =
  (notify_subscribers (with_saved (Some (flat_config st)) (with_store st m)),
   Ok true).
Proof.
  intros Hne Hc Hv Ha Hs. unfold update_batch, update_batch_try.
  destruct updates as [|u us]; [congruence|].
  rewrite Hc, Hv, Ha, Hs. reflexivity.
Qed.

Lemma update_batch_copy_ok sha256_16 io updates rb m m' b :
  updates <> [] ->
  update_batch sha256_16 io updates rb m = (m', Ok b) ->
  exists bk, copy (flat_config (store m)) = Ok bk.
Proof.
  unfold update_batch. destruct updates as [|u us]; [congruence|].
  intros _. destruct (copy (flat_config (store m))) as [bk|e]; [eauto|discriminate].
Qed.

(** A successful batch update leaves the stored change hash as it was. *)
Lemma update_batch_true_hash sha256_16 io updates rb m m' :
  update_batch sha256_16 io updates rb m = (m', Ok true) ->
  last_config_hash m' = last_config_hash m.
Proof.
  intros Hrun. apply update_batch_true_inv in Hrun.
  destruct Hrun as [[_ ->]|[_ (st & done & _ & _ & _ & ->)]]; [reflexivity|].
  unfold notify_subscribers.
  now rewrite (proj1 (proj2 (proj2 (proj2 (notify_loop_frame _ _))))).
Qed.

(** [update] under the frozen flag: [False], and nothing but the log moves. *)
Lemma update_frozen sha256_16 key v m :
  frozen m = true ->
  update sha256_16 key v m = (record_event "config_error" m, false).
Proof. intros Hf. unfold update. now rewrite Hf. Qed.

(** The hash [update] stores on success is the hash of the flat map it
    leaves. *)
Lemma update_true_hash sha256_16 key v m m' :
  update sha256_16 key v m = (m', true) ->
  last_config_hash m' = compute_config_hash sha256_16 m'.
Proof.
  unfold update. destruct (frozen m); [discriminate|].
  destruct (validate (schemas m) key v) as [[[|] c]|e]; try discriminate.
  destruct (set_value key v (store m)) as [st [[]|e]]; [|discriminate].
  intros Hrun. inversion Hrun; subst. reflexivity.
Qed.

(** ** Dictionaries and paths *)

Lemma dict_get_set_same (V : Type) (k : string) (v : V) (d : list (string * V)) :
  dict_get k (dict_set k v d) = Some v.
Proof.
  induction d as [|[k' v'] d IH]; simpl.
  - now rewrite String.eqb_refl.
  - destruct (String.eqb k k') eqn:Hk; simpl.
    + now rewrite String.eqb_refl.
    + now rewrite Hk.
Qed.

Lemma dict_get_set_other (V : Type) (k k' : string) (v : V)
  (d : list (string * V)) :
  k <> k' -> dict_get k (dict_set k' v d) = dict_get k d.
Proof.
  intros Hne. apply String.eqb_neq in Hne.
  induction d as [|[k0 v0] d IH]; simpl.
  - now rewrite Hne.
  - destruct (String.eqb k' k0) eqn:Hk; simpl.
    + apply String.eqb_eq in Hk. subst k0. now rewrite Hne.
    + destruct (String.eqb k k0); [reflexivity | exact IH].
Qed.

(** The dict a loop of assignments [c[key x] = g x] builds. *)
Lemma fold_dict_set_get (A V : Type) (key : A -> string) (g : A -> V)
  (T : list A) :
  forall c0 a,
    In a T \/ dict_get (key a) c0 = Some (g a) ->
    (forall a', In a' T -> key a' = key a -> g a' = g a) ->
    dict_get (key a)
      (fold_left (fun c x => dict_set (key x) (g x) c) T c0) = Some (g a).
Proof.
  induction T as [|b T IH]; intros c0 a Hin Hsame; simpl.
  - destruct Hin as [[]|H]; exact H.
  - apply IH.
    + destruct Hin as [[->|Hin]|Hc0].
      * right. apply dict_get_set_same.
      * now left.
      * right. destruct (string_dec (key a) (key b)) as [Heq|Hne].
        -- rewrite Heq, dict_get_set_same. f_equal.
           apply Hsame; [now left | now symmetry].
        -- now rewrite dict_get_set_other by assumption.
    + intros a' Ha'. apply Hsame. now right.
Qed.

Lemma NoDup_map_inj (A B : Type) (f : A -> B) (l : list A) :
  NoDup (map f l) ->
  forall a b, In a l -> In b l -> f a = f b -> a = b.
Proof.
  induction l as [|x l IH]; simpl; intros Hnd a b Ha Hb Heq; [contradiction|].
  inversion Hnd as [|? ? Hnotin Hnd']; subst.
  destruct Ha as [->|Ha], Hb as [->|Hb].
  - reflexivity.
  - exfalso. apply Hnotin. rewrite Heq. now apply in_map.
  - exfalso. apply Hnotin. rewrite <- Heq. now apply in_map.
  - now apply IH.
Qed.

(** The assignment along a path of keys that [set_value] performs on the flat
    map, for a path of any length. *)
Fixpoint path_set (p : list string) (v x : value) : option value :=
  match p with
  | [] => Some v
  | k :: ks =>
      match x with
      | VDict d =>
          match path_set ks v (setdefault k d) with
          | Some y => Some (VDict (dict_set k y d))
          | None => None
          end
      | _ => None
      end
  end.

(** Two paths are comparable when one is a prefix of the other. *)
Fixpoint comparable (p q : list string) : bool :=
  match p, q with
  | [], _ => true
  | _, [] => true
  | k :: ks, k' :: ks' => String.eqb k k' && comparable ks ks'
  end.

Lemma flat_set2_path section fld v x y :
  flat_set2 section fld v x = Ok y -> path_set [section; fld] v x = Some y.
Proof.
  unfold flat_set2. simpl. destruct x; try discriminate.
  destruct (setdefault section d); try discriminate.
  intros H; inversion H; reflexivity.
Qed.

Lemma flat_set3_path section sub fld v x y :
  flat_set3 section sub fld v x = Ok y ->
  path_set [section; sub; fld] v x = Some y.
Proof.
  unfold flat_set3. simpl. destruct x; try discriminate.
  destruct (setdefault section d); try discriminate.
  destruct (setdefault sub d0); try discriminate.
  intros H; inversion H; reflexivity.
Qed.

Lemma descend_default dflt :
  is_dict dflt = false -> forall ks, descend ks dflt dflt = dflt.
Proof.
  intros Hd [|k ks]; simpl.
  - now destruct (is_empty_dict dflt || is_none dflt).
  - destruct dflt; try reflexivity. discriminate.
Qed.

(** Writing along one path does not change what is read along a path that
    is not comparable with it. *)
Lemma descend_path_set dflt :
  is_dict dflt = false ->
  forall p' p v x y,
    path_set p' v x = Some y ->
    comparable p p' = false ->
    descend p y dflt = descend p x dflt.
Proof.
  intros Hd. induction p' as [|k' ks' IH]; intros p v x y Hset Hcmp.
  - destruct p; discriminate.
  - destruct p as [|k ks]; [discriminate|].
    simpl in Hset. destruct x as [| | | | | | | |d|]; try discriminate.
    destruct (path_set ks' v (setdefault k' d)) as [z|] eqn:Hz; [|discriminate].
    inversion Hset; subst y; clear Hset. simpl in Hcmp. simpl.
    destruct (String.eqb k k') eqn:Hk.
    + apply String.eqb_eq in Hk. subst k'. simpl in Hcmp.
      rewrite dict_get_set_same.
      rewrite (IH ks v _ z Hz Hcmp).
      unfold setdefault. destruct (dict_get k d) as [w|]; [reflexivity|].
      rewrite descend_default by assumption.
      destruct ks as [|k2 ks2]; [destruct ks'; discriminate|].
      simpl. apply descend_default; assumption.
    + apply String.eqb_neq in Hk. now rewrite dict_get_set_other by assumption.
Qed.

Lemma descend2_found s f x dflt :
  is_dict dflt = false ->
  descend [s; f] x dflt <> dflt ->
  exists d sd, x = VDict d /\ dict_get s d = Some (VDict sd).
Proof.
  intros Hd Hne. simpl in Hne.
  destruct x as [| | | | | | | |d|]; try congruence.
  destruct (dict_get s d) as [w|] eqn:Hw.
  - destruct w as [| | | | | | | |sd|]; try congruence. eauto.
  - destruct dflt; try congruence. discriminate.
Qed.

Lemma descend3_found s sub f x dflt :
  is_dict dflt = false ->
  descend [s; sub; f] x dflt <> dflt ->
  exists d sd ssd,
    x = VDict d /\ dict_get s d = Some (VDict sd) /\
    dict_get sub sd = Some (VDict ssd).
Proof.
  intros Hd Hne. simpl in Hne.
  destruct x as [| | | | | | | |d|]; try congruence.
  destruct (dict_get s d) as [w|] eqn:Hw.
  - destruct w as [| | | | | | | |sd|]; try congruence.
    destruct (dict_get sub sd) as [w2|] eqn:Hw2.
    + destruct w2 as [| | | | | | | |ssd|]; try congruence. eauto 6.
    + destruct dflt; try congruence. discriminate.
  - destruct dflt; try congruence. discriminate.
Qed.

(** ** Validation *)

Definition numeric_type (t : pytype) : bool :=
  match t with
  | TInt | TFloat | TBool => true
  | _ => false
  end.

(** The types of DEFAULT_SCHEMA: an instance of one of them is neither a
    dict nor an opaque object. *)
Definition plain_type (t : pytype) : bool :=
  match t with
  | TDict | TObject => false
  | _ => true
  end.

(** A range is only declared on a numeric field. *)
Definition range_numeric (s : ConfigSchema) : bool :=
  match range s with
  | Some _ => numeric_type (type s)
  | None => true
  end.

Definition validb (tbl : schema_table) (key : string) (v : value) : bool :=
  match validate tbl key v with
  | Ok (true, _) => true
  | _ => false
  end.

Lemma between_total lo hi v t :
  numeric_type t = true -> isinstance v t = true ->
  exists b, between lo hi v = Ok b.
Proof.
  destruct t; try discriminate; destruct v; try discriminate;
    intros _ _; simpl; eauto.
Qed.

Lemma validate_cases tbl s v :
  dict_get (field s) tbl = Some s -> range_numeric s = true ->
  validate tbl (field s) v = Ok (true, v) \/
  validate tbl (field s) v = Ok (false, default s).
Proof.
  intros Hl Hr. unfold validate. rewrite Hl.
  destruct (is_none v).
  { destruct (required s); auto. destruct (nullable s); auto. }
  destruct (isinstance v (type s)) eqn:Hi; simpl; auto.
  destruct (match validator s with Some f => negb (f v) | None => false end);
    auto.
  unfold range_numeric in Hr.
  destruct (range s) as [[lo hi]|]; auto.
  destruct (between_total lo hi v (type s) Hr Hi) as [b ->]. simpl.
  destruct b; auto.
Qed.

Lemma validate_true_same tbl key v c :
  validate tbl key v = Ok (true, c) -> c = v.
Proof.
  unfold validate. destruct (dict_get key tbl) as [s|]; [|discriminate].
  destruct (is_none v).
  { destruct (required s); [discriminate|].
    destruct (nullable s); congruence. }
  destruct (negb (isinstance v (type s))); [discriminate|].
  destruct (match validator s with Some f => negb (f v) | None => false end);
    [discriminate|].
  destruct (range s) as [[lo hi]|]; [|congruence].
  destruct (between lo hi v) as [[|]|e]; simpl; congruence.
Qed.

Lemma validb_valid tbl key v :
  validb tbl key v = true -> validate tbl key v = Ok (true, v).
Proof.
  unfold validb. destruct (validate tbl key v) as [[[|] c]|e] eqn:Hv;
    try discriminate.
  intros _. now rewrite (validate_true_same _ _ _ _ Hv).
Qed.

(** What a value that validates looks like. *)
Lemma valid_shape tbl s v :
  dict_get (field s) tbl = Some s ->
  plain_type (type s) = true ->
  validate tbl (field s) v = Ok (true, v) ->
  is_dict v = false /\ is_empty_dict v = false /\
  (nullable s = false -> is_none v = false) /\
  (forall id, v <> VObject id).
Proof.
  intros Hl Ht. unfold validate. rewrite Hl.
  destruct (is_none v) eqn:Hn.
  { destruct v; try discriminate.
    destruct (required s); [discriminate|].
    destruct (nullable s); [|discriminate].
    intros _. repeat split; try reflexivity; try discriminate. }
  destruct (isinstance v (type s)) eqn:Hi; [|discriminate].
  intros _.
  destruct (type s), v; try discriminate; repeat split; try reflexivity;
    try discriminate.
Qed.

(** ** The structured tree *)

Definition sections : list string :=
  ["core_config"; "lora_config"; "training_config"; "curiosity_config";
   "cross_attn_config"; "controls_config"; "logging_config"].

(** The two key shapes [set_value] writes: [section.field] under one of the
    seven sections, and [training_config.dry_run_params.field]. *)
Definition key_shapeb (key : string) : bool :=
  match split dot key with
  | [s; f] =>
      existsb (String.eqb s) sections
      && negb (String.eqb s "training_config" && String.eqb f "dry_run_params")
  | [s; sub; _] =>
      String.eqb s "training_config" && String.eqb sub "dry_run_params"
  | _ => false
  end.

(** Every section of the tree is a dict, and so is
    [training_config.dry_run_params]. *)
Definition structured_ok (sc : dict) : Prop :=
  forall sec, In sec sections ->
    exists sd, dict_get sec sc = Some (VDict sd) /\
      (sec = "training_config" ->
       exists dsd, dict_get "dry_run_params" sd = Some (VDict dsd)).

Lemma initial_structured_ok : structured_ok (structured_config initial_store).
Proof.
  intros sec Hin. simpl in Hin.
  repeat (destruct Hin as [<-|Hin];
          [eexists; split; [reflexivity|];
           first [discriminate | intros _; eexists; reflexivity]|]).
  contradiction.
Qed.

Lemma structured_set2_ok s f v sc :
  In s sections ->
  ~ (s = "training_config" /\ f = "dry_run_params") ->
  structured_ok sc ->
  exists sc', structured_set2 s f v sc = Ok sc' /\ structured_ok sc'.
Proof.
  intros Hs Hne Hok. destruct (Hok s Hs) as (sd & Hsd & Hdrp).
  unfold structured_set2. rewrite Hsd. eexists; split; [reflexivity|].
  intros sec Hsec. destruct (string_dec sec s) as [->|Hdiff].
  - rewrite dict_get_set_same. eexists; split; [reflexivity|].
    intros Htc. destruct (Hdrp Htc) as (dsd & Hdsd). exists dsd.
    rewrite dict_get_set_other; [assumption|]. intros <-. apply Hne. now split.
  - rewrite dict_get_set_other by assumption. apply Hok; assumption.
Qed.

Lemma structured_set3_ok f v sc :
  structured_ok sc ->
  exists sc',
    structured_set3 "training_config" "dry_run_params" f v sc = Ok sc' /\
    structured_ok sc'.
Proof.
  intros Hok.
  assert (Htc : In "training_config" sections) by (simpl; auto).
  destruct (Hok _ Htc) as (sd & Hsd & Hdrp).
  destruct (Hdrp eq_refl) as (dsd & Hdsd).
  unfold structured_set3. rewrite Hsd, Hdsd. eexists; split; [reflexivity|].
  intros sec Hsec. destruct (string_dec sec "training_config") as [->|Hdiff].
  - rewrite dict_get_set_same. eexists; split; [reflexivity|].
    intros _. rewrite dict_get_set_same. eauto.
  - rewrite dict_get_set_other by assumption. apply Hok; assumption.
Qed.

Lemma key_shape_cases key :
  key_shapeb key = true ->
  (exists s f, split dot key = [s; f] /\ In s sections /\
               ~ (s = "training_config" /\ f = "dry_run_params")) \/
  (exists f, split dot key = ["training_config"; "dry_run_params"; f]).
Proof.
  unfold key_shapeb.
  destruct (split dot key) as [|s [|f [|g [|h r]]]]; try discriminate.
  - intros H. apply andb_true_iff in H. destruct H as [Hin Hneg].
    left. exists s, f. split; [reflexivity|]. split.
    + apply existsb_exists in Hin. destruct Hin as (x & Hx & Heq).
      apply String.eqb_eq in Heq. now subst.
    + intros [-> ->]. discriminate.
  - intros H. apply andb_true_iff in H. destruct H as [H1 H2].
    apply String.eqb_eq in H1, H2. subst. right. eauto.
Qed.

(** ** [set_value] on a key of the schema *)

Lemma set_value_cache key v st :
  cache (fst (set_value key v st)) = dict_set key v (cache st).
Proof.
  unfold set_value.
  destruct (split dot key) as [|s [|f [|g [|h r]]]]; try reflexivity.
  - destruct (flat_set2 _ _ _ _); [|reflexivity].
    destruct (structured_set2 _ _ _ _); reflexivity.
  - destruct (_ && _); [|reflexivity].
    destruct (flat_set3 _ _ _ _ _); [|reflexivity].
    destruct (structured_set3 _ _ _ _ _); reflexivity.
Qed.

Lemma set_value_path key v st st' :
  key_shapeb key = true ->
  set_value key v st = (st', Ok tt) ->
  path_set (split dot key) v (flat_config st) = Some (flat_config st').
Proof.
  intros Hshape. unfold set_value.
  destruct (key_shape_cases _ Hshape) as [(s & f & -> & _ & _)|(f & ->)].
  - destruct (flat_set2 s f v _) as [flat'|e] eqn:Hf; [|discriminate].
    destruct (structured_set2 _ _ _ _); [|discriminate].
    intros H; inversion H; subst; clear H. simpl in Hf |- *.
    now apply flat_set2_path.
  - simpl (_ && _).
    destruct (flat_set3 _ _ f v _) as [flat'|e] eqn:Hf; [|discriminate].
    destruct (structured_set3 _ _ _ _ _); [|discriminate].
    intros H; inversion H; subst; clear H. simpl in Hf |- *.
    now apply flat_set3_path.
Qed.

Lemma set_value_succeeds key v dflt st :
  key_shapeb key = true ->
  structured_ok (structured_config st) ->
  is_dict dflt = false ->
  descend (split dot key) (flat_config st) dflt <> dflt ->
  exists st', set_value key v st = (st', Ok tt) /\
              structured_ok (structured_config st').
Proof.
  intros Hshape Hok Hd Hne. unfold set_value.
  destruct (key_shape_cases _ Hshape) as [(s & f & Hsp & Hin & Hnot)|(f & Hsp)];
    rewrite Hsp in Hne |- *.
  - destruct (descend2_found _ _ _ _ Hd Hne) as (d & sd & Hflat & Hsd).
    simpl. unfold flat_set2. rewrite Hflat. unfold setdefault. rewrite Hsd.
    destruct (structured_set2_ok s f v _ Hin Hnot Hok) as (sc' & -> & Hok').
    eexists; split; [reflexivity | exact Hok'].
  - destruct (descend3_found _ _ _ _ _ Hd Hne) as (d & sd & ssd & Hflat & Hsd & Hssd).
    simpl (_ && _). simpl. unfold flat_set3. rewrite Hflat. unfold setdefault.
    rewrite Hsd, Hssd.
    destruct (structured_set3_ok f v _ Hok) as (sc' & -> & Hok').
    eexists; split; [reflexivity | exact Hok'].
Qed.

Lemma get_value_set_same key v dflt st :
  get_value key dflt (fst (set_value key v st)) = v.
Proof.
  unfold get_value. rewrite set_value_cache. now rewrite dict_get_set_same.
Qed.

Lemma get_value_set_other key key' v dflt st st' :
  key_shapeb key' = true ->
  set_value key' v st = (st', Ok tt) ->
  key <> key' ->
  comparable (split dot key) (split dot key') = false ->
  is_dict dflt = false ->
  get_value key dflt st' = get_value key dflt st.
Proof.
  intros Hshape Hset Hne Hcmp Hd. unfold get_value.
  replace (cache st') with (cache (fst (set_value key' v st)))
    by now rewrite Hset.
  rewrite set_value_cache. rewrite dict_get_set_other by assumption.
  destruct (dict_get key (cache st)); [reflexivity|].
  eapply descend_path_set; eauto using set_value_path.
Qed.

(** ** Initialisation over a well-formed schema list *)

Section Defaults.

Variable sha256_16 : value -> string.
Variable tbl : schema_table.
Variable L : list ConfigSchema.

Hypothesis wf_lookup : forall s, In s L -> dict_get (field s) tbl = Some s.
Hypothesis wf_shape : forall s, In s L -> key_shapeb (field s) = true.
Hypothesis wf_default :
  forall s, In s L -> validb tbl (field s) (default s) = true.
Hypothesis wf_range : forall s, In s L -> range_numeric s = true.
Hypothesis wf_type : forall s, In s L -> plain_type (type s) = true.
Hypothesis wf_apart :
  forall s s', In s L -> In s' L ->
    String.eqb (field s) (field s')
    || negb (comparable (split dot (field s)) (split dot (field s'))) = true.

Definition valid (s : ConfigSchema) (v : value) : Prop :=
  validate tbl (field s) v = Ok (true, v).

Lemma field_inj s s' : In s L -> In s' L -> field s = field s' -> s = s'.
Proof.
  intros Hs Hs' Heq. pose proof (wf_lookup s Hs) as H1.
  pose proof (wf_lookup s' Hs') as H2. rewrite Heq in H1. congruence.
Qed.

Lemma valid_default s : In s L -> valid s (default s).
Proof. intros Hs. apply validb_valid. now apply wf_default. Qed.

Lemma default_not_dict s : In s L -> is_dict (default s) = false.
Proof.
  intros Hs.
  exact (proj1 (valid_shape tbl s _ (wf_lookup s Hs) (wf_type s Hs)
                  (valid_default s Hs))).
Qed.

Lemma apart s s' :
  In s L -> In s' L -> field s <> field s' ->
  comparable (split dot (field s)) (split dot (field s')) = false.
Proof.
  intros Hs Hs' Hne. pose proof (wf_apart s s' Hs Hs') as H.
  apply String.eqb_neq in Hne. rewrite Hne in H. simpl in H.
  now apply negb_true_iff in H.
Qed.

(** Every entry of the cache is the default of a schema of [P]. *)
Definition cache_defaults (P : list ConfigSchema) (c : dict) : Prop :=
  forall k v, dict_get k c = Some v ->
    exists s, In s P /\ field s = k /\ v = default s.

(** The invariant of the loop of [_validate_and_set_defaults], [P] being the
    schemas already visited. *)
Definition visited (P : list ConfigSchema) (m : ConfigManager) : Prop :=
  schemas m = tbl /\
  structured_ok (structured_config (store m)) /\
  cache_defaults P (cache (store m)) /\
  forall s, In s P -> valid s (get_value (field s) (default s) (store m)).

Lemma visit_one P s m :
  In s L -> incl P L -> ~ In (field s) (map field P) ->
  visited P m ->
  exists m',
    validate_and_set_defaults [s] m = (m', Ok tt) /\
    visited (P ++ [s]) m'.
Proof.
  intros Hs HP Hfresh (Htbl & Hok & Hcache & Hvalid).
  assert (Hmiss : dict_get (field s) (cache (store m)) = None).
  { destruct (dict_get (field s) (cache (store m))) as [v|] eqn:Hc;
      [|reflexivity].
    destruct (Hcache _ _ Hc) as (s' & Hs' & Heq & _).
    exfalso. apply Hfresh. rewrite <- Heq. now apply in_map. }
  simpl. rewrite Htbl.
  destruct (validate_cases tbl s (get_value (field s) (default s) (store m))
              (wf_lookup s Hs) (wf_range s Hs)) as [Hv|Hv]; rewrite Hv.
  - (* the value read is valid: nothing is written *)
    exists m. split; [reflexivity|]. repeat split; try assumption.
    + intros k v Hk. destruct (Hcache k v Hk) as (s' & Hs' & Hrest).
      exists s'. split; [apply in_or_app; now left | exact Hrest].
    + intros s' Hs'. apply in_app_or in Hs'. destruct Hs' as [Hs'|[<-|[]]].
      * now apply Hvalid.
      * exact Hv.
  - (* the default is written *)
    assert (Hne : descend (split dot (field s)) (flat_config (store m))
                    (default s) <> default s).
    { intros Heq. unfold get_value in Hv. rewrite Hmiss, Heq in Hv.
      rewrite (valid_default s Hs) in Hv. discriminate. }
    destruct (set_value_succeeds (field s) (default s) (default s) (store m)
                (wf_shape s Hs) Hok (default_not_dict s Hs) Hne)
      as (st' & Hset & Hok').
    assert (Hc' : cache st' = dict_set (field s) (default s) (cache (store m))).
    { rewrite <- set_value_cache, Hset. reflexivity. }
    rewrite Hset. eexists; split; [reflexivity|].
    unfold visited. cbn [store schemas record_event with_store].
    repeat split; try assumption.
    + intros k v Hk. rewrite Hc' in Hk.
      destruct (string_dec k (field s)) as [->|Hdiff].
      * rewrite dict_get_set_same in Hk. inversion Hk; subst.
        exists s. split; [apply in_or_app; right; now left | auto].
      * rewrite dict_get_set_other in Hk by assumption.
        destruct (Hcache k v Hk) as (s' & Hs' & Hrest).
        exists s'. split; [apply in_or_app; now left | exact Hrest].
    + intros s' Hs'. apply in_app_or in Hs'. destruct Hs' as [Hs'|[<-|[]]].
      * assert (Hne' : field s' <> field s).
        { intros Heq. apply Hfresh. rewrite <- Heq. now apply in_map. }
        unfold valid.
        rewrite (get_value_set_other (field s') (field s) (default s)
                   (default s') (store m) st' (wf_shape s Hs) Hset Hne'
                   (apart s' s (HP s' Hs') Hs Hne')
                   (default_not_dict s' (HP s' Hs'))).
        now apply Hvalid.
      * unfold valid.
        replace st' with (fst (set_value (field s) (default s) (store m)))
          by now rewrite Hset.
        rewrite get_value_set_same. now apply valid_default.
Qed.

Lemma validate_and_set_defaults_app T1 T2 m m1 m2 :
  validate_and_set_defaults T1 m = (m1, Ok tt) ->
  validate_and_set_defaults T2 m1 = (m2, Ok tt) ->
  validate_and_set_defaults (T1 ++ T2) m = (m2, Ok tt).
Proof.
  revert m. induction T1 as [|s T1 IH]; intros m H1 H2; simpl in *.
  - inversion H1; subst. exact H2.
  - destruct (validate (schemas m) (field s) _) as [[[|] c]|e];
      try discriminate.
    + now apply IH.
    + destruct (set_value (field s) c (store m)) as [st [[]|e]];
        [|discriminate].
      now apply IH.
Qed.

Lemma visit_all T :
  forall P m,
    incl (P ++ T) L -> NoDup (map field (P ++ T)) ->
    visited P m ->
    exists m',
      validate_and_set_defaults T m = (m', Ok tt) /\ visited (P ++ T) m'.
Proof.
  induction T as [|s T IH]; intros P m Hincl Hnd Hvis.
  - exists m. rewrite app_nil_r. split; [reflexivity | exact Hvis].
  - assert (Hs : In s L) by (apply Hincl, in_or_app; right; now left).
    assert (HP : incl P L) by (intros x Hx; apply Hincl, in_or_app; now left).
    assert (Hfresh : ~ In (field s) (map field P)).
    { rewrite map_app in Hnd. simpl in Hnd.
      apply NoDup_remove_2 in Hnd. intros Hin. apply Hnd.
      apply in_or_app. now left. }
    destruct (visit_one P s m Hs HP Hfresh Hvis) as (m1 & Hrun1 & Hvis1).
    assert (Heq : (P ++ [s]) ++ T = P ++ s :: T)
      by now rewrite <- app_assoc.
    destruct (IH (P ++ [s]) m1) as (m2 & Hrun2 & Hvis2);
      [now rewrite Heq | now rewrite Heq | exact Hvis1 |].
    exists m2. split.
    + exact (validate_and_set_defaults_app [s] T m m1 m2 Hrun1 Hrun2).
    + now rewrite <- Heq.
Qed.

Lemma get_value_ext key dflt st st' :
  flat_config st' = flat_config st -> cache st' = cache st ->
  get_value key dflt st' = get_value key dflt st.
Proof. intros Hf Hc. unfold get_value. now rewrite Hf, Hc. Qed.

Lemma rebuild_one_ok s st :
  In s L -> structured_ok (structured_config st) ->
  exists st',
    rebuild_one s st = (st', Ok tt) /\
    flat_config st' = flat_config st /\ cache st' = cache st /\
    structured_ok (structured_config st').
Proof.
  intros Hs Hok. unfold rebuild_one.
  destruct (key_shape_cases _ (wf_shape s Hs))
    as [(sec & f & -> & Hin & Hnot)|(f & ->)].
  - destruct (structured_set2_ok sec f
                (get_value (field s) (default s) st) _ Hin Hnot Hok)
      as (sc' & -> & Hok').
    eexists; split; [reflexivity|]. now repeat split.
  - simpl (_ && _). cbv iota.
    destruct (structured_set3_ok f (get_value (field s) (default s) st) _ Hok)
      as (sc' & -> & Hok').
    eexists; split; [reflexivity|]. now repeat split.
Qed.

Lemma rebuild_structured_ok T :
  forall st,
    incl T L -> structured_ok (structured_config st) ->
    exists st',
      rebuild_structured T st = (st', Ok tt) /\
      flat_config st' = flat_config st /\ cache st' = cache st /\
      structured_ok (structured_config st').
Proof.
  induction T as [|s T IH]; intros st Hincl Hok.
  - exists st. now repeat split.
  - assert (Hs : In s L) by (apply Hincl; now left).
    destruct (rebuild_one_ok s st Hs Hok) as (st1 & Hrun & Hf & Hc & Hok1).
    destruct (IH st1) as (st2 & Hrun2 & Hf2 & Hc2 & Hok2);
      [intros x Hx; apply Hincl; now right | exact Hok1 |].
    exists st2. simpl. rewrite Hrun. split; [exact Hrun2|].
    repeat split; [congruence | congruence | exact Hok2].
Qed.

Lemma update_cache_get s st :
  In s L ->
  dict_get (field s) (cache (update_cache L st)) =
  Some (get_value (field s) (default s) st).
Proof.
  intros Hs. unfold update_cache. simpl.
  apply (fold_dict_set_get _ _ field
           (fun x => get_value (field x) (default x) st)).
  - now left.
  - intros s' Hs' Heq. now rewrite (field_inj s' s Hs' Hs Heq).
Qed.

End Defaults.

(** ** DEFAULT_SCHEMA is well formed *)

Definition default_table : schema_table := register DEFAULT_SCHEMA [].

Fixpoint nodupb (l : list string) : bool :=
  match l with
  | [] => true
  | x :: r => negb (existsb (String.eqb x) r) && nodupb r
  end.

Lemma nodupb_NoDup l : nodupb l = true -> NoDup l.
Proof.
  induction l as [|x r IH]; simpl; intros H; constructor.
  - apply andb_true_iff in H. destruct H as [H _].
    apply negb_true_iff in H. intros Hin.
    assert (existsb (String.eqb x) r = true).
    { apply existsb_exists. exists x. split; [exact Hin|]. apply String.eqb_refl. }
    congruence.
  - apply andb_true_iff in H. now apply IH.
Qed.

Lemma default_schema_nodup : NoDup (map field DEFAULT_SCHEMA).
Proof. apply nodupb_NoDup. vm_compute. reflexivity. Qed.

Lemma default_schema_lookup s :
  In s DEFAULT_SCHEMA -> dict_get (field s) default_table = Some s.
Proof.
  intros Hs. unfold default_table, register.
  apply (fold_dict_set_get _ _ field (fun x => x)).
  - now left.
  - intros s' Hs'. now apply (NoDup_map_inj _ _ field _ default_schema_nodup).
Qed.

Lemma default_schema_shape s :
  In s DEFAULT_SCHEMA -> key_shapeb (field s) = true.
Proof.
  revert s. apply forallb_forall. vm_compute. reflexivity.
Qed.

Lemma default_schema_default s :
  In s DEFAULT_SCHEMA -> validb default_table (field s) (default s) = true.
Proof.
  revert s.
  apply (proj1 (forallb_forall
           (fun s => validb default_table (field s) (default s)) DEFAULT_SCHEMA)).
  vm_compute. reflexivity.
Qed.

Lemma default_schema_range s :
  In s DEFAULT_SCHEMA -> range_numeric s = true.
Proof.
  revert s. apply forallb_forall. vm_compute. reflexivity.
Qed.

Lemma default_schema_type s :
  In s DEFAULT_SCHEMA -> plain_type (type s) = true.
Proof.
  intros Hs.
  assert (H : forallb (fun s => plain_type (type s)) DEFAULT_SCHEMA = true)
    by (vm_compute; reflexivity).
  rewrite forallb_forall in H. now apply H.
Qed.

Lemma default_schema_apart s s' :
  In s DEFAULT_SCHEMA -> In s' DEFAULT_SCHEMA ->
  String.eqb (field s) (field s')
  || negb (comparable (split dot (field s)) (split dot (field s'))) = true.
Proof.
  intros Hs Hs'.
  assert (H : forallb (fun a => forallb (fun b =>
                String.eqb (field a) (field b)
                || negb (comparable (split dot (field a)) (split dot (field b))))
                DEFAULT_SCHEMA) DEFAULT_SCHEMA = true)
    by (vm_compute; reflexivity).
  rewrite forallb_forall in H. specialize (H s Hs).
  rewrite forallb_forall in H. exact (H s' Hs').
Qed.

(** ** Claims about the configuration manager *)

(** A file whose reading raises an exception that [load] does not catch
    leaves no manager: the constructor raises the same exception. *)
Lemma init_unreadable sha256_16 f e :
  load f = Raise e -> init sha256_16 f = Raise e.
Proof. intros H. unfold init, initialize_config. now rewrite H. Qed.

(** What construction leaves in the cache, for any configuration file that
    [load] reads or replaces by the empty dict. *)
Lemma init_cache_valid sha256_16 f flat :
  load f = Ok flat ->
  exists m,
    init sha256_16 f = Ok m /\
    schemas m = default_table /\
    forall s, In s DEFAULT_SCHEMA ->
      exists v,
        dict_get (field s) (cache (store m)) = Some v /\
        validate default_table (field s) v = Ok (true, v).
Proof.
  intros Hload. unfold init, initialize_config. rewrite Hload.
  set (m0 := with_store _ _).
  assert (Hvis0 : visited default_table [] m0).
  { repeat split.
    - exact initial_structured_ok.
    - intros k v Hk. discriminate.
    - intros s []. }
  destruct (visit_all default_table DEFAULT_SCHEMA
              default_schema_lookup default_schema_shape
              default_schema_default default_schema_range
              default_schema_type default_schema_apart DEFAULT_SCHEMA [] m0
              (incl_refl _) default_schema_nodup Hvis0)
    as (m1 & Hrun & Htbl & Hok & _ & Hvalid).
  rewrite Hrun.
  destruct (rebuild_structured_ok DEFAULT_SCHEMA default_schema_shape
              DEFAULT_SCHEMA (store m1) (incl_refl _) Hok)
    as (st & Hreb & Hflat & Hcache & _).
  rewrite Hreb. eexists. split; [reflexivity|].
  split; [exact Htbl|].
  intros s Hs. exists (get_value (field s) (default s) st). split.
  - cbn [store record_event with_hash with_store].
    apply (update_cache_get default_table DEFAULT_SCHEMA default_schema_lookup);
      assumption.
  - rewrite (get_value_ext _ _ _ _ Hflat Hcache). now apply Hvalid.
Qed.

(** C5, as amended: for every configuration file that is missing, that does
    not decode as JSON or as gzip, or that holds any JSON value, the manager
    is constructed, and for every key of DEFAULT_SCHEMA the cache holds a
    value that satisfies the key's schema.  [get] returns that value
    whenever it is not [None], whatever default the caller passes; for a key
    that is not nullable it is never [None], so [get(k, sentinel)] differs
    from the sentinel.  (For a nullable key the valid value may be [None],
    and then [get] hands back the caller's default.)  For a file whose
    reading raises an exception [load] does not catch (bytes that are not
    UTF-8, a truncated gzip stream, a directory, no read permission) the
    constructor raises that exception and no manager is built. *)
Theorem init_fills_every_key (sha256_16 : value -> string) (f : file_content) :
  match load f with
  | Raise e => init sha256_16 f = Raise e
  | Ok _ =>
      exists m,
        init sha256_16 f = Ok m /\
        forall s, In s DEFAULT_SCHEMA ->
          exists v,
            dict_get (field s) (cache (store m)) = Some v /\
            validate (schemas m) (field s) v = Ok (true, v) /\
            (is_none v = false -> forall d, snd (get (field s) d m) = v) /\
            (nullable s = false ->
             is_none v = false /\
             forall id, snd (get (field s) (VObject id) m) <> VObject id)
  end.
Proof.
  destruct (load f) as [flat|e] eqn:Hload; [|now apply init_unreadable].
  destruct (init_cache_valid sha256_16 f flat Hload) as (m & Hinit & Htbl & Hall).
  exists m. split; [exact Hinit|].
  intros s Hs. destruct (Hall s Hs) as (v & Hget & Hvalid).
  destruct (valid_shape default_table s v (default_schema_lookup s Hs)
              (default_schema_type s Hs) Hvalid)
    as (_ & Hempty & Hnull & Hobj).
  assert (Hread : is_none v = false -> forall d, snd (get (field s) d m) = v).
  { intros Hn d. unfold get, get_value. rewrite Hget, Hempty, Hn. reflexivity. }
  exists v. rewrite Htbl. repeat split; auto.
  intros id. rewrite (Hread (Hnull H) (VObject id)). apply Hobj.
Qed.

(** C5, counterexample: with no configuration file,
    [get("core_config.custom_layers", sentinel)] is the sentinel, although
    the key is in DEFAULT_SCHEMA. *)
Lemma custom_layers_reads_sentinel :
  init sample_digest FileMissing = Ok (default_manager sample_digest) /\
  existsb (fun s => String.eqb (field s) "core_config.custom_layers")
          DEFAULT_SCHEMA = true /\
  snd (get "core_config.custom_layers" (VObject 0)
           (default_manager sample_digest)) = VObject 0.
Proof. cbv zeta. repeat apply conj; vm_compute; reflexivity. Qed.

(** C10: [update_batch] with an empty map returns [True] at once and leaves
    the manager as it was: flat map, structured tree, cache, change hash,
    saved file, notified subscribers and log. *)
Theorem update_batch_empty (sha256_16 : value -> string) (io_ok : bool)
  (rollback_on_failure : bool) (m : ConfigManager) :
  update_batch sha256_16 io_ok [] rollback_on_failure m = (m, Ok true).
Proof. reflexivity. Qed.

(** C1, at the failing input: the batch of the rollback scenario, with
    rollback requested, on the manager built from no file.  The validator
    rejects ["invalid"] for [training_config.scheduler_type], yet
    [update_batch] returns [True], both values are written and the file is
    saved. *)
Theorem update_batch_accepts_invalid (sha256_16 : value -> string) :
  let m0 := default_manager sha256_16 in
  let updates := [("training_config.batch_size", VInt 8);
                  ("training_config.scheduler_type", VStr "invalid")] in
  let m1 := fst (update_batch sha256_16 true updates true m0) in
  validate (schemas m0) "training_config.scheduler_type" (VStr "invalid")
    = Ok (false, VStr "linear") /\
  snd (update_batch sha256_16 true updates true m0) = Ok true /\
  snd (get "training_config.batch_size" VNone m0) = VInt 1 /\
  snd (get "training_config.batch_size" VNone m1) = VInt 8 /\
  snd (get "training_config.scheduler_type" VNone m0) = VStr "linear" /\
  snd (get "training_config.scheduler_type" VNone m1) = VStr "invalid" /\
  saved m1 = Some (VDict [("training_config",
                           VDict [("batch_size", VInt 8);
                                  ("scheduler_type", VStr "invalid")])]).
Proof. cbv zeta. repeat apply conj; vm_compute; reflexivity. Qed.

(** C2, at the failing input: after [freeze()], [update] on
    [core_config.quantization] returns [False] and only logs, but
    [update_batch] with the same key returns [True] and writes ["fp32"]. *)
Theorem update_batch_ignores_freeze (sha256_16 : value -> string) :
  let m0 := freeze (default_manager sha256_16) in
  let updates := [("core_config.quantization", VStr "fp32")] in
  let m1 := fst (update_batch sha256_16 true updates true m0) in
  frozen m0 = true /\
  update sha256_16 "core_config.quantization" (VStr "fp32") m0
    = (record_event "config_error" m0, false) /\
  snd (update_batch sha256_16 true updates true m0) = Ok true /\
  frozen m1 = true /\
  snd (get "core_config.quantization" VNone m0) = VStr "fp16" /\
  snd (get "core_config.quantization" VNone m1) = VStr "fp32" /\
  flat_config (store m1)
    = VDict [("core_config", VDict [("quantization", VStr "fp32")])].
Proof. cbv zeta. repeat apply conj; vm_compute; reflexivity. Qed.

(** C3, at the failing input: a batch update that returns [True] and changes
    the flat map leaves the stored change hash untouched, whatever the
    digest. *)
Theorem update_batch_keeps_stale_hash (sha256_16 : value -> string) :
  let m0 := default_manager sha256_16 in
  let updates := [("training_config.batch_size", VInt 8)] in
  let m1 := fst (update_batch sha256_16 true updates true m0) in
  snd (update_batch sha256_16 true updates true m0) = Ok true /\
  flat_config (store m0) = VDict [] /\
  flat_config (store m1)
    = VDict [("training_config", VDict [("batch_size", VInt 8)])] /\
  last_config_hash m0 = sha256_16 (VDict []) /\
  last_config_hash m1 = last_config_hash m0.
Proof. cbv zeta. repeat apply conj; vm_compute; reflexivity. Qed.

(** C9: take a batch update that returns [True] when every subscriber
    returns normally.  With the subscribers as they are, raising or not, the
    same call still returns [True]; the store, the saved file and the stored
    hash are the same; every subscriber is invoked, in order; and the log
    gains one [config_notification_error] per subscriber that raised. *)
Theorem subscriber_exceptions_isolated (sha256_16 : value -> string)
  (io_ok rollback_on_failure : bool) (updates : dict) (m mq : ConfigManager) :
  updates <> [] ->
  update_batch sha256_16 io_ok updates rollback_on_failure
    (with_subscribers (map quiet (subscribers m)) m) = (mq, Ok true) ->
  exists m',
    update_batch sha256_16 io_ok updates rollback_on_failure m = (m', Ok true) /\
    store m' = store mq /\
    saved m' = saved mq /\
    last_config_hash m' = last_config_hash mq /\
    notified m' = notified m ++ map cb_id (subscribers m) /\
    notified m' = notified mq /\
    log m' = log mq ++ repeat "config_notification_error"
                              (count_raising (store m') (subscribers m)) /\
    log mq = log m.
Proof.
  intros Hne Hq.
  destruct (update_batch_copy_ok _ _ _ _ _ _ _ Hne Hq) as (bk & Hcopy).
  apply update_batch_true_inv in Hq.
  destruct Hq as [[Hnil _]|[_ (st & done & Hv & Ha & Hs & Hmq)]];
    [contradiction|].
  cbn [schemas store with_subscribers] in Hv, Ha, Hcopy.
  exists (notify_subscribers (with_saved (Some (flat_config st)) (with_store st m))).
  split.
  { now apply (update_batch_true_intro _ _ _ _ _ st done bk). }
  subst mq. unfold notify_subscribers.
  cbn [subscribers with_saved with_store with_subscribers].
  set (m2 := with_saved _ (with_store st m)).
  set (m2q := with_saved _ (with_store st (with_subscribers _ m))).
  destruct (notify_loop_frame (subscribers m) m2) as (E1 & _ & _ & E2 & _ & E3).
  destruct (notify_loop_frame (map quiet (subscribers m)) m2q)
    as (Q1 & _ & _ & Q2 & _ & Q3).
  rewrite E1, E2, E3, Q1, Q2, Q3.
  rewrite !notify_loop_notified, !notify_loop_log.
  assert (Hquiet : forall l st0, count_raising st0 (map quiet l) = 0%nat).
  { induction l as [|c l IH]; intros st0; [reflexivity|].
    unfold count_raising in *. simpl. apply IH. }
  rewrite Hquiet. simpl repeat. rewrite app_nil_r.
  assert (Hids : map cb_id (map quiet (subscribers m)) = map cb_id (subscribers m)).
  { rewrite map_map. reflexivity. }
  rewrite Hids. repeat split.
Qed.

(** C9, witness: two subscribers, the first of which raises; the batch
    update still returns [True] and both are notified. *)
Definition sample_subscribers : list callback :=
  [ {| cb_id := 1; cb_call := fun _ => Raise RuntimeError |};
    {| cb_id := 2; cb_call := fun _ => Ok tt |} ].

Definition sample_manager : ConfigManager :=
  with_subscribers sample_subscribers (default_manager sample_digest).

Definition sample_updates : dict := [("training_config.batch_size", VInt 8)].

Lemma subscriber_exceptions_isolated_witness :
  sample_updates <> [] /\
  exists m',
    update_batch sample_digest true sample_updates true sample_manager
      = (m', Ok true) /\
    notified m' = [1; 2]%nat /\
    log m' = ["config_load"; "config_notification_error"].
Proof.
  assert (Hne : sample_updates <> []) by discriminate.
  split; [exact Hne|].
  destruct (subscriber_exceptions_isolated sample_digest true true
              sample_updates sample_manager
              (fst (update_batch sample_digest true sample_updates true
                      (with_subscribers (map quiet (subscribers sample_manager))
                                        sample_manager)))
              Hne)
    as (m' & Hrun & Hstore & _ & _ & Hnot & _ & Hlog & Hlogq).
  { vm_compute. reflexivity. }
  exists m'. split; [exact Hrun|]. split; [exact Hnot|].
  rewrite Hlog, Hlogq, Hstore. vm_compute. reflexivity.
Defined.

End ConfigFacts.

(** * Properties of the curiosity engine *)

Module CuriosityFacts.
Import Py Curiosity PyFacts.

Unset Implicit Arguments.
Local Open Scope Q_scope.

Lemma clamp_score_range (x : Q) : 0 <= clamp_score x /\ clamp_score x <= 1.
Proof.
  unfold clamp_score. split; [apply py_max_lower|].
  apply py_max_upper; [lra|].
  destruct (py_min_cases 1 x) as [[H ->]|[H ->]]; lra.
Qed.

(** ** Pressure *)

(** Consecutive times are more than [c] apart, the first more than [c]
    after [last]. *)
Fixpoint spaced (c last : Q) (ts : list Q) : Prop :=
  match ts with
  | [] => True
  | t :: ts' => last + c < t /\ spaced c t ts'
  end.

Lemma decay_in_range (now : Q) (p : CuriosityPressure) :
  constructed p ->
  min_pressure p <= current_pressure p <= max_pressure p ->
  last_update p <= now ->
  min_pressure p <= current_pressure (decay_pressure now p)
    <= max_pressure p.
Proof.
  intros (Hmin & Hmb & Hbm & Hmax & Hrate & _) [Hlo Hhi] Htime.
  unfold decay_pressure. simpl. split; [apply py_max_lower|].
  apply py_max_upper; [lra|].
  assert (Hprod : 0 <= current_pressure p * (decay_rate p * (now - last_update p))).
  { apply Qmult_le_0_compat; [lra|]. apply Qmult_le_0_compat; lra. }
  lra.
Qed.

Lemma run_spaced (ops : list pressure_op) :
  forall p,
    cooldown (fst (run ops p)) = cooldown p /\
    spaced (cooldown p) (last_eruption_time p) (snd (run ops p)).
Proof.
  induction ops as [|op ops IH]; intros p.
  - simpl. split; [reflexivity | exact I].
  - destruct op as [now|score|now threshold drop]; simpl.
    + exact (IH (decay_pressure now p)).
    + exact (IH (add_pressure score p)).
    + unfold check_eruption.
      destruct (Qle_bool threshold (current_pressure (decay_pressure now p))
                && Qlt_bool (cooldown (decay_pressure now p))
                     (now - last_eruption_time (decay_pressure now p))) eqn:E.
      * apply andb_true_iff in E. destruct E as [_ E].
        apply Qlt_bool_iff in E. simpl in E.
        match goal with
        | |- context [run ops ?q] =>
            destruct (IH q) as [Hc Hs]; destruct (run ops q) as [q' ts]
        end.
        simpl in *. split; [exact Hc|]. split; [lra | exact Hs].
      * exact (IH (decay_pressure now p)).
Qed.

Lemma spaced_after (c : Q) (ts : list Q) :
  0 <= c -> forall last, spaced c last ts -> Forall (fun t => last + c < t) ts.
Proof.
  intros Hc. induction ts as [|t ts IH]; intros last Hs; constructor.
  - exact (proj1 Hs).
  - destruct Hs as [Hlt Hs]. specialize (IH t Hs).
    eapply Forall_impl; [|exact IH]. simpl. intros u Hu. lra.
Qed.

Lemma spaced_pairs (c : Q) (ts : list Q) :
  0 <= c ->
  forall last, spaced c last ts ->
  forall i j ti tj,
    (i < j)%nat -> nth_error ts i = Some ti -> nth_error ts j = Some tj ->
    c < tj - ti.
Proof.
  intros Hc. induction ts as [|t ts IH]; intros last Hs i j ti tj Hij Hi Hj.
  - destruct i; discriminate.
  - destruct Hs as [Hlt Hs]. destruct j as [|j]; [lia|].
    destruct i as [|i]; simpl in Hi, Hj.
    + inversion Hi; subst ti.
      pose proof (spaced_after c ts Hc t Hs) as Hall.
      rewrite Forall_forall in Hall.
      specialize (Hall tj (nth_error_In _ _ Hj)). simpl in Hall. lra.
    + apply (IH t Hs i j); [lia | assumption | assumption].
Qed.

(** C7: [check_eruption] applies the decay first; it returns [True] exactly
    when the decayed pressure has reached the threshold and more than
    [cooldown] has passed since the last eruption; it then lowers the
    pressure by [drop], not below [min_pressure], and records [now];
    otherwise it leaves the decayed state.  After the decay the pressure is
    within [[min_pressure, max_pressure]].  Over any sequence of operations
    on the object, two calls that returned [True] are more than [cooldown]
    apart. *)
Theorem check_eruption_cooldown (p : CuriosityPressure)
  (now threshold drop : Q) (ops : list pressure_op) :
  constructed p ->
  min_pressure p <= current_pressure p <= max_pressure p ->
  last_update p <= now ->
  0 <= cooldown p ->
  let p1 := decay_pressure now p in
  let p2 := fst (check_eruption now threshold drop p) in
  let erupted := snd (check_eruption now threshold drop p) in
  (erupted = true <->
   threshold <= current_pressure p1 /\
   cooldown p < now - last_eruption_time p) /\
  (erupted = true ->
   current_pressure p2 = py_max (min_pressure p) (current_pressure p1 - drop) /\
   min_pressure p <= current_pressure p2 /\
   last_eruption_time p2 = now) /\
  (erupted = false -> p2 = p1) /\
  min_pressure p <= current_pressure p1 <= max_pressure p /\
  (forall i j ti tj,
     (i < j)%nat ->
     nth_error (snd (run ops p)) i = Some ti ->
     nth_error (snd (run ops p)) j = Some tj ->
     cooldown p < tj - ti).
Proof.
  intros Hcons Hrange Htime Hcool. cbv zeta.
  unfold check_eruption.
  destruct (Qle_bool threshold (current_pressure (decay_pressure now p))
            && Qlt_bool (cooldown (decay_pressure now p))
                 (now - last_eruption_time (decay_pressure now p))) eqn:E.
  - apply andb_true_iff in E. destruct E as [E1 E2].
    apply Qle_bool_iff in E1. apply Qlt_bool_iff in E2. simpl in E2.
    simpl fst. simpl snd.
    split; [split; [intros _; split; assumption | reflexivity]|].
    split.
    { intros _. simpl. split; [reflexivity|].
      split; [apply py_max_lower | reflexivity]. }
    split; [discriminate|].
    split; [now apply decay_in_range|].
    intros i j ti tj.
    exact (spaced_pairs _ _ Hcool _ (proj2 (run_spaced ops p)) i j ti tj).
  - simpl fst. simpl snd.
    split.
    { split; [discriminate|]. intros [H1 H2].
      apply Qle_bool_iff in H1.
      assert (H2' : Qlt_bool (cooldown (decay_pressure now p))
                      (now - last_eruption_time (decay_pressure now p)) = true)
        by (apply Qlt_bool_iff; exact H2).
      rewrite H1, H2' in E. discriminate. }
    split; [discriminate|].
    split; [reflexivity|].
    split; [now apply decay_in_range|].
    intros i j ti tj.
    exact (spaced_pairs _ _ Hcool _ (proj2 (run_spaced ops p)) i j ti tj).
Qed.

(** ** Novelty *)

Section Scorer.

Variable E : Type.
Variable cosine_similarity : E -> E -> Q.

(** The largest similarity between the query and the members of [l], and at
    least [0]: what [max_similarity] holds once [l] has been seen. *)
Definition max_similarity_over (query : E) (l : list E) : Q :=
  fold_left py_max (map (cosine_similarity query) l) 0.

Lemma firstn_add (A : Type) (a b : nat) :
  forall l : list A, firstn (a + b) l = firstn a l ++ firstn b (skipn a l).
Proof.
  induction a as [|a IH]; intros l; simpl; [reflexivity|].
  destruct l as [|x l]; simpl.
  - now rewrite firstn_nil.
  - now rewrite IH.
Qed.

Lemma skipn_nonempty (A : Type) (i : nat) (l : list A) :
  (i < List.length l)%nat -> skipn i l <> [].
Proof.
  intros Hlt Hnil.
  assert (H : List.length (skipn i l) = 0%nat) by now rewrite Hnil.
  rewrite length_skipn in H. lia.
Qed.

(** One batch more: the running maximum after the batch that starts at
    [j * bs]. *)
Lemma batch_step (query : E) (memory : list E) (bs j : nat) :
  (1 <= bs)%nat -> (j * bs < List.length memory)%nat ->
  exists batch_max,
    tensor_max (map (cosine_similarity query)
                    (firstn bs (skipn (j * bs) memory))) = Ok batch_max /\
    py_max (max_similarity_over query (firstn (j * bs) memory)) batch_max
    = max_similarity_over query (firstn (S j * bs) memory).
Proof.
  intros Hbs Hlt.
  replace (S j * bs)%nat with (j * bs + bs)%nat by lia.
  unfold max_similarity_over. rewrite firstn_add, map_app, fold_left_app.
  destruct (skipn (j * bs) memory) as [|x r] eqn:Hs.
  - exfalso. exact (skipn_nonempty _ _ _ Hlt Hs).
  - destruct bs as [|bs]; [lia|]. simpl.
    eexists. split; [reflexivity|]. apply fold_py_max_shift.
Qed.

Lemma novelty_loop_inv (c : Curiosity) (query : E) (memory : list E)
  (bs : nat) :
  (1 <= bs)%nat ->
  forall cnt j,
    ((j + cnt) * bs < List.length memory + bs)%nat ->
    exists k,
      (j <= k <= j + cnt)%nat /\
      novelty_loop cosine_similarity c bs memory query
        (map (fun i => (i * bs)%nat) (seq j cnt))
        (max_similarity_over query (firstn (j * bs) memory))
      = Ok (max_similarity_over query (firstn (k * bs) memory)) /\
      (k = (j + cnt)%nat \/
       (similarity_early_exit_threshold c
        <= max_similarity_over query (firstn (k * bs) memory))%Q) /\
      forall k', (j < k' < k)%nat ->
        (max_similarity_over query (firstn (k' * bs) memory)
         < similarity_early_exit_threshold c)%Q.
Proof.
  intros Hbs. induction cnt as [|cnt IH]; intros j Hlen.
  - exists j. simpl. split; [lia|]. split; [reflexivity|].
    split; [left; lia|]. intros k' Hk'. lia.
  - simpl.
    assert (Hj : (j * bs < List.length memory)%nat) by nia.
    destruct (batch_step query memory bs j Hbs Hj) as (batch_max & -> & Hmax).
    simpl. rewrite Hmax.
    destruct (Qle_bool (similarity_early_exit_threshold c)
                (max_similarity_over query (firstn (S j * bs) memory))) eqn:Ethr.
    + exists (S j). split; [lia|]. split; [reflexivity|].
      split; [right; now apply Qle_bool_iff|]. intros k' Hk'. lia.
    + destruct (IH (S j)) as (k & Hk & Hrun & Hstop & Hbefore); [nia|].
      exists k. split; [lia|]. split; [exact Hrun|]. split.
      * destruct Hstop as [->|Hstop]; [left; lia | right; exact Hstop].
      * intros k' Hk'. destruct (Nat.eq_dec k' (S j)) as [->|Hne].
        -- apply Qnot_le_lt. intros Hle. apply Qle_bool_iff in Hle. congruence.
        -- apply Hbefore. lia.
Qed.

Lemma py_range_bound (n bs : nat) :
  (1 <= bs)%nat ->
  ((n + bs - 1) / bs * bs < n + bs)%nat /\ (n <= (n + bs - 1) / bs * bs)%nat.
Proof.
  intros Hbs.
  pose proof (Nat.Div0.mul_div_le (n + bs - 1) bs).
  pose proof (Nat.mul_succ_div_gt (n + bs - 1) bs ltac:(lia)).
  nia.
Qed.

Lemma max_similarity_below (query : E) (thr : Q) (l : list E) :
  (0 < thr)%Q ->
  (forall e, In e l -> (cosine_similarity query e < thr)%Q) ->
  (max_similarity_over query l < thr)%Q.
Proof.
  intros Hthr. unfold max_similarity_over.
  generalize 0%Q Hthr. clear Hthr.
  induction l as [|x l IH]; intros m Hm Hall; simpl; [exact Hm|].
  apply IH.
  - destruct (py_max_cases m (cosine_similarity query x)) as [[_ ->]|[_ ->]];
      [apply Hall; now left | exact Hm].
  - intros e He. apply Hall. now right.
Qed.

(** The body of [_compute_novelty_score] below the assignment of
    [batch_size], for a batch size [bs >= 1]: it returns [clamp(1 - m, 0, 1)]
    where [m] is the largest similarity (and at least 0) over the first [k]
    batches of the memory, [k] being the first number of batches after which
    [m] has reached [similarity_early_exit_threshold], all the batches when
    it never does.  When no similarity reaches a positive threshold, that
    is the maximum over the whole memory. *)
Lemma novelty_body_characterised (c : Curiosity) (bs : Z) (memory : list E)
  (query : E) :
  (1 <= bs)%Z ->
  let thr := similarity_early_exit_threshold c in
  (exists k,
     let seen := firstn (k * Z.to_nat bs) memory in
     novelty_body cosine_similarity c bs memory query
     = Ok (clamp_score (1 - max_similarity_over query seen)) /\
     (seen = memory \/ thr <= max_similarity_over query seen) /\
     forall k', (0 < k' < k)%nat ->
       max_similarity_over query (firstn (k' * Z.to_nat bs) memory) < thr) /\
  (0 < thr ->
   (forall e, In e memory -> cosine_similarity query e < thr) ->
   novelty_body cosine_similarity c bs memory query
   = Ok (clamp_score (1 - max_similarity_over query memory))).
Proof.
  intros Hbs. cbv zeta.
  set (n := Z.to_nat bs).
  assert (Hbs' : (1 <= n)%nat) by (unfold n; lia).
  assert (Hcore :
    exists k,
      novelty_body cosine_similarity c bs memory query
      = Ok (clamp_score (1 - max_similarity_over query (firstn (k * n) memory)))
      /\
      (firstn (k * n) memory = memory \/
       similarity_early_exit_threshold c
       <= max_similarity_over query (firstn (k * n) memory)) /\
      forall k', (0 < k' < k)%nat ->
        max_similarity_over query (firstn (k' * n) memory)
        < similarity_early_exit_threshold c).
  { unfold novelty_body.
    destruct (bs =? 0)%Z eqn:E0; [lia|].
    destruct (bs <? 0)%Z eqn:E1; [lia|].
    fold n. unfold py_range.
    destruct (py_range_bound (List.length memory) n Hbs') as [Hup Hlow].
    destruct (novelty_loop_inv c query memory n Hbs'
                ((List.length memory + n - 1) / n) 0 Hup)
      as (k & Hk & Hrun & Hstop & Hbefore).
    change (firstn (0 * n) memory) with (@nil E) in Hrun.
    change (max_similarity_over query []) with 0%Q in Hrun.
    rewrite Hrun. exists k. split; [reflexivity|]. split.
    - destruct Hstop as [->|Hstop]; [left | right; exact Hstop].
      apply firstn_all2. simpl. exact Hlow.
    - exact Hbefore. }
  split; [exact Hcore|].
  intros Hthr Hall. destruct Hcore as (k & -> & [->|Hstop] & _);
    [reflexivity|].
  exfalso.
  assert (Hlt : max_similarity_over query (firstn (k * n) memory)
                < similarity_early_exit_threshold c).
  { apply max_similarity_below; [exact Hthr|].
    intros e He. apply Hall.
    rewrite <- (firstn_skipn (k * n) memory). apply in_or_app. now left. }
  lra.
Qed.

End Scorer.

(** ** Concrete runs *)

(** Embeddings on a line, for concrete runs: the similarity of two points
    falls with their distance, [1 / (1 + |a - b|)]. *)
Definition sample_cosine (a b : nat) : Q :=
  1 # Pos.of_nat (1 + (Nat.max a b - Nat.min a b)).

Definition sample_curiosity : Curiosity :=
  {| weight_ignorance := 0.7; weight_novelty := 0.3;
     similarity_early_exit_threshold := 0.99;
     batch_size := 32; adaptive_batch_min := 2; adaptive_batch_max := 128 |}.

(** A manager state with no seen prompt and a recaller whose best match is
    the query itself. *)
Definition sample_env : ManagerEnv nat :=
  {| has_state_manager := true;
     seen_prompts := [];
     get_prompt_embedding := fun p => String.length p;
     recaller :=
       Some {| embedding_fn := fun p => String.length p;
               get_long_term_context := fun e => [Some e] |} |}.

Definition sample_pressure : CuriosityPressure :=
  {| base_pressure := 0.5; max_pressure := 1.0; min_pressure := 0.0;
     decay_rate := 0; confidence_adjustment := 0.5;
     current_pressure := 0.75; last_update := 100;
     last_eruption_time := 0; cooldown := 30 |}.

(** What [calculate_curiosity_score] computes: the mean of novelty and
    ignorance. *)
Lemma calculate_curiosity_score_mean (E : Type) (cos : E -> E -> Q)
  (env : ManagerEnv E) (prompt : string) (n i : Q) :
  calculate_novelty cos env prompt = Ok n ->
  calculate_ignorance cos env prompt = Ok i ->
  calculate_curiosity_score cos env prompt = Ok (0.5 * n + 0.5 * i).
Proof.
  intros Hn Hi. unfold calculate_curiosity_score. now rewrite Hn, Hi.
Qed.

(** C4, at the failing input: the weights the scorer reads from the default
    configuration are 0.7 and 0.3; for a prompt with novelty 1 and
    ignorance 0 the weighted blend is 0.3, and [calculate_curiosity_score]
    returns 0.5. *)
Theorem curiosity_score_ignores_weights (sha256_16 : value -> string) :
  (exists c,
     Curiosity_init (ConfigFacts.default_manager sha256_16) = Ok c /\
     weight_ignorance c = 0.7 /\ weight_novelty c = 0.3) /\
  calculate_novelty sample_cosine sample_env "hello" = Ok 1 /\
  calculate_ignorance sample_cosine sample_env "hello" = Ok 0 /\
  (exists score,
     calculate_curiosity_score sample_cosine sample_env "hello" = Ok score /\
     score == 0.5 /\
     ~ score == 0.7 * 0 + 0.3 * 1).
Proof.
  split.
  { eexists. split; [vm_compute; reflexivity|]. split; reflexivity. }
  split; [vm_compute; reflexivity|].
  split; [vm_compute; reflexivity|].
  eexists. split; [vm_compute; reflexivity|].
  split; [reflexivity | discriminate].
Qed.

(** C6, at the failing input: a memory of one embedding whose similarity
    with the query is 1/8.  The claim gives the novelty
    [clamp(1 - 1/8, 0, 1) = 7/8], and the loop of [_compute_novelty_score]
    run with a batch size of 2 gives that too; but the method asks
    [self._estimate_adaptive_batch_size()] for the batch size, which class
    [Curiosity] does not define, so it returns [0.0] for every memory and
    every query.  [compute_curiosity] calls [self._log_event], which the
    class does not define either, and returns [0.5] on every call, with or
    without memory.  With no prompt seen, [_calculate_novelty] returns 1. *)
Theorem novelty_score_never_computed :
  (forall (E : Type) (cos : E -> E -> Q) (c : Curiosity) (memory : list E)
          (query : E),
     compute_novelty_score cos c memory query = 0) /\
  (forall (E : Type) (cos : E -> E -> Q) (c : Curiosity) (embeddings : list E)
          (query : option E),
     compute_curiosity cos c embeddings query = 0.5) /\
  clamp_score (1 - max_similarity_over nat sample_cosine 10%nat [3%nat])
  == 7 # 8 /\
  (exists score,
     novelty_body sample_cosine sample_curiosity 2 [3%nat] 10%nat = Ok score /\
     score == 7 # 8) /\
  compute_novelty_score sample_cosine sample_curiosity [3%nat] 10%nat = 0 /\
  compute_curiosity sample_cosine sample_curiosity [3%nat] (Some 10%nat)
  = 0.5 /\
  compute_curiosity sample_cosine sample_curiosity [] (Some 10%nat) = 0.5 /\
  calculate_novelty sample_cosine sample_env "hello" = Ok 1.
Proof.
  split; [reflexivity|].
  split; [reflexivity|].
  split; [vm_compute; reflexivity|].
  split.
  { eexists. split; [vm_compute; reflexivity | vm_compute; reflexivity]. }
  repeat split; vm_compute; reflexivity.
Qed.

(** C7, witness: the eruption scenario (threshold 0.7, drop 0.3, cooldown
    30 s, no decay, pressure 0.75): the first check erupts, a second one at
    the same instant does not. *)
Lemma check_eruption_cooldown_witness :
  constructed sample_pressure /\
  0 <= cooldown sample_pressure /\
  (snd (check_eruption 100 0.7 0.3 sample_pressure) = true <->
   0.7 <= current_pressure (decay_pressure 100 sample_pressure) /\
   cooldown sample_pressure < 100 - last_eruption_time sample_pressure).
Proof.
  assert (Hc : constructed sample_pressure)
    by (unfold constructed; simpl; repeat split; discriminate).
  assert (Hr : min_pressure sample_pressure <= current_pressure sample_pressure
               <= max_pressure sample_pressure)
    by (simpl; split; discriminate).
  assert (Ht : last_update sample_pressure <= 100) by (simpl; discriminate).
  assert (Hd : 0 <= cooldown sample_pressure) by (simpl; discriminate).
  split; [exact Hc|]. split; [exact Hd|].
  exact (proj1 (check_eruption_cooldown sample_pressure 100 0.7 0.3
                  [OpCheck 100 0.7 0.3; OpCheck 100 0.7 0.3] Hc Hr Ht Hd)).
Defined.

End CuriosityFacts.

(** * Properties of the temperament system *)

Module TemperamentFacts.
Import Py Temperament PyFacts.

Unset Implicit Arguments.
Local Open Scope Q_scope.

Section System.

Variable float_lt : Q -> Q -> bool.
Variable safe_divide : Q -> Q -> Q -> Q.
Variable torch_var : list Q -> Q.

Lemma within_iff (lo hi x : Q) : within lo hi x = true <-> lo <= x <= hi.
Proof.
  unfold within. rewrite andb_true_iff, !Qle_bool_iff. reflexivity.
Qed.

Lemma validate_lifecycle (c : TemperamentConfig) :
  validate c = true ->
  0.1 <= early_lifecycle c <= 0.3 /\ 0.6 <= mid_lifecycle c <= 0.8.
Proof.
  unfold validate. rewrite !andb_true_iff.
  intros [[[[_ He] Hm] _] _]. now rewrite !within_iff in He, Hm.
Qed.

Lemma py_div_ok (a b : Q) : ~ b == 0 -> py_div a b = Ok (a / b).
Proof.
  intros Hb. unfold py_div. destruct (Qeq_bool b 0) eqn:E; [|reflexivity].
  apply Qeq_bool_iff in E. contradiction.
Qed.

Lemma mood_label_frame (now : Q) (s : TemperamentSystem) :
  score (fst (mood_label float_lt now s)) = score s /\
  config (fst (mood_label float_lt now s)) = config s /\
  history (fst (mood_label float_lt now s)) = history s /\
  last_update (fst (mood_label float_lt now s)) = last_update s.
Proof.
  unfold mood_label. destruct (mood_cache s); [|now repeat split].
  destruct (Qlt_bool _ _); now repeat split.
Qed.

Lemma calculate_lifecycle_bias_ok (stage : Q) (s : TemperamentSystem) :
  validate (config s) = true ->
  exists bias,
    calculate_lifecycle_bias float_lt torch_var stage s = Ok bias.
Proof.
  intros Hv. destruct (validate_lifecycle _ Hv) as [He Hm].
  unfold calculate_lifecycle_bias.
  destruct (float_lt stage (early_lifecycle (config s))).
  - rewrite py_div_ok by lra. simpl. eauto.
  - destruct (float_lt stage (mid_lifecycle (config s))).
    + destruct (_ <=? _)%nat; eauto.
    + rewrite py_div_ok by lra. simpl. eauto.
Qed.

Lemma compute_target_score_ok (now g1 g2 avg stage : Q) (cp : option Q)
  (s : TemperamentSystem) :
  validate (config s) = true ->
  exists s1 target,
    compute_target_score float_lt torch_var now g1 g2 avg stage cp s
      = (s1, Ok target) /\
    score s1 = score s /\ config s1 = config s /\
    history s1 = history s /\ last_update s1 = last_update s /\
    -1 <= target <= 1.
Proof.
  intros Hv. unfold compute_target_score.
  destruct (calculate_lifecycle_bias_ok stage s Hv) as [bias ->].
  unfold calculate_noise.
  destruct (mood_label_frame now s) as (E1 & E2 & E3 & E4).
  destruct (mood_label float_lt now s) as [s1 label]. simpl in E1, E2, E3, E4.
  destruct (String.eqb label "melancholic");
    (eexists; eexists; split; [reflexivity|];
     repeat (split; [assumption|]); apply clamp_unit).
Qed.

(** C8: a call of [update_temperament] with confidence and lifecycle stage
    in [[0, 1]] (and curiosity pressure in [[0, 1]] when supplied), on a
    system whose configuration passed [TemperamentConfig.validate],
    completes, and the score it leaves is in [[-1, 1]]: whatever the score,
    the histories and the caches were before, whatever the elapsed time and
    the noise drawn. *)
Theorem update_temperament_score_bounded (s : TemperamentSystem)
  (now g1 g2 confidence lifecycle_stage : Q)
  (time_since_last curiosity_pressure : option Q) :
  validate (config s) = true ->
  0 <= confidence <= 1 ->
  0 <= lifecycle_stage <= 1 ->
  (forall cp, curiosity_pressure = Some cp -> 0 <= cp <= 1) ->
  exists s',
    update_temperament float_lt safe_divide torch_var now g1 g2 confidence
      lifecycle_stage time_since_last curiosity_pressure s = (s', Ok tt) /\
    -1 <= score s' <= 1.
Proof.
  intros Hv Hc Hl Hp. unfold update_temperament.
  assert (Hc' : within 0.0 1.0 confidence = true) by (apply within_iff; lra).
  assert (Hl' : within 0.0 1.0 lifecycle_stage = true) by (apply within_iff; lra).
  rewrite Hc', Hl'. simpl negb. cbv iota.
  assert (Hp' : match curiosity_pressure with
                | Some cp => negb (within 0.0 1.0 cp)
                | None => false
                end = false).
  { destruct curiosity_pressure as [cp|]; [|reflexivity].
    apply negb_false_iff, within_iff. specialize (Hp cp eq_refl). lra. }
  rewrite Hp'.
  set (s1 := update_confidence confidence s).
  assert (Hv1 : validate (config s1) = true) by exact Hv.
  destruct (compute_target_score_ok now g1 g2
              (calculate_avg_confidence safe_divide s1) lifecycle_stage
              curiosity_pressure s1 Hv1)
    as (s2 & target & -> & _ & _ & _ & _ & _).
  eexists. split; [reflexivity|].
  rewrite (proj1 (mood_label_frame now _)).
  unfold update_state, apply_smoothing. simpl. apply clamp_unit.
Qed.

End System.

(** ** A concrete run *)

(** Stand-ins for the helpers of [sovl_utils] and for [torch.var], to run
    the system on concrete inputs. *)
Definition sample_float_lt (a b : Q) : bool := Qlt_bool a b.

Definition sample_safe_divide (a b dflt : Q) : Q :=
  if Qeq_bool b 0 then dflt else a / b.

Definition sample_var (l : list Q) : Q :=
  let n := inject_Z (Z.of_nat (List.length l)) in
  let mean := fold_left Qplus l 0 / n in
  fold_left Qplus (map (fun x => (x - mean) * (x - mean)) l) 0 / (n - 1).

(** The defaults of [TemperamentConfig]. *)
Definition sample_config : TemperamentConfig :=
  {| eager_threshold := 0.7; sluggish_threshold := 0.3;
     mood_influence := 0.5; curiosity_boost := 0.2; restless_drop := 0.1;
     melancholy_noise := 0.1; confidence_feedback_strength := 0.3;
     temp_smoothing_factor := 0.1; decay_rate := 0.1;
     history_maxlen := 5; confidence_history_maxlen := 5;
     early_lifecycle := 0.25; mid_lifecycle := 0.75 |}.

(** The system as [__init__] leaves it, at time 100. *)
Definition sample_system : TemperamentSystem :=
  {| config := sample_config; score := 0.0; history := [];
     confidence_history := []; sleep_confidence_sum := 0.0;
     sleep_confidence_count := 0; last_update := 100;
     mood_cache := None; mood_cache_time := 0 |}.

(** C8, witness: a confident update early in the lifecycle, with a large
    noise sample. *)
Lemma update_temperament_score_bounded_witness :
  validate (config sample_system) = true /\
  exists s',
    update_temperament sample_float_lt sample_safe_divide sample_var
      101 3 (-2) 0.9 0.1 None (Some 0.5) sample_system = (s', Ok tt) /\
    -1 <= score s' <= 1.
Proof.
  assert (Hv : validate (config sample_system) = true) by reflexivity.
  split; [exact Hv|].
  apply (update_temperament_score_bounded sample_float_lt sample_safe_divide
           sample_var sample_system 101 3 (-2) 0.9 0.1 None (Some 0.5) Hv).
  - split; discriminate.
  - split; discriminate.
  - intros cp Hcp. inversion Hcp; subst. split; discriminate.
Defined.

End TemperamentFacts.

(** * Further properties of the configuration manager *)

Module ConfigOpsFacts.
Import Py Config ConfigOps ConfigFacts.

Unset Implicit Arguments.
Local Open Scope string_scope.
Local Open Scope list_scope.

(** ** Reading back what [update] wrote *)

(** Under a schema of one of the types of DEFAULT_SCHEMA, a value that
    validates and is not [None] is not a dict. *)
Lemma validate_true_not_dict tbl key s v c :
  dict_get key tbl = Some s -> plain_type (type s) = true ->
  validate tbl key v = Ok (true, c) -> is_none v = false ->
  is_empty_dict v = false /\ is_dict v = false.
Proof.
  unfold validate. intros -> Ht H Hn. rewrite Hn in H.
  destruct (isinstance v (type s)) eqn:Hi; [|discriminate].
  destruct (type s), v; try discriminate; split; reflexivity.
Qed.

(** [None] validates only for a nullable key that is not required. *)
Lemma validate_none_nullable tbl key c :
  validate tbl key VNone = Ok (true, c) ->
  exists s, dict_get key tbl = Some s /\ nullable s = true /\ required s = false.
Proof.
  unfold validate. destruct (dict_get key tbl) as [s|]; [|discriminate].
  simpl. destruct (required s) eqn:Hr; [discriminate|].
  destruct (nullable s) eqn:Hn; [|discriminate].
  intros _. exists s. repeat split; assumption.
Qed.

Lemma update_true_inv sha256_16 key v m m' :
  update sha256_16 key v m = (m', true) ->
  frozen m = false /\
  validate (schemas m) key v = Ok (true, v) /\
  exists st,
    set_value key v (store m) = (st, Ok tt) /\
    m' = record_event "config_update"
           (with_hash (compute_config_hash sha256_16 (with_store st m))
                      (with_store st m)).
Proof.
  unfold update. destruct (frozen m); [discriminate|].
  destruct (validate (schemas m) key v) as [[[|] c]|e] eqn:Hv;
    try discriminate.
  destruct (set_value key v (store m)) as [st [[]|e]] eqn:Hs; [|discriminate].
  intros H. inversion H; subst; clear H.
  split; [reflexivity|]. split.
  - pose proof (validate_true_same _ _ _ _ Hv) as Hc. subst c. reflexivity.
  - exists st. split; reflexivity.
Qed.

(** X1: a successful [update(key, value)] can be read back: [get(key, d)]
    returns the value written, for every default [d], unless the value is
    [None] or the empty dict, in which case [get] returns [d].  [None] is
    accepted only for a nullable key that is not required; the empty dict is
    accepted only under a schema of type [dict] or [object], which no schema
    of DEFAULT_SCHEMA has and only [register_schema] can add.  The stored
    hash is then the digest of the flat map. *)
Theorem update_then_get (sha256_16 : value -> string) (key : string)
  (v : value) (m m' : ConfigManager) :
  update sha256_16 key v m = (m', true) ->
  (forall d,
     snd (get key d m') = if is_empty_dict v || is_none v then d else v) /\
  (is_none v = true ->
   exists s, dict_get key (schemas m) = Some s /\
             nullable s = true /\ required s = false) /\
  (is_empty_dict v = true ->
   exists s, dict_get key (schemas m) = Some s /\
             plain_type (type s) = false) /\
  last_config_hash m' = compute_config_hash sha256_16 m'.
Proof.
  intros Hup. destruct (update_true_inv _ _ _ _ _ Hup)
    as (_ & Hv & st & Hset & ->).
  assert (Hread : forall d, get_value key d st = v).
  { intros d. replace st with (fst (set_value key v (store m)))
      by now rewrite Hset.
    apply get_value_set_same. }
  split; [|split; [|split]].
  - intros d. unfold get. cbn [store record_event with_hash with_store].
    rewrite Hread. destruct (is_empty_dict v || is_none v); reflexivity.
  - intros Hn. destruct v; try discriminate.
    exact (validate_none_nullable _ _ _ Hv).
  - intros He.
    destruct (dict_get key (schemas m)) as [s|] eqn:Hl.
    + exists s. split; [reflexivity|].
      destruct (plain_type (type s)) eqn:Ht; [|reflexivity].
      assert (Hn : is_none v = false)
        by (destruct v; try discriminate; reflexivity).
      destruct (validate_true_not_dict _ _ _ _ _ Hl Ht Hv Hn) as [He' _].
      congruence.
    + unfold validate in Hv. rewrite Hl in Hv. discriminate.
  - reflexivity.
Qed.

(** X2: a successful [update] of one key of DEFAULT_SCHEMA does not change
    what [get] returns for any other key of DEFAULT_SCHEMA. *)
Theorem update_leaves_other_keys (sha256_16 : value -> string)
  (s s' : ConfigSchema) (v d : value) (m m' : ConfigManager) :
  In s DEFAULT_SCHEMA -> In s' DEFAULT_SCHEMA -> field s <> field s' ->
  is_dict d = false ->
  update sha256_16 (field s') v m = (m', true) ->
  snd (get (field s) d m') = snd (get (field s) d m).
Proof.
  intros Hs Hs' Hne Hd Hup.
  destruct (update_true_inv _ _ _ _ _ Hup) as (_ & _ & st & Hset & ->).
  unfold get. cbn [store record_event with_hash with_store].
  rewrite (get_value_set_other (field s) (field s') v d (store m) st
             (default_schema_shape s' Hs') Hset Hne
             (apart DEFAULT_SCHEMA default_schema_apart s s' Hs Hs' Hne) Hd).
  destruct (is_empty_dict _ || is_none _); reflexivity.
Qed.

(** X1, witness: the batch size is set to 8 on the manager built from no
    file. *)
Lemma update_then_get_witness :
  update sample_digest "training_config.batch_size" (VInt 8)
         (default_manager sample_digest)
  = (fst (update sample_digest "training_config.batch_size" (VInt 8)
                 (default_manager sample_digest)), true) /\
  forall d,
    snd (get "training_config.batch_size" d
             (fst (update sample_digest "training_config.batch_size" (VInt 8)
                          (default_manager sample_digest)))) = VInt 8.
Proof.
  assert (H : update sample_digest "training_config.batch_size" (VInt 8)
                (default_manager sample_digest)
              = (fst (update sample_digest "training_config.batch_size" (VInt 8)
                             (default_manager sample_digest)), true))
    by (vm_compute; reflexivity).
  split; [exact H|].
  exact (proj1 (update_then_get sample_digest _ _ _ _ H)).
Defined.

(** The schema of DEFAULT_SCHEMA at a position. *)
Definition schema_at (n : nat) : ConfigSchema :=
  nth n DEFAULT_SCHEMA (ConfigSchema_ "" TStr VNone None None false false).

Lemma schema_at_In (n : nat) :
  (n <? List.length DEFAULT_SCHEMA)%nat = true -> In (schema_at n) DEFAULT_SCHEMA.
Proof. intros H. apply nth_In. now apply Nat.ltb_lt. Qed.

(** X2, witness: writing the batch size does not move the hidden size. *)
Lemma update_leaves_other_keys_witness :
  field (schema_at 9) = "core_config.hidden_size" /\
  field (schema_at 16) = "training_config.batch_size" /\
  snd (get "core_config.hidden_size" VNone
           (fst (update sample_digest "training_config.batch_size" (VInt 8)
                        (default_manager sample_digest))))
  = snd (get "core_config.hidden_size" VNone (default_manager sample_digest)).
Proof.
  split; [reflexivity|]. split; [reflexivity|].
  apply (update_leaves_other_keys sample_digest (schema_at 9) (schema_at 16)
           (VInt 8) VNone (default_manager sample_digest)).
  - apply schema_at_In. reflexivity.
  - apply schema_at_In. reflexivity.
  - discriminate.
  - reflexivity.
  - vm_compute. reflexivity.
Defined.

(** ** Construction without a usable file *)

Lemma split_nonempty (sep : ascii) (s : string) : split sep s <> [].
Proof.
  induction s as [|c s IH]; simpl; [discriminate|].
  destruct (Ascii.eqb c sep); [discriminate|].
  destruct (split sep s); discriminate.
Qed.

Lemma descend_empty_dict (keys : list string) (dflt : value) :
  is_dict dflt = false -> keys <> [] -> descend keys (VDict []) dflt = dflt.
Proof.
  intros Hd Hne. destruct keys as [|k ks]; [contradiction|].
  simpl. now apply descend_default.
Qed.

(** When every value read validates, [_validate_and_set_defaults] writes
    nothing. *)
Lemma validate_and_set_defaults_noop (T : list ConfigSchema) (m : ConfigManager) :
  (forall s, In s T ->
     validb (schemas m) (field s)
            (get_value (field s) (default s) (store m)) = true) ->
  validate_and_set_defaults T m = (m, Ok tt).
Proof.
  induction T as [|s T IH]; intros Hall; simpl; [reflexivity|].
  rewrite (validb_valid _ _ _ (Hall s (or_introl eq_refl))).
  apply IH. intros s' Hs'. apply Hall. now right.
Qed.

(** X3: built from a missing file, from a file whose reading raises one of
    the exceptions [load] catches (it does not decode as JSON or as gzip),
    or from an empty JSON object, the manager holds for every key of
    DEFAULT_SCHEMA exactly the schema's default in its cache; the flat map
    stays empty (the defaults are not written to it) and nothing but the
    load is logged. *)
Theorem init_without_file_gives_defaults (sha256_16 : value -> string)
  (f : file_content) :
  load f = Ok (VDict []) ->
  exists m,
    init sha256_16 f = Ok m /\
    flat_config (store m) = VDict [] /\
    (forall s, In s DEFAULT_SCHEMA ->
       dict_get (field s) (cache (store m)) = Some (default s)) /\
    last_config_hash m = sha256_16 (VDict []) /\
    log m = ["config_load"].
Proof.
  intros Hload. unfold init, initialize_config. rewrite Hload.
  set (m0 := with_store _ _).
  assert (Hread : forall s, In s DEFAULT_SCHEMA ->
            get_value (field s) (default s) (store m0) = default s).
  { intros s Hs. unfold get_value. simpl.
    apply descend_empty_dict; [|apply split_nonempty].
    exact (default_not_dict default_table DEFAULT_SCHEMA
             default_schema_lookup default_schema_default
             default_schema_type s Hs). }
  rewrite (validate_and_set_defaults_noop DEFAULT_SCHEMA m0).
  2:{ intros s Hs. rewrite (Hread s Hs). now apply default_schema_default. }
  destruct (rebuild_structured_ok DEFAULT_SCHEMA default_schema_shape
              DEFAULT_SCHEMA (store m0) (incl_refl _) initial_structured_ok)
    as (st & Hreb & Hflat & Hcache & _).
  rewrite Hreb. eexists. split; [reflexivity|].
  cbn [store record_event with_hash with_store last_config_hash log].
  split; [exact Hflat|]. split.
  - intros s Hs.
    rewrite (update_cache_get default_table DEFAULT_SCHEMA
               default_schema_lookup s st Hs).
    f_equal. rewrite (get_value_ext _ _ _ _ Hflat Hcache). now apply Hread.
  - split; [|reflexivity].
    unfold compute_config_hash.
    cbn [store with_store update_cache with_cache flat_config].
    rewrite Hflat. reflexivity.
Qed.

(** X3, witness: the file is missing. *)
Lemma init_without_file_gives_defaults_witness :
  load FileMissing = Ok (VDict []) /\
  exists m,
    init sample_digest FileMissing = Ok m /\
    flat_config (store m) = VDict [].
Proof.
  split; [reflexivity|].
  destruct (init_without_file_gives_defaults sample_digest FileMissing eq_refl)
    as (m & Hinit & Hflat & _).
  exists m. split; assumption.
Defined.


(** Whatever [load] returns, construction leaves a tree whose sections are
    dicts. *)
Lemma init_cache_structured (sha256_16 : value -> string) (f : file_content)
  (flat : value) :
  load f = Ok flat ->
  exists m,
    init sha256_16 f = Ok m /\
    structured_ok (structured_config (store m)).
Proof.
  intros Hload. unfold init, initialize_config. rewrite Hload.
  set (m0 := with_store _ _).
  assert (Hvis0 : visited default_table [] m0).
  { repeat split.
    - exact initial_structured_ok.
    - intros k v Hk. discriminate.
    - intros s []. }
  destruct (visit_all default_table DEFAULT_SCHEMA
              default_schema_lookup default_schema_shape
              default_schema_default default_schema_range
              default_schema_type default_schema_apart DEFAULT_SCHEMA [] m0
              (incl_refl _) default_schema_nodup Hvis0)
    as (m1 & Hrun & _ & Hok & _ & _).
  rewrite Hrun.
  destruct (rebuild_structured_ok DEFAULT_SCHEMA default_schema_shape
              DEFAULT_SCHEMA (store m1) (incl_refl _) Hok)
    as (st & Hreb & _ & _ & Hok').
  rewrite Hreb. eexists. split; [reflexivity|]. exact Hok'.
Qed.

(** ** The change hash on the single-key path *)

Lemma init_hash sha256_16 f m :
  init sha256_16 f = Ok m ->
  last_config_hash m = compute_config_hash sha256_16 m.
Proof.
  unfold init, initialize_config.
  destruct (load f) as [flat|e0]; [|discriminate].
  destruct (validate_and_set_defaults _ _) as [m1 [[]|e]]; [|discriminate].
  destruct (rebuild_structured _ _) as [st [[]|e]]; [|discriminate].
  intros H. inversion H; subst. reflexivity.
Qed.

(** X4: after construction from any file, and after every successful
    [update], the stored change hash is the digest of the current flat map
    (the empty string when the flat map cannot be serialised); so a
    successful [update] that leaves the flat map as it was leaves the hash
    as it was. *)
Theorem update_hash_tracks_flat (sha256_16 : value -> string)
  (f : file_content) (m0 m m' : ConfigManager) (key : string) (v : value) :
  init sha256_16 f = Ok m0 ->
  last_config_hash m = compute_config_hash sha256_16 m ->
  update sha256_16 key v m = (m', true) ->
  last_config_hash m0 = compute_config_hash sha256_16 m0 /\
  last_config_hash m' = compute_config_hash sha256_16 m' /\
  (flat_config (store m') = flat_config (store m) ->
   last_config_hash m' = last_config_hash m).
Proof.
  intros Hinit Hm Hup. split; [now apply (init_hash _ f)|].
  assert (Hm' : last_config_hash m' = compute_config_hash sha256_16 m').
  { destruct (update_true_inv _ _ _ _ _ Hup) as (_ & _ & st & _ & ->).
    reflexivity. }
  split; [exact Hm'|].
  intros Hflat. rewrite Hm', Hm. unfold compute_config_hash. now rewrite Hflat.
Qed.

(** X4, witness: the default manager, and an update that rewrites the
    default quantization. *)
Lemma update_hash_tracks_flat_witness :
  init sample_digest FileMissing = Ok (default_manager sample_digest) /\
  last_config_hash
    (fst (update sample_digest "core_config.quantization" (VStr "fp16")
                 (default_manager sample_digest)))
  = compute_config_hash sample_digest
      (fst (update sample_digest "core_config.quantization" (VStr "fp16")
                   (default_manager sample_digest))).
Proof.
  assert (Hi : init sample_digest FileMissing = Ok (default_manager sample_digest))
    by apply init_missing.
  split; [exact Hi|].
  refine (proj1 (proj2 (update_hash_tracks_flat sample_digest FileMissing
                   (default_manager sample_digest)
                   (default_manager sample_digest) _
                   "core_config.quantization" (VStr "fp16") Hi _ _))).
  - now apply (init_hash _ FileMissing).
  - vm_compute. reflexivity.
Defined.

(** ** Reading back what [update_batch] wrote *)

Lemma apply_updates_cache_other (updates : dict) :
  forall st acc st' done k,
    apply_updates updates st acc = (st', done, Ok tt) ->
    ~ In k (map fst updates) ->
    dict_get k (cache st') = dict_get k (cache st).
Proof.
  induction updates as [|[k0 v0] rest IH]; intros st acc st' done k Hrun Hk.
  - simpl in Hrun. inversion Hrun; subst. reflexivity.
  - simpl in Hrun, Hk.
    destruct (set_value k0 v0 st) as [st1 [[]|e]] eqn:Hset; [|discriminate].
    rewrite (IH _ _ _ _ k Hrun) by tauto.
    replace st1 with (fst (set_value k0 v0 st)) by now rewrite Hset.
    rewrite set_value_cache. apply dict_get_set_other. intros ->. tauto.
Qed.

Lemma apply_updates_cache (updates : dict) :
  forall st acc st' done k v,
    apply_updates updates st acc = (st', done, Ok tt) ->
    NoDup (map fst updates) -> In (k, v) updates ->
    dict_get k (cache st') = Some v.
Proof.
  induction updates as [|[k0 v0] rest IH];
    intros st acc st' done k v Hrun Hnd Hin; [contradiction|].
  simpl in Hrun, Hnd. inversion Hnd as [|? ? Hfresh Hnd']; subst.
  destruct (set_value k0 v0 st) as [st1 [[]|e]] eqn:Hset; [|discriminate].
  destruct Hin as [Heq|Hin].
  - inversion Heq; subst.
    rewrite (apply_updates_cache_other rest _ _ _ _ k Hrun Hfresh).
    replace st1 with (fst (set_value k v st)) by now rewrite Hset.
    rewrite set_value_cache. apply dict_get_set_same.
  - exact (IH _ _ _ _ k v Hrun Hnd' Hin).
Qed.

Lemma update_batch_reads (sha256_16 : value -> string) (io_ok rb : bool)
  (updates : dict) (m m' : ConfigManager) :
  update_batch sha256_16 io_ok updates rb m = (m', Ok true) ->
  NoDup (map fst updates) ->
  updates <> [] ->
  exists st done,
    apply_updates updates (store m) [] = (st, done, Ok tt) /\
    store m' = st /\ saved m' = Some (flat_config st) /\
    forall k v, In (k, v) updates -> dict_get k (cache st) = Some v.
Proof.
  intros Hrun Hnd Hne.
  apply update_batch_true_inv in Hrun.
  destruct Hrun as [[Hnil _]|[_ (st & done & _ & Ha & _ & ->)]];
    [contradiction|].
  unfold notify_subscribers.
  destruct (notify_loop_frame
              (subscribers (with_saved (Some (flat_config st)) (with_store st m)))
              (with_saved (Some (flat_config st)) (with_store st m)))
    as (Hstore & _ & _ & _ & _ & Hsaved).
  exists st, done. split; [exact Ha|]. split; [exact Hstore|].
  split; [rewrite Hsaved; reflexivity|].
  intros k v Hin. exact (apply_updates_cache updates _ _ _ _ k v Ha Hnd Hin).
Qed.

(** X5: after an [update_batch] that returned [True], [get] returns for
    every key of the batch the value the batch gave it (the caller's default
    when that value is [None] or the empty dict), and the file holds the
    flat map. *)
Theorem update_batch_then_get (sha256_16 : value -> string) (io_ok rb : bool)
  (updates : dict) (m m' : ConfigManager) :
  update_batch sha256_16 io_ok updates rb m = (m', Ok true) ->
  NoDup (map fst updates) ->
  updates <> [] ->
  (forall k v d, In (k, v) updates ->
     snd (get k d m') = if is_empty_dict v || is_none v then d else v) /\
  saved m' = Some (flat_config (store m')).
Proof.
  intros Hrun Hnd Hne.
  destruct (update_batch_reads _ _ _ _ _ _ Hrun Hnd Hne)
    as (st & done & _ & Hstore & Hsaved & Hread).
  split.
  - intros k v d Hin. unfold get, get_value. rewrite Hstore.
    rewrite (Hread k v Hin).
    destruct (is_empty_dict v || is_none v); reflexivity.
  - rewrite Hsaved, Hstore. reflexivity.
Qed.

(** X5, witness: a batch of two keys on the manager built from no file. *)
Lemma update_batch_then_get_witness :
  snd (update_batch sample_digest true
         [("training_config.batch_size", VInt 8);
          ("core_config.quantization", VStr "int8")] true
         (default_manager sample_digest)) = Ok true /\
  forall d,
    snd (get "core_config.quantization" d
           (fst (update_batch sample_digest true
                   [("training_config.batch_size", VInt 8);
                    ("core_config.quantization", VStr "int8")] true
                   (default_manager sample_digest)))) = VStr "int8".
Proof.
  split; [vm_compute; reflexivity|].
  intros d.
  refine (proj1 (update_batch_then_get sample_digest true true
                   [("training_config.batch_size", VInt 8);
                    ("core_config.quantization", VStr "int8")]
                   (default_manager sample_digest) _ _ _ _)
            "core_config.quantization" (VStr "int8") d _).
  - vm_compute. reflexivity.
  - repeat constructor; simpl; intuition discriminate.
  - discriminate.
  - right. now left.
Defined.

(** ** [tune] and keys without a dot *)

Lemma split1_dotless (key : string) :
  has_dot key = false -> split1 dot key = [key].
Proof.
  induction key as [|c key IH]; [reflexivity|].
  change (has_dot (String c key)) with (Ascii.eqb dot c || has_dot key).
  intros H. apply orb_false_iff in H. destruct H as [Hc Hrest].
  cbn [split1]. rewrite Ascii.eqb_sym, Hc. now rewrite (IH Hrest).
Qed.

(** The validation loop of [update_batch] raises as soon as it meets a key
    without a dot, if it has not raised before. *)
Lemma validate_updates_dotless (tbl : schema_table) (updates : dict) :
  (exists k v, In (k, v) updates /\ has_dot k = false) ->
  exists e, validate_updates tbl updates = Raise e.
Proof.
  induction updates as [|[k0 v0] rest IH]; intros (k & v & Hin & Hdot).
  - contradiction.
  - simpl. destruct (validate tbl k0 v0) as [r|e]; simpl; [|eauto].
    destruct (has_dot k0) eqn:Hdot0.
    + assert (Hrest : exists k v, In (k, v) rest /\ has_dot k = false).
      { destruct Hin as [Heq|Hin]; [|eauto].
        inversion Heq; subst. congruence. }
      destruct (split1 dot k0) as [|a [|b [|c l]]]; eauto.
      destruct (dict_has a tbl); eauto.
    + rewrite (split1_dotless k0 Hdot0). eauto.
Qed.

Lemma dict_get_in_nodup (V : Type) (d : list (string * V)) :
  NoDup (map fst d) ->
  forall k v, In (k, v) d -> dict_get k d = Some v.
Proof.
  induction d as [|[k0 v0] d IH]; intros Hnd k v Hin; [contradiction|].
  simpl in Hnd. inversion Hnd as [|? ? Hfresh Hnd']; subst. simpl.
  destruct Hin as [Heq|Hin].
  - inversion Heq; subst. now rewrite String.eqb_refl.
  - destruct (String.eqb k k0) eqn:Hk.
    + apply String.eqb_eq in Hk. subst k0. exfalso. apply Hfresh.
      change k with (fst (k, v)). now apply in_map.
    + now apply IH.
Qed.

(** The shallow backup of a dict, installed back over the same dict, is
    that dict. *)
Lemma restore_copy (d : dict) :
  NoDup (map fst d) -> restore (BackupDict (map fst d)) (VDict d) = VDict d.
Proof.
  intros Hnd. unfold restore. f_equal.
  assert (H : forall d', (forall k v, In (k, v) d' -> dict_get k d = Some v) ->
            flat_map (fun k => match dict_get k d with
                               | Some v => [(k, v)]
                               | None => []
                               end) (map fst d') = d').
  { induction d' as [|[k v] d' IH]; intros Hall; [reflexivity|].
    simpl. rewrite (Hall k v (or_introl eq_refl)). simpl. f_equal.
    apply IH. intros k' v' Hin. apply Hall. now right. }
  apply H. now apply dict_get_in_nodup.
Qed.

Lemma rebuild_one_frame (s : ConfigSchema) (st : ConfigStore) :
  flat_config (fst (rebuild_one s st)) = flat_config st /\
  cache (fst (rebuild_one s st)) = cache st.
Proof.
  unfold rebuild_one.
  destruct (split dot (field s)) as [|a [|b [|c [|e r]]]];
    try (split; reflexivity).
  - destruct (structured_set2 _ _ _ _); split; reflexivity.
  - destruct (_ && _); [|split; reflexivity].
    destruct (structured_set3 _ _ _ _ _); split; reflexivity.
Qed.

(** [rebuild_structured] writes to the structured tree only, whether it
    completes or raises. *)
Lemma rebuild_structured_frame (T : list ConfigSchema) :
  forall st,
    flat_config (fst (rebuild_structured T st)) = flat_config st /\
    cache (fst (rebuild_structured T st)) = cache st.
Proof.
  induction T as [|s T IH]; intros st; simpl; [split; reflexivity|].
  destruct (rebuild_one_frame s st) as [Hf Hc].
  destruct (rebuild_one s st) as [st1 [[]|e]]; simpl in Hf, Hc.
  - destruct (IH st1) as [Hf1 Hc1]. rewrite Hf1, Hc1. now split.
  - now split.
Qed.

(** The shallow backup of the flat map, installed back over the same map,
    is that map. *)
Lemma restore_same (flat : value) (bk : backup) :
  distinct_keys flat -> copy flat = Ok bk -> restore bk flat = flat.
Proof.
  destruct flat; try discriminate; intros Hnd H; inversion H; subst.
  - reflexivity.
  - now apply restore_copy.
Qed.

(** X6: a [tune] call (or any [update_batch] with rollback) in which one
    keyword name holds no dot applies nothing.  The validation loop raises
    at the latest at that name, before any value is written: the call never
    returns [True], the flat map is the one before, nothing is saved and
    no subscriber is notified.  When the flat map has no [copy] method the
    call raises [AttributeError] before anything else; otherwise the
    rollback runs, and on a manager whose structured tree has its sections
    it logs [config_rollback], recomputes the hash and returns [False].
    Every name that can be written as a keyword is without a dot. *)
Theorem tune_dotless_name_applies_nothing (sha256_16 : value -> string)
  (io_ok : bool) (kwargs : dict) (m : ConfigManager) :
  (exists k v, In (k, v) kwargs /\ has_dot k = false) ->
  distinct_keys (flat_config (store m)) ->
  exists m' r,
    tune sha256_16 io_ok kwargs m = (m', r) /\
    r <> Ok true /\
    flat_config (store m') = flat_config (store m) /\
    saved m' = saved m /\
    notified m' = notified m /\
    (forall e, copy (flat_config (store m)) = Raise e ->
       r = Raise AttributeError /\ m' = m) /\
    (forall bk, copy (flat_config (store m)) = Ok bk ->
       structured_ok (structured_config (store m)) ->
       r = Ok false /\
       log m' = log m ++ ["config_rollback"] /\
       last_config_hash m' = compute_config_hash sha256_16 m').
Proof.
  intros Hdot Hnd. unfold tune, update_batch, update_batch_try.
  destruct kwargs as [|kv rest];
    [destruct Hdot as (k & v & [] & _)|].
  destruct (copy (flat_config (store m))) as [bk|e] eqn:Hcopy.
  2:{ exists m, (Raise e).
      split; [reflexivity|]. split; [discriminate|].
      split; [reflexivity|]. split; [reflexivity|]. split; [reflexivity|].
      split; [|discriminate].
      intros e' _. split; [|reflexivity].
      destruct (flat_config (store m)); try discriminate;
        inversion Hcopy; reflexivity. }
  destruct (validate_updates_dotless (schemas m) (kv :: rest) Hdot) as [e ->].
  rewrite (restore_same _ _ Hnd Hcopy).
  destruct (rebuild_structured_frame DEFAULT_SCHEMA
              (with_flat (flat_config (store m)) (store m))) as [Hf _].
  destruct (rebuild_structured DEFAULT_SCHEMA
              (with_flat (flat_config (store m)) (store m)))
    as [st2 [[]|e2]] eqn:Hreb; cbn [fst with_flat flat_config] in Hf.
  - eexists _, _. split; [reflexivity|].
    cbn [store record_event with_hash with_store update_cache with_cache
         flat_config saved notified log last_config_hash].
    split; [discriminate|]. split; [exact Hf|].
    split; [reflexivity|]. split; [reflexivity|].
    split; [discriminate|].
    intros bk' _ _. repeat split.
  - eexists _, _. split; [reflexivity|].
    cbn [store with_store flat_config saved notified].
    split; [discriminate|]. split; [exact Hf|].
    split; [reflexivity|]. split; [reflexivity|].
    split; [discriminate|].
    intros bk' _ Hok.
    destruct (rebuild_structured_ok DEFAULT_SCHEMA default_schema_shape
                DEFAULT_SCHEMA (with_flat (flat_config (store m)) (store m))
                (incl_refl _) Hok) as (st3 & Hreb3 & _).
    rewrite Hreb3 in Hreb. discriminate.
Qed.

(** X6, witness: [tune(batch_size=8)] on the manager built from no file. *)
Lemma tune_dotless_name_applies_nothing_witness :
  has_dot "batch_size" = false /\
  exists m',
    tune sample_digest true [("batch_size", VInt 8)]
         (default_manager sample_digest) = (m', Ok false) /\
    saved m' = None.
Proof.
  split; [reflexivity|].
  destruct (tune_dotless_name_applies_nothing sample_digest true
              [("batch_size", VInt 8)] (default_manager sample_digest))
    as (m' & r & Hrun & _ & _ & Hsaved & _ & _ & Hroll).
  - exists "batch_size", (VInt 8). split; [now left | reflexivity].
  - vm_compute. constructor.
  - destruct (Hroll (BackupDict []) ltac:(vm_compute; reflexivity))
      as (Hr & _).
    + destruct (init_cache_structured sample_digest FileMissing (VDict [])
                  eq_refl) as (m & Hinit & Hok).
      rewrite init_missing in Hinit.
      assert (Hm : default_manager sample_digest = m) by congruence.
      rewrite Hm. exact Hok.
    + exists m'. split; [now rewrite <- Hr|].
      rewrite Hsaved. vm_compute. reflexivity.
Defined.

(** ** The two validators *)

Lemma register_find (L : list ConfigSchema) :
  NoDup (map field L) ->
  forall c0 key,
    dict_get key (fold_left (fun tbl s => dict_set (field s) s tbl) L c0)
    = match find (fun s => String.eqb (field s) key) L with
      | Some s => Some s
      | None => dict_get key c0
      end.
Proof.
  induction L as [|a L IH]; intros Hnd c0 key; [reflexivity|].
  simpl in Hnd. inversion Hnd as [|? ? Hfresh Hnd']; subst.
  simpl. rewrite (IH Hnd').
  destruct (String.eqb (field a) key) eqn:Ha.
  - apply String.eqb_eq in Ha. subst key.
    destruct (find (fun s => String.eqb (field s) (field a)) L) as [s|] eqn:Hf.
    + apply find_some in Hf. destruct Hf as [Hin Heq].
      apply String.eqb_eq in Heq. exfalso. apply Hfresh.
      rewrite <- Heq. now apply in_map.
    + apply dict_get_set_same.
  - destruct (find _ L); [reflexivity|].
    apply dict_get_set_other. intros ->. now rewrite String.eqb_refl in Ha.
Qed.

Lemma default_table_find (key : string) :
  dict_get key default_table
  = find (fun s => String.eqb (field s) key) DEFAULT_SCHEMA.
Proof.
  unfold default_table, register.
  rewrite (register_find DEFAULT_SCHEMA default_schema_nodup).
  now destruct (find _ DEFAULT_SCHEMA).
Qed.

Lemma numeric_instance_is_number (v : value) (t : pytype) :
  numeric_type t = true -> isinstance v t = true -> is_number v = true.
Proof. destruct t, v; simpl; congruence. Qed.

(** X7: [ConfigManager.validate_value] and the schema validator agree on
    every value other than [None], for every key: one returns [True] exactly
    when the other returns [(True, value)].  They part on [None]:
    [validate_value] refuses it for every key, the schema validator accepts
    it for a nullable key that is not required. *)
Theorem validate_value_agrees (key : string) (v : value) (m : ConfigManager) :
  (is_none v = false ->
   (snd (validate_value key v m) = true <->
    validate default_table key v = Ok (true, v))) /\
  snd (validate_value key VNone m) = false /\
  (snd (validate_value key v m) = true -> fst (validate_value key v m) = m).
Proof.
  unfold validate_value, validate. rewrite default_table_find.
  destruct (find (fun s => String.eqb (field s) key) DEFAULT_SCHEMA)
    as [s|] eqn:Hfind.
  2:{ repeat split; try discriminate. }
  apply find_some in Hfind. destruct Hfind as [Hin _].
  pose proof (default_schema_range s Hin) as Hrange.
  unfold range_numeric in Hrange.
  split; [|split].
  - intros Hn. rewrite Hn.
    destruct (isinstance v (type s)) eqn:Hi; simpl;
      [|split; discriminate].
    destruct (range s) as [[lo hi]|].
    + rewrite (numeric_instance_is_number v (type s) Hrange Hi).
      destruct (between_total lo hi v (type s) Hrange Hi) as [b Hb].
      rewrite Hb. simpl.
      destruct (match validator s with Some f => negb (f v) | None => false end);
        destruct b; simpl; split; congruence.
    + destruct (match validator s with Some f => negb (f v) | None => false end);
        simpl; split; congruence.
  - pose proof (default_schema_type s Hin) as Ht.
    destruct (type s); try discriminate; reflexivity.
  - destruct (negb (isinstance v (type s))); [discriminate|].
    destruct (match range s with
              | Some (lo, hi) => if is_number v then between lo hi v else Ok true
              | None => Ok true
              end) as [[|]|e]; try discriminate.
    destruct (match validator s with Some f => negb (f v) | None => false end);
      [discriminate | reflexivity].
Qed.

(** ** [set_global_blend] *)

Lemma scaffold_weight_cap_schema :
  dict_get "controls_config.scaffold_weight_cap" default_table
  = Some (ConfigSchema_ "controls_config.scaffold_weight_cap"
            TFloat (VFloat 0.9) None (Some (0.0, 1.0)%Q) false false).
Proof. vm_compute. reflexivity. Qed.

Lemma base_temperature_schema :
  dict_get "controls_config.base_temperature" default_table
  = Some (ConfigSchema_ "controls_config.base_temperature"
            TFloat (VFloat 0.7) None (Some (0.1, 2.0)%Q) false false).
Proof. vm_compute. reflexivity. Qed.

Lemma scaffold_weight_cap_valid (w : Q) :
  (0.5 <= w)%Q -> (w <= 1.0)%Q ->
  validate default_table "controls_config.scaffold_weight_cap" (VFloat w)
  = Ok (true, VFloat w).
Proof.
  intros Hlo Hhi.
  unfold validate. rewrite scaffold_weight_cap_schema. simpl.
  assert (H1 : Qle_bool 0.0 w = true) by (apply Qle_bool_iff; lra).
  assert (H2 : Qle_bool w 1.0 = true) by (apply Qle_bool_iff; lra).
  rewrite H1, H2. reflexivity.
Qed.

Lemma base_temperature_valid (t : Q) :
  (0.5 <= t)%Q -> (t <= 1.5)%Q ->
  validate default_table "controls_config.base_temperature" (VFloat t)
  = Ok (true, VFloat t).
Proof.
  intros Hlo Hhi.
  unfold validate. rewrite base_temperature_schema. simpl.
  assert (H1 : Qle_bool 0.1 t = true) by (apply Qle_bool_iff; lra).
  assert (H2 : Qle_bool t 2.0 = true) by (apply Qle_bool_iff; lra).
  rewrite H1, H2. reflexivity.
Qed.

(** What passes the test of [set_global_blend]: a number within the
    bounds. *)
Lemma given_within_true (lo hi : Q) (arg : value) :
  given_within lo hi arg = Ok true ->
  is_number arg = true /\ is_none arg = false /\ is_empty_dict arg = false /\
  forall q, arg = VFloat q -> (lo <= q)%Q /\ (q <= hi)%Q.
Proof.
  unfold given_within. intros H.
  assert (Hnum : is_number arg = true /\ is_none arg = false /\
                 is_empty_dict arg = false).
  { destruct arg; simpl in *; try discriminate; repeat split. }
  destruct Hnum as (A & B & C).
  split; [exact A|]. split; [exact B|]. split; [exact C|].
  intros x ->. simpl in H. inversion H as [H'].
  apply andb_true_iff in H'. destruct H' as [H1 H2].
  split; now apply Qle_bool_iff.
Qed.

Lemma set_global_blend_batch sha256_16 io_ok weight_cap base_temp m r1 r2 :
  given_within 0.5 1.0 weight_cap = Ok r1 ->
  given_within 0.5 1.5 base_temp = Ok r2 ->
  set_global_blend sha256_16 io_ok weight_cap base_temp m
  = match blend_updates weight_cap base_temp with
    | [] => (m, Ok true)
    | ups => update_batch sha256_16 io_ok ups true m
    end.
Proof.
  intros H1 H2. unfold set_global_blend, blend_updates. rewrite H1, H2.
  destruct r1, r2; reflexivity.
Qed.

(** An entry of the batch is one of the two arguments, under its key, and
    has passed the test. *)
Lemma blend_updates_In (weight_cap base_temp : value) (k : string) (v : value) :
  In (k, v) (blend_updates weight_cap base_temp) ->
  (k = "controls_config.scaffold_weight_cap" /\ v = weight_cap /\
   given_within 0.5 1.0 v = Ok true) \/
  (k = "controls_config.base_temperature" /\ v = base_temp /\
   given_within 0.5 1.5 v = Ok true).
Proof.
  unfold blend_updates. intros Hin. apply in_app_or in Hin.
  destruct Hin as [Hin|Hin].
  - destruct (given_within 0.5 1.0 weight_cap) as [[|]|e] eqn:E;
      try contradiction.
    destruct Hin as [Heq|[]]. inversion Heq; subst. left. auto.
  - destruct (given_within 0.5 1.5 base_temp) as [[|]|e] eqn:E;
      try contradiction.
    destruct Hin as [Heq|[]]. inversion Heq; subst. right. auto.
Qed.

Lemma blend_updates_NoDup (weight_cap base_temp : value) :
  NoDup (map fst (blend_updates weight_cap base_temp)).
Proof.
  unfold blend_updates.
  destruct (given_within 0.5 1.0 weight_cap) as [[|]|e1],
           (given_within 0.5 1.5 base_temp) as [[|]|e2];
    simpl; repeat constructor; simpl; intuition discriminate.
Qed.

(** X8: when [set_global_blend] returns [True], each argument that is a
    number within its own range ([0.5, 1.0] for the weight cap, [0.5, 1.5]
    for the temperature) has been written as it was given and reads back
    through [get]; an argument that is [None] or out of range is left out,
    and with nothing left the manager is untouched.  A [float] that is
    written satisfies the schema of its key.  An [int] or a [bool] within
    the range is written all the same, although the schema of the key,
    which declares [float], refuses it: [update_batch] does not check the
    values. *)
Theorem set_global_blend_writes_in_range (sha256_16 : value -> string)
  (io_ok : bool) (weight_cap base_temp : value) (m m' : ConfigManager) :
  set_global_blend sha256_16 io_ok weight_cap base_temp m = (m', Ok true) ->
  (blend_updates weight_cap base_temp = [] -> m' = m) /\
  (forall k v, In (k, v) (blend_updates weight_cap base_temp) ->
     is_number v = true /\
     (forall d, snd (get k d m') = v) /\
     (isinstance v TFloat = true ->
      validate default_table k v = Ok (true, v)) /\
     (isinstance v TFloat = false ->
      exists c, validate default_table k v = Ok (false, c))).
Proof.
  intros Hrun.
  destruct (given_within 0.5 1.0 weight_cap) as [r1|e1] eqn:E1.
  2:{ unfold set_global_blend in Hrun. rewrite E1 in Hrun. discriminate. }
  destruct (given_within 0.5 1.5 base_temp) as [r2|e2] eqn:E2.
  2:{ unfold set_global_blend in Hrun. rewrite E1, E2 in Hrun. discriminate. }
  rewrite (set_global_blend_batch _ _ _ _ _ _ _ E1 E2) in Hrun.
  split.
  { intros Hnil. rewrite Hnil in Hrun. congruence. }
  intros k v Hin.
  assert (Hne : blend_updates weight_cap base_temp <> [])
    by (intros Hnil; rewrite Hnil in Hin; contradiction).
  assert (Hrun' : update_batch sha256_16 io_ok
                    (blend_updates weight_cap base_temp) true m = (m', Ok true)).
  { destruct (blend_updates weight_cap base_temp); [contradiction | exact Hrun]. }
  destruct (update_batch_reads _ _ _ _ _ _ Hrun'
              (blend_updates_NoDup weight_cap base_temp) Hne)
    as (st & done & _ & Hstore & _ & Hread).
  assert (Hshape : exists lo hi s,
            given_within lo hi v = Ok true /\
            dict_get k default_table = Some s /\ type s = TFloat /\
            validator s = None /\
            (forall q, (lo <= q)%Q -> (q <= hi)%Q ->
               validate default_table k (VFloat q) = Ok (true, VFloat q))).
  { destruct (blend_updates_In _ _ _ _ Hin) as [(-> & _ & Hw)|(-> & _ & Hw)].
    - eexists _, _, _. split; [exact Hw|].
      split; [exact scaffold_weight_cap_schema|].
      split; [reflexivity|]. split; [reflexivity|].
      exact scaffold_weight_cap_valid.
    - eexists _, _, _. split; [exact Hw|].
      split; [exact base_temperature_schema|].
      split; [reflexivity|]. split; [reflexivity|].
      exact base_temperature_valid. }
  destruct Hshape as (lo & hi & s & Hw & Hl & Ht & _ & Hfloat).
  destruct (given_within_true lo hi v Hw) as (Hnum & Hnone & Hempty & Hq).
  split; [exact Hnum|]. split; [|split].
  - intros d. unfold get, get_value. rewrite Hstore, (Hread k v Hin).
    now rewrite Hempty, Hnone.
  - intros Hi. destruct v; try discriminate.
    destruct (Hq q eq_refl). now apply Hfloat.
  - intros Hi. unfold validate. rewrite Hl, Hnone, Ht, Hi. simpl. eauto.
Qed.

(** X8, witness: a weight cap of 1 given as an [int], and a temperature
    outside the accepted range. *)
Lemma set_global_blend_writes_in_range_witness :
  snd (set_global_blend sample_digest true (VInt 1) (VFloat 3)
         (default_manager sample_digest)) = Ok true /\
  (forall d,
     snd (get "controls_config.scaffold_weight_cap" d
            (fst (set_global_blend sample_digest true (VInt 1) (VFloat 3)
                    (default_manager sample_digest)))) = VInt 1) /\
  exists c,
    validate default_table "controls_config.scaffold_weight_cap" (VInt 1)
    = Ok (false, c).
Proof.
  split; [vm_compute; reflexivity|].
  destruct (proj2 (set_global_blend_writes_in_range sample_digest true
                     (VInt 1) (VFloat 3) (default_manager sample_digest)
                     (fst (set_global_blend sample_digest true (VInt 1)
                             (VFloat 3) (default_manager sample_digest)))
                     ltac:(vm_compute; reflexivity))
                  "controls_config.scaffold_weight_cap" (VInt 1)
                  ltac:(left; reflexivity))
    as (_ & Hget & _ & Hbad).
  split; [exact Hget | exact (Hbad eq_refl)].
Defined.

End ConfigOpsFacts.

(** * Further properties of the curiosity engine *)

Module PressureFacts.
Import Py Curiosity PyFacts CuriosityFacts.

Unset Implicit Arguments.
Local Open Scope Q_scope.

(** The operations come in the order of a clock that does not run
    backwards from [t], with scores and drops that are not negative. *)
Fixpoint ops_in_order (t : Q) (ops : list pressure_op) : Prop :=
  match ops with
  | [] => True
  | OpDecay now :: rest => t <= now /\ ops_in_order now rest
  | OpAdd score :: rest => 0 <= score /\ ops_in_order t rest
  | OpCheck now threshold drop :: rest =>
      t <= now /\ 0 <= drop /\ ops_in_order now rest
  end.

Lemma py_min_lower (a b c : Q) : c <= a -> c <= b -> c <= py_min a b.
Proof. intros. destruct (py_min_cases a b) as [[H' ->]|[H' ->]]; lra. Qed.

Lemma py_min_le_l (a b : Q) : py_min a b <= a.
Proof. destruct (py_min_cases a b) as [[H' ->]|[H' ->]]; lra. Qed.

Lemma decay_no_increase (now : Q) (p : CuriosityPressure) :
  constructed p ->
  min_pressure p <= current_pressure p ->
  last_update p <= now ->
  current_pressure (decay_pressure now p) <= current_pressure p.
Proof.
  intros (Hmin & _ & _ & _ & Hrate & _) Hlo Htime.
  unfold decay_pressure. simpl. apply py_max_upper; [lra|].
  assert (Hprod : 0 <= current_pressure p * (decay_rate p * (now - last_update p))).
  { apply Qmult_le_0_compat; [lra|]. apply Qmult_le_0_compat; lra. }
  lra.
Qed.

(** X9: over any sequence of decays, pressure increases and eruption checks
    whose clock does not run backwards and whose scores and drops are not
    negative, the pressure of a validated pressure object stays within
    [[min_pressure, max_pressure]], and the bounds themselves never move;
    a decay never raises the pressure. *)
Theorem pressure_stays_in_range (ops : list pressure_op) :
  forall p,
    constructed p ->
    min_pressure p <= current_pressure p <= max_pressure p ->
    ops_in_order (last_update p) ops ->
    let q := fst (run ops p) in
    min_pressure q <= current_pressure q <= max_pressure q /\
    min_pressure q = min_pressure p /\ max_pressure q = max_pressure p /\
    (forall now, last_update q <= now ->
       current_pressure (decay_pressure now q) <= current_pressure q).
Proof.
  induction ops as [|op ops IH]; intros p Hc Hr Hops; cbv zeta.
  - simpl. repeat split; try tauto.
    intros now Hnow. apply decay_no_increase; tauto.
  - destruct op as [now|score|now threshold drop]; simpl in Hops.
    + destruct Hops as [Ht Hops].
      exact (IH (decay_pressure now p) Hc (decay_in_range now p Hc Hr Ht) Hops).
    + destruct Hops as [Hs Hops].
      assert (Hr' : min_pressure p <= current_pressure (add_pressure score p)
                    <= max_pressure p).
      { destruct Hc as (Hmin & Hmb & Hbm & Hmax & Hrate & Hrate1).
        unfold add_pressure. simpl. split.
        - apply py_min_lower; lra.
        - apply py_min_le_l. }
      exact (IH (add_pressure score p) Hc Hr' Hops).
    + destruct Hops as (Ht & Hd & Hops).
      pose proof (decay_in_range now p Hc Hr Ht) as Hdr.
      cbn [run]. unfold check_eruption.
      destruct (Qle_bool threshold (current_pressure (decay_pressure now p))
                && Qlt_bool (cooldown (decay_pressure now p))
                     (now - last_eruption_time (decay_pressure now p))).
      * set (q0 := with_eruption
                     (py_max (min_pressure (decay_pressure now p))
                        (current_pressure (decay_pressure now p) - drop))
                     now (decay_pressure now p)).
        assert (Hr' : min_pressure p <= current_pressure q0 <= max_pressure p).
        { unfold q0. cbn [current_pressure with_eruption]. split.
          - apply py_max_lower.
          - apply py_max_upper.
            + destruct Hc as (Hmin & Hmb & Hbm & Hmax & _). simpl. lra.
            + simpl min_pressure in Hdr. lra. }
        pose proof (IH q0 Hc Hr' Hops) as H. cbv zeta in H.
        destruct (run ops q0) as [q' ts]. exact H.
      * exact (IH (decay_pressure now p) Hc Hdr Hops).
Qed.

(** X9, witness: the eruption scenario, followed by an increase and a
    decay. *)
Lemma pressure_stays_in_range_witness :
  constructed sample_pressure /\
  ops_in_order (last_update sample_pressure)
    [OpCheck 100 0.7 0.3; OpAdd 0.8; OpDecay 130] /\
  min_pressure sample_pressure
  <= current_pressure
       (fst (run [OpCheck 100 0.7 0.3; OpAdd 0.8; OpDecay 130] sample_pressure)).
Proof.
  assert (Hc : constructed sample_pressure)
    by (unfold constructed; simpl; repeat split; discriminate).
  assert (Ho : ops_in_order (last_update sample_pressure)
                 [OpCheck 100 0.7 0.3; OpAdd 0.8; OpDecay 130])
    by (simpl; repeat split; discriminate).
  split; [exact Hc|]. split; [exact Ho|].
  refine (proj1 (proj1 (pressure_stays_in_range _ sample_pressure Hc _ Ho))).
  simpl; split; discriminate.
Defined.

End PressureFacts.
